(** * chatai: the chat controller, its input box and the responder

    A shallow embedding of the connection-resilience logic of the
    [EmpatheticChatbot] component (realtime subscription with backoff,
    optimistic send with a single pending slot, missing-response recovery,
    conversation deletion), of [ChatInput.handleSend] and of the history
    query of the [chat-with-ai] edge function.

    React state and refs are fields of one [State] record; every handler is
    a computation in a state-and-trace monad [M] that may throw; calls to
    the outside world (the realtime client, storage, the edge functions,
    timers, toasts, the query cache) are recorded in the trace in program
    order; their results are supplied by an environment record.

    The later parts cover the code around these: the [chat-with-ai] and
    [get-conversations] handlers over the two tables of the migrations, the
    input box of [ChatInput.tsx] with its file input, [ConversationStarter],
    and the typing effect of [ChatMessage]. *)

From Stdlib Require Import ZArith NArith List Ascii String DecimalString Bool Lia Arith.
From Stdlib Require Import Sorting.Sorted Sorting.Permutation.
Import ListNotations.
Local Open Scope Z_scope.

Set Implicit Arguments.

(** ** JavaScript strings

    A JS string is a sequence of UTF-16 code units. *)

Module JS.

Definition jsstring := list N.

Definition js (s : string) : jsstring :=
  map N_of_ascii (list_ascii_of_string s).

Fixpoint eqb (a b : jsstring) : bool :=
  match a, b with
  | [], [] => true
  | x :: a', y :: b' => N.eqb x y && eqb a' b'
  | _, _ => false
  end.

(** [s.startsWith(p)] *)
Fixpoint startsWith (s p : jsstring) : bool :=
  match p, s with
  | [], _ => true
  | y :: p', x :: s' => N.eqb x y && startsWith s' p'
  | _ :: _, [] => false
  end.

(** ECMAScript WhiteSpace and LineTerminator code points, the ones
    [String.prototype.trim] strips (all of them are single code units). *)
Definition isWhiteSpace (c : N) : bool :=
  match c with
  | 9 | 10 | 11 | 12 | 13 | 32 | 160 | 5760
  | 8192 | 8193 | 8194 | 8195 | 8196 | 8197 | 8198 | 8199 | 8200 | 8201 | 8202
  | 8232 | 8233 | 8239 | 8287 | 12288 | 65279 => true
  | _ => false
  end%N.

Fixpoint trimStart (s : jsstring) : jsstring :=
  match s with
  | c :: s' => if isWhiteSpace c then trimStart s' else s
  | [] => []
  end.

Definition trimEnd (s : jsstring) : jsstring := rev (trimStart (rev s)).

(** [s.trim()] *)
Definition trim (s : jsstring) : jsstring := trimEnd (trimStart s).

(** Truthiness of a string: only the empty string is falsy. *)
Definition truthy (s : jsstring) : bool :=
  match s with [] => false | _ :: _ => true end.

(** [a || b] on strings. *)
Definition or_else (a b : jsstring) : jsstring := if truthy a then a else b.

(** [String(n)] for a non-negative integer, as in a template literal. *)
Definition ofN (n : N) : jsstring := js (NilEmpty.string_of_uint (N.to_uint n)).

(** [s.split('.').pop()]: the part after the last dot, the whole string
    when there is none. *)
Fixpoint lastSegment (acc s : jsstring) : jsstring :=
  match s with
  | [] => rev acc
  | c :: s' => if N.eqb c 46 then lastSegment [] s' else lastSegment (c :: acc) s'
  end.

Definition whitespaceOnly (s : jsstring) : Prop := Forall (fun c => isWhiteSpace c = true) s.

End JS.
Export JS.

(** ** Data model *)

Inductive Role := user | assistant.

Definition Role_eqb (a b : Role) : bool :=
  match a, b with
  | user, user | assistant, assistant => true
  | _, _ => false
  end.

Module Message.
Record t := mk {
  id : jsstring;
  role : Role;
  content : jsstring;
  image_url : option jsstring;
  created_at : jsstring
}.
End Message.
Abbreviation Message := Message.t.

Module Conversation.
Record t := mk {
  id : jsstring;
  title : jsstring;
  created_at : jsstring;
  updated_at : jsstring
}.
End Conversation.
Abbreviation Conversation := Conversation.t.

(** A browser [File]: its name and its bytes. *)
Record File := { name : jsstring; bytes : list Byte.byte }.

(** The variables of a send, which are also the Pending Send slot:
    [{message: string, imageFile?: File}]. *)
Record SendVars := { message : jsstring; imageFile : option File }.

Inductive ConnectionStatus := connected | disconnected | reconnecting.
Inductive SubscriptionStatus := active | inactive | error.

(** Status values the realtime client passes to the subscribe callback. *)
Inductive ChannelStatus := SUBSCRIBED | CHANNEL_ERROR | TIMED_OUT | CLOSED.

(** Maximum number of retry attempts *)
Definition MAX_RETRIES : Z := 3.

(** A thrown JS value: whether it is an [Error] instance, and its message. *)
Record JsError := { instanceofError : bool; errorMessage : jsstring }.

(** ** Component state

    The [useState] cells and [useRef] boxes of [EmpatheticChatbot], the
    results of its two queries, and [navigator.onLine]. [messagesRef] and
    [messagesDataRef] stand for the identity of the current [messages] array
    and [messagesData] object: React compares effect dependencies with
    [Object.is], so a new array with the same content is a change. *)

Record State := mkState {
  currentConversationId : option jsstring;
  messages : list Message;
  messagesRef : nat;
  connectionStatus : ConnectionStatus;
  pendingMessage : option SendVars;
  subscriptionStatus : SubscriptionStatus;
  isDeletingConversation : bool;
  realtimeChannelRef : option jsstring;
  retryCountRef : Z;
  retryTimeoutRef : option nat;
  timerSeq : nat;
  conversationsData : option (list Conversation);
  messagesData : option (list Message);
  messagesDataRef : nat;
  messagesLoading : bool;
  onLine : bool
}.

(** The state of a freshly mounted component ([localStorage] empty). *)
Definition initialState : State :=
  {| currentConversationId := None; messages := []; messagesRef := 0%nat;
     connectionStatus := connected; pendingMessage := None;
     subscriptionStatus := inactive; isDeletingConversation := false;
     realtimeChannelRef := None; retryCountRef := 0; retryTimeoutRef := None;
     timerSeq := 0%nat; conversationsData := None; messagesData := None;
     messagesDataRef := 0%nat; messagesLoading := false; onLine := true |}.

(** Callbacks handed to [setTimeout], with the values their closures hold. *)
Inductive Callback :=
| RetrySubscription (conversationId : jsstring)
| RemovePlaceholders (tempMessageId : jsstring)
| RetryPending (captured : option SendVars).

(** Body of a [chat-with-ai] invocation. *)
Record InvokeBody := {
  body_message : jsstring;
  body_conversationId : option jsstring;
  body_imageUrl : option jsstring;
  body_isRetry : bool
}.

(** Calls to the outside world, and writes of the Pending Send slot, in
    program order. *)
Inductive Action :=
| SetPendingMessage (p : option SendVars)
| RemoveChannel (conversationId : jsstring)
| Subscribe (conversationId : jsstring)
| SetTimeout (handle : nat) (cb : Callback) (delayMs : Z)
| ClearTimeout (handle : nat)
| Toast (title description : jsstring) (destructive : bool)
| Mutate (vars : SendVars)
| StorageUpload (fileName : jsstring) (file : File)
| InvokeChatWithAi (body : InvokeBody)
| DeleteConversationRow (conversationId : jsstring)
| InvalidateQueries (queryKey : jsstring)
| LocalStorageSetItem (key value : jsstring)
| LocalStorageRemoveItem (key : jsstring).

(** ** The handler monad *)

Inductive Outcome (A : Type) :=
| Returned (a : A)
| Thrown (e : JsError).
Arguments Returned {A} a.
Arguments Thrown {A} e.

Definition M (A : Type) : Type := State -> Outcome A * State * list Action.

Definition ret {A} (a : A) : M A := fun s => (Returned a, s, []).

Definition bind {A B} (c : M A) (k : A -> M B) : M B :=
  fun s =>
    match c s with
    | (Returned a, s1, t1) =>
        let '(r, s2, t2) := k a s1 in (r, s2, t1 ++ t2)
    | (Thrown e, s1, t1) => (Thrown e, s1, t1)
    end.

Definition throw {A} (e : JsError) : M A := fun s => (Thrown e, s, []).

(** [try { c } catch (e) { h e }] *)
Definition try_catch {A} (c : M A) (h : JsError -> M A) : M A :=
  fun s =>
    match c s with
    | (Returned a, s1, t1) => (Returned a, s1, t1)
    | (Thrown e, s1, t1) =>
        let '(r, s2, t2) := h e s1 in (r, s2, t1 ++ t2)
    end.

Definition gets {A} (f : State -> A) : M A := fun s => (Returned (f s), s, []).
Definition modify (f : State -> State) : M unit := fun s => (Returned tt, f s, []).
Definition act (a : Action) : M unit := fun s => (Returned tt, s, [a]).

Declare Scope handler_scope.
Delimit Scope handler_scope with M.
Notation "x <- c ;; k" := (bind c (fun x => k))
  (at level 61, c at next level, right associativity) : handler_scope.
Notation "c ;; k" := (bind c (fun _ => k))
  (at level 61, right associativity) : handler_scope.
Local Open Scope handler_scope.

Definition when (b : bool) (c : M unit) : M unit := if b then c else ret tt.

Definition outcome {A} (r : Outcome A * State * list Action) : Outcome A := fst (fst r).
Definition state_of {A} (r : Outcome A * State * list Action) : State := snd (fst r).
Definition trace {A} (r : Outcome A * State * list Action) : list Action := snd r.

(** State setters ([setX(v)] and [xRef.current = v]). *)

Definition setCurrentConversationId (v : option jsstring) : M unit :=
  modify (fun s => let 'mkState _ b c d e f g h i j k l m n o p := s in
                   mkState v b c d e f g h i j k l m n o p).

(** [setMessages(next)] with a freshly built array. *)
Definition setMessages (v : list Message) : M unit :=
  modify (fun s => let 'mkState a _ c d e f g h i j k l m n o p := s in
                   mkState a v (S c) d e f g h i j k l m n o p).

Definition setConnectionStatus (v : ConnectionStatus) : M unit :=
  modify (fun s => let 'mkState a b c _ e f g h i j k l m n o p := s in
                   mkState a b c v e f g h i j k l m n o p).

Definition setPendingMessage (v : option SendVars) : M unit :=
  modify (fun s => let 'mkState a b c d _ f g h i j k l m n o p := s in
                   mkState a b c d v f g h i j k l m n o p) ;;
  act (SetPendingMessage v).

Definition setSubscriptionStatus (v : SubscriptionStatus) : M unit :=
  modify (fun s => let 'mkState a b c d e _ g h i j k l m n o p := s in
                   mkState a b c d e v g h i j k l m n o p).

Definition setIsDeletingConversation (v : bool) : M unit :=
  modify (fun s => let 'mkState a b c d e f _ h i j k l m n o p := s in
                   mkState a b c d e f v h i j k l m n o p).

Definition setRealtimeChannelRef (v : option jsstring) : M unit :=
  modify (fun s => let 'mkState a b c d e f g _ i j k l m n o p := s in
                   mkState a b c d e f g v i j k l m n o p).

Definition setRetryCountRef (v : Z) : M unit :=
  modify (fun s => let 'mkState a b c d e f g h _ j k l m n o p := s in
                   mkState a b c d e f g h v j k l m n o p).

Definition setRetryTimeoutRef (v : option nat) : M unit :=
  modify (fun s => let 'mkState a b c d e f g h i _ k l m n o p := s in
                   mkState a b c d e f g h i v k l m n o p).

(** [setTimeout(cb, delayMs)]: returns a fresh handle. *)
Definition setTimeout (cb : Callback) (delayMs : Z) : M nat :=
  h <- gets timerSeq ;;
  modify (fun s => let 'mkState a b c d e f g h' i j _ l m n o p := s in
                   mkState a b c d e f g h' i j (S h) l m n o p) ;;
  act (SetTimeout h cb delayMs) ;;
  ret h.

Definition toast (title description : jsstring) (destructive : bool) : M unit :=
  act (Toast title description destructive).

(** [currentConversationId] where the code tests it for truthiness: [null]
    and the empty string count as no conversation. *)
Definition activeConversation (s : State) : option jsstring :=
  match currentConversationId s with
  | Some c => if truthy c then Some c else None
  | None => None
  end.

(** ** Realtime Link *)

(** [setupRealtimeSubscription(conversationId)]: drop the channel held in
    the ref, mark the subscription inactive, open and subscribe a channel for
    the conversation, keep it in the ref. *)
Definition setupRealtimeSubscription (conversationId : jsstring) : M unit :=
  try_catch
    (ch <- gets realtimeChannelRef ;;
     match ch with
     | Some c => act (RemoveChannel c)
     | None => ret tt
     end ;;
     setSubscriptionStatus inactive ;;
     act (Subscribe conversationId) ;;
     setRealtimeChannelRef (Some conversationId))
    (fun _ => setSubscriptionStatus error).

(** The INSERT handler of the channel. The updater returns [prev] itself
    when the id is already present, so the array keeps its identity. *)
Definition onInsert (newMessage : Message) : M unit :=
  prev <- gets messages ;;
  (if existsb (fun msg => JS.eqb (Message.id msg) (Message.id newMessage)) prev
   then ret tt
   else setMessages (prev ++ [newMessage])) ;;
  setRetryCountRef 0 ;;
  when (Role_eqb (Message.role newMessage) assistant)
    (toast (js "AI Response") (js "New response received! " ++ [55358; 56598]%N) false).

(** The UPDATE handler of the channel. *)
Definition onUpdate (updatedMessage : Message) : M unit :=
  prev <- gets messages ;;
  setMessages
    (map (fun msg => if JS.eqb (Message.id msg) (Message.id updatedMessage)
                     then updatedMessage else msg) prev).

(** The timer callback of the backoff: count the attempt, show
    [reconnecting], subscribe again. *)
Definition retrySubscription (conversationId : jsstring) : M unit :=
  n <- gets retryCountRef ;;
  setRetryCountRef (n + 1) ;;
  setConnectionStatus reconnecting ;;
  setupRealtimeSubscription conversationId.

(** The callback given to [subscribe]. *)
Definition onSubscribeStatus (conversationId : jsstring) (status : ChannelStatus) : M unit :=
  match status with
  | SUBSCRIBED =>
      setSubscriptionStatus active ;;
      setConnectionStatus connected
  | CHANNEL_ERROR =>
      setSubscriptionStatus error ;;
      n <- gets retryCountRef ;;
      if n <? MAX_RETRIES then
        let delayMs := 2 ^ n * 1000 in
        h <- setTimeout (RetrySubscription conversationId) delayMs ;;
        setRetryTimeoutRef (Some h)
      else
        toast (js "Connection error")
              (js "Failed to maintain connection. Please reload the page.") true
  | _ => ret tt
  end.

(** The effect on [currentConversationId]: its body, and its cleanup. *)
Definition subscriptionEffect : M unit :=
  cid <- gets activeConversation ;;
  match cid with
  | None =>
      ch <- gets realtimeChannelRef ;;
      match ch with
      | Some c =>
          act (RemoveChannel c) ;;
          setRealtimeChannelRef None ;;
          setSubscriptionStatus inactive
      | None => ret tt
      end
  | Some c =>
      setRetryCountRef 0 ;;
      setupRealtimeSubscription c
  end.

Definition subscriptionEffectCleanup : M unit :=
  ch <- gets realtimeChannelRef ;;
  match ch with
  | Some c => act (RemoveChannel c) ;; setRealtimeChannelRef None
  | None => ret tt
  end.

(** The cleanup of the connectivity effect, whose dependencies are
    [[pendingMessage, currentConversationId, subscriptionStatus, toast]]:
    React runs it before the effect runs again, that is after every render
    in which one of these changed, and when the component unmounts. Besides
    removing the two window listeners it clears the timer held in
    [retryTimeoutRef]. *)
Definition connectivityEffectCleanup : M unit :=
  h <- gets retryTimeoutRef ;;
  match h with
  | Some t => act (ClearTimeout t)
  | None => ret tt
  end.

(** ** Send entry points and connectivity handlers *)

(** [handleSendMessage(message, imageFile)]. [mutate] hands the variables to
    the mutation, whose [mutationFn] starts afterwards. *)
Definition handleSendMessage (message : jsstring) (imageFile : option File) : M unit :=
  online <- gets onLine ;;
  if negb online then
    setPendingMessage (Some {| message := message; imageFile := imageFile |}) ;;
    toast (js "You're offline")
          (js "Message will be sent when connection is restored") true
  else
    act (Mutate {| message := message; imageFile := imageFile |}).

Definition handleOnlineStatus : M unit :=
  setConnectionStatus connected ;;
  pending <- gets pendingMessage ;;
  status <- gets subscriptionStatus ;;
  cid <- gets activeConversation ;;
  match pending with
  | Some p =>
      toast (js "Connection restored") (js "Resending your previous message") false ;;
      handleSendMessage (message p) (imageFile p) ;;
      setPendingMessage None
  | None => ret tt
  end ;;
  match status, cid with
  | error, Some c => setupRealtimeSubscription c
  | _, _ => ret tt
  end.

Definition handleOfflineStatus : M unit :=
  setConnectionStatus disconnected ;;
  toast (js "Connection lost") (js "Please check your internet connection") true.

Definition setOnLine (v : bool) : M unit :=
  modify (fun s => let 'mkState a b c d e f g h i j k l m n o _ := s in
                   mkState a b c d e f g h i j k l m n o v).

(** The browser's [online] and [offline] events: [navigator.onLine] has its
    new value when the listener runs. *)
Definition windowOnline : M unit := setOnLine true ;; handleOnlineStatus.
Definition windowOffline : M unit := setOnLine false ;; handleOfflineStatus.

(** [handleRetryMessage], over the [pendingMessage] its closure holds. *)
Definition handleRetryMessageWith (pending : option SendVars) : M unit :=
  match pending with
  | Some messageToRetry =>
      setPendingMessage None ;;
      handleSendMessage (message messageToRetry) (imageFile messageToRetry)
  | None => ret tt
  end.

Definition handleRetryMessage : M unit :=
  pending <- gets pendingMessage ;;
  handleRetryMessageWith pending.

(** The explicit reconnect action behind the Reconnect buttons. *)
Definition handleForceReconnect : M unit :=
  pending <- gets pendingMessage ;;
  cid <- gets activeConversation ;;
  setConnectionStatus reconnecting ;;
  match cid with
  | Some c => setupRealtimeSubscription c
  | None => ret tt
  end ;;
  match pending with
  | Some _ => _ <- setTimeout (RetryPending pending) 1000 ;; ret tt
  | None => ret tt
  end.

(** What a timer does when it fires. [RemovePlaceholders] comes with the
    send pipeline below. *)
Definition removePlaceholders (tempMessageId : jsstring) : M unit :=
  prev <- gets messages ;;
  setMessages
    (filter (fun msg => negb (JS.eqb (Message.id msg) tempMessageId)
                        && negb (JS.startsWith (Message.id msg) (js "optimistic-")))
            prev).

Definition fire (cb : Callback) : M unit :=
  match cb with
  | RetrySubscription c => retrySubscription c
  | RemovePlaceholders t => removePlaceholders t
  | RetryPending p => handleRetryMessageWith p
  end.

(** ** Send Pipeline *)

Record ResponderData := {
  data_response : jsstring;
  data_conversationId : option jsstring
}.

Inductive InvokeResult :=
| InvokeOk (data : ResponderData)
| InvokeError (e : JsError).

(** What the outside world answers during one send: the clock readings of
    the three [Date.now()] calls and two [toISOString()] calls, whether the
    upload reports an error, the public URL of a stored name, and the
    result of the [chat-with-ai] invocation. *)
Record SendEnv := {
  now_fileName : N;
  now_optimistic : N;
  now_temp : N;
  iso_optimistic : jsstring;
  iso_temp : jsstring;
  uploadError : option JsError;
  getPublicUrl : jsstring -> jsstring;
  invokeResult : InvokeResult
}.

Definition optimisticUserMsg (env : SendEnv) (vars : SendVars) (imageUrl : option jsstring) : Message :=
  {| Message.id := js "optimistic-user-" ++ ofN (now_optimistic env);
     Message.role := user;
     Message.content := message vars;
     Message.image_url := imageUrl;
     Message.created_at := iso_optimistic env |}.

Definition tempMessageId (env : SendEnv) : jsstring := js "temp-" ++ ofN (now_temp env).

Definition tempMessage (env : SendEnv) : Message :=
  {| Message.id := tempMessageId env;
     Message.role := assistant;
     Message.content := [];
     Message.image_url := None;
     Message.created_at := iso_temp env |}.

(** The upload step of [mutationFn]: the image URL, or a throw. *)
Definition uploadImage (env : SendEnv) (imageFile : option File) : M (option jsstring) :=
  match imageFile with
  | Some f =>
      let fileExt := lastSegment [] (name f) in
      let fileName := ofN (now_fileName env) ++ js "." ++ fileExt in
      act (StorageUpload fileName f) ;;
      match uploadError env with
      | Some _ =>
          throw {| instanceofError := true; errorMessage := js "Failed to upload image" |}
      | None => ret (Some (getPublicUrl env fileName))
      end
  | None => ret None
  end.

(** [sendMessageMutation.mutationFn({message, imageFile})], run without
    other handlers interleaved at its awaits. *)
Definition mutationFn (env : SendEnv) (vars : SendVars) : M ResponderData :=
  cid <- gets currentConversationId ;;
  try_catch
    (setPendingMessage (Some {| message := message vars; imageFile := imageFile vars |}) ;;
     imageUrl <- uploadImage env (imageFile vars) ;;
     prev <- gets messages ;;
     setMessages (prev ++ [optimisticUserMsg env vars imageUrl]) ;;
     prev <- gets messages ;;
     setMessages (prev ++ [tempMessage env]) ;;
     act (InvokeChatWithAi {| body_message := message vars;
                              body_conversationId := cid;
                              body_imageUrl := imageUrl;
                              body_isRetry := false |}) ;;
     match invokeResult env with
     | InvokeError e => throw e
     | InvokeOk data =>
         setPendingMessage None ;;
         _ <- setTimeout (RemovePlaceholders (tempMessageId env)) 500 ;;
         ret data
     end)
    (fun e =>
       toast (js "Message failed to send")
             (js "We'll retry when connection is restored") true ;;
       throw e).

Definition option_eqb (a b : option jsstring) : bool :=
  match a, b with
  | Some x, Some y => JS.eqb x y
  | None, None => true
  | _, _ => false
  end.

Definition sendOnSuccess (data : ResponderData) : M unit :=
  cid <- gets currentConversationId ;;
  match data_conversationId data with
  | Some c =>
      when (truthy c && negb (option_eqb (Some c) cid))
        (setCurrentConversationId (Some c))
  | None => ret tt
  end ;;
  act (InvalidateQueries (js "conversations")).

Definition errorDescription (e : JsError) (fallback : jsstring) : jsstring :=
  if instanceofError e then errorMessage e else fallback.

Definition sendOnError (e : JsError) : M unit :=
  online <- gets onLine ;;
  when online
    (toast (js "Error")
           (errorDescription e (js "Failed to send message. Please try again.")) true).

(** One run of the mutation: [mutationFn], then [onSuccess] or [onError]. *)
Definition sendMessageMutation (env : SendEnv) (vars : SendVars) : M unit :=
  fun s =>
    match mutationFn env vars s with
    | (Returned data, s1, t1) =>
        let '(r, s2, t2) := sendOnSuccess data s1 in (r, s2, t1 ++ t2)
    | (Thrown e, s1, t1) =>
        let '(r, s2, t2) := sendOnError e s1 in (r, s2, t1 ++ t2)
    end.

(** ** Deleting the current conversation *)

Definition deleteMutationFn (deleteError : option JsError) : M bool :=
  cid <- gets activeConversation ;;
  match cid with
  | None => ret false
  | Some c =>
      setIsDeletingConversation true ;;
      act (DeleteConversationRow c) ;;
      match deleteError with
      | Some e => throw e
      | None => ret true
      end
  end.

Definition deleteOnSuccess : M unit :=
  toast (js "Success") (js "Conversation deleted successfully") false ;;
  setCurrentConversationId None ;;
  setMessages [] ;;
  act (LocalStorageRemoveItem (js "currentConversationId")) ;;
  act (InvalidateQueries (js "conversations")) ;;
  setIsDeletingConversation false.

Definition deleteOnError (e : JsError) : M unit :=
  toast (js "Error") (errorDescription e (js "Failed to delete conversation")) true ;;
  setIsDeletingConversation false.

(** [handleDeleteConversation]: one run of [deleteConversationMutation]. *)
Definition deleteConversationMutation (deleteError : option JsError) : M unit :=
  fun s =>
    match deleteMutationFn deleteError s with
    | (Returned _, s1, t1) =>
        let '(r, s2, t2) := deleteOnSuccess s1 in (r, s2, t1 ++ t2)
    | (Thrown e, s1, t1) =>
        let '(r, s2, t2) := deleteOnError e s1 in (r, s2, t1 ++ t2)
    end.

(** ** Loading a conversation and missing-response recovery *)

(** Equality of the content of two results of the messages query. *)
Definition Message_eqb (a b : Message) : bool :=
  JS.eqb (Message.id a) (Message.id b)
  && Role_eqb (Message.role a) (Message.role b)
  && JS.eqb (Message.content a) (Message.content b)
  && option_eqb (Message.image_url a) (Message.image_url b)
  && JS.eqb (Message.created_at a) (Message.created_at b).

Fixpoint messages_eqb (l l' : list Message) : bool :=
  match l, l' with
  | [], [] => true
  | a :: l1, b :: l1' => Message_eqb a b && messages_eqb l1 l1'
  | _, _ => false
  end.

Definition sameData (a b : option (list Message)) : bool :=
  match a, b with
  | Some l, Some l' => messages_eqb l l'
  | None, None => true
  | _, _ => false
  end.

(** The messages query hands over [data] and [isLoading]. With the default
    structural sharing of [useQuery], data whose content equals the data
    held is handed over as the object held, so [messagesData] keeps its
    identity; other data is a new object. *)
Definition setMessagesQuery (data : option (list Message)) (loading : bool) : M unit :=
  modify (fun s => let 'mkState a b c d e f g h i j k l m n _ p := s in
                   if sameData data m
                   then mkState a b c d e f g h i j k l m n loading p
                   else mkState a b c d e f g h i j k l data (S n) loading p).

(** The messages query of the selected conversation starts fetching (no
    data yet), and delivers its result. *)
Definition messagesQueryLoading : M unit := setMessagesQuery None true.
Definition messagesQuerySettled (data : list Message) : M unit :=
  setMessagesQuery (Some data) false.

Definition handleSelectConversation (conversationId : jsstring) : M unit :=
  setCurrentConversationId (Some conversationId) ;;
  act (LocalStorageSetItem (js "currentConversationId") conversationId).

Definition handleNewConversation : M unit :=
  setCurrentConversationId None ;;
  setMessages [] ;;
  act (LocalStorageRemoveItem (js "currentConversationId")).

(** "Update local messages when query data changes", over the values of
    the render it belongs to. *)
Definition syncMessagesEffect (render : State) : M unit :=
  match messagesData render with
  | Some msgs => setMessages msgs
  | None =>
      match activeConversation render with
      | None => setMessages []
      | Some _ => ret tt
      end
  end.

(** "Check for missing AI responses on reload", over the values of the
    render it belongs to. The invocation is not awaited. *)
Definition recoveryEffect (render : State) : M unit :=
  let msgs := messages render in
  match messagesData render with
  | Some _ =>
      if negb (messagesLoading render) && (0 <? List.length msgs)%nat then
        match nth_error msgs (List.length msgs - 1) with
        | Some lastUserMsg =>
            when (Role_eqb (Message.role lastUserMsg) user)
              (toast (js "Retrieving AI response")
                     (js "Fetching the response to your last message") false ;;
               act (InvokeChatWithAi
                      {| body_message := Message.content lastUserMsg;
                         body_conversationId := currentConversationId render;
                         body_imageUrl := Message.image_url lastUserMsg;
                         body_isRetry := true |}))
        | None => ret tt
        end
      else ret tt
  | None => ret tt
  end.

(** Dependency arrays: [[messagesData, currentConversationId]] and
    [[messagesData, currentConversationId, messagesLoading, messages, toast]]
    ([toast] never changes). *)
Definition syncDepsChanged (prev cur : State) : bool :=
  negb (Nat.eqb (messagesDataRef prev) (messagesDataRef cur))
  || negb (option_eqb (currentConversationId prev) (currentConversationId cur)).

Definition recoveryDepsChanged (prev cur : State) : bool :=
  syncDepsChanged prev cur
  || negb (Bool.eqb (messagesLoading prev) (messagesLoading cur))
  || negb (Nat.eqb (messagesRef prev) (messagesRef cur)).

(** The two effects after one render, [prev] being the previous render. *)
Definition effectsPass (prev : State) : M unit :=
  render <- gets (fun s => s) ;;
  when (syncDepsChanged prev render) (syncMessagesEffect render) ;;
  when (recoveryDepsChanged prev render) (recoveryEffect render).

(** After a handler: render and run the effects; the state they set causes
    one more render, whose effects set nothing. *)
Definition runEffects (prev : State) : M unit :=
  render <- gets (fun s => s) ;;
  effectsPass prev ;;
  effectsPass render.

Definition dispatch (handler : M unit) : M unit :=
  prev <- gets (fun s => s) ;;
  handler ;;
  runEffects prev.

(** Selecting a conversation and receiving its stored messages. *)
Definition loadConversation (conversationId : jsstring) (stored : list Message) : M unit :=
  dispatch (handleSelectConversation conversationId) ;;
  dispatch messagesQueryLoading ;;
  dispatch (messagesQuerySettled stored).

(** The recovery invocations in a trace. *)
Definition recoveryInvocations (t : list Action) : list InvokeBody :=
  flat_map (fun a => match a with
                     | InvokeChatWithAi b => if body_isRetry b then [b] else []
                     | _ => []
                     end) t.

(** ** The chat input box *)

Module ChatInput.

Record InputState := {
  message : jsstring;
  selectedImage : option File;
  imagePreview : option jsstring
}.

Definition isSome {A} (o : option A) : bool :=
  match o with Some _ => true | None => false end.

(** [handleSend]: the state of the box afterwards, and the call of
    [onSendMessage] it makes, if any. *)
Definition handleSend (st : InputState) : InputState * option SendVars :=
  if negb (truthy (trim (message st))) && negb (isSome (selectedImage st)) then
    (st, None)
  else
    ({| message := []; selectedImage := None; imagePreview := None |},
     Some (Build_SendVars
             (or_else (trim (message st)) (js "Please analyze this image"))
             (selectedImage st))).

End ChatInput.

(** The input box of [src/components/Chatbot/ChatInput.tsx], the variant
    with the [isDisabled] prop. Its send handler is [handleSendMessage]. *)

Module ChatInputDisableable.

Record InputState := {
  message : jsstring;
  imageFile : option File;
  imagePreview : option jsstring
}.

Definition handleSendMessage (st : InputState) : InputState * option SendVars :=
  if JS.eqb (trim (message st)) [] && negb (ChatInput.isSome (imageFile st)) then
    (st, None)
  else
    ({| message := []; imageFile := None; imagePreview := None |},
     Some (Build_SendVars (message st) (imageFile st))).

End ChatInputDisableable.

(** ** The responder's context window *)

Module Responder.

(** A row of the [messages] table; [created_at] as a position on the time
    line. *)
Record Row := {
  conversation_id : jsstring;
  role : Role;
  content : jsstring;
  image_url : option jsstring;
  created_at : Z
}.

Inductive Content :=
| Text (text : jsstring)
| TextAndImage (text : jsstring) (url : jsstring).

Record ChatMessage := {
  cm_role : jsstring;
  cm_content : Content;
  cm_image_url : option jsstring
}.

(** [.order('created_at', { ascending: true })] *)
Fixpoint insertAsc (r : Row) (l : list Row) : list Row :=
  match l with
  | [] => [r]
  | x :: l' => if created_at r <? created_at x then r :: l else x :: insertAsc r l'
  end.

Definition orderAsc (l : list Row) : list Row := fold_right insertAsc [] (rev l).

(** The history query: the conversation's rows, ascending by creation
    time, [limit(20)]. *)
Definition historyData (db : list Row) (conversationId : jsstring) : list Row :=
  firstn 20
    (orderAsc (filter (fun r => JS.eqb (conversation_id r) conversationId) db)).

Definition roleName (r : Role) : jsstring :=
  match r with user => js "user" | assistant => js "assistant" end.

Definition toChatMessage (msg : Row) : ChatMessage :=
  {| cm_role := roleName (role msg);
     cm_content := Text (content msg);
     cm_image_url := match image_url msg with
                     | Some u => if truthy u then Some u else None
                     | None => None
                     end |}.

Definition history (db : list Row) (conversationId : option jsstring) : list ChatMessage :=
  match conversationId with
  | Some c => if truthy c then map toChatMessage (historyData db c) else []
  | None => []
  end.

Definition currentMessage (message : jsstring) (imageUrl : option jsstring) : ChatMessage :=
  {| cm_role := js "user";
     cm_content := match imageUrl with
                   | Some u => if truthy u then TextAndImage message u else Text message
                   | None => Text message
                   end;
     cm_image_url := None |}.

Definition systemPrompt : ChatMessage :=
  {| cm_role := js "system";
     cm_content := Text (js
"You are an intelligent AI assistant with the ability to see and understand images. Your core traits:

1. IMAGE UNDERSTANDING: When provided with images, analyze them thoroughly - describe what you see, identify objects, understand context, and respond appropriately.

2. NATURAL CONVERSATION: Maintain a warm, conversational tone. Ask follow-up questions, show genuine interest, and remember context from the conversation.

3. HELPFUL ASSISTANCE: Provide practical help. Offer solutions, suggestions, and information.

Always respond with intelligence, making the user feel heard and understood.");
     cm_image_url := None |}.

(** [openAIMessages] *)
Definition openAIMessages (db : list Row) (message : jsstring)
    (conversationId imageUrl : option jsstring) : list ChatMessage :=
  [systemPrompt] ++ history db conversationId ++ [currentMessage message imageUrl].

(** The window the comment on the query announces ("Limit context to last
    20 messages"): the 20 most recent rows of the conversation, oldest
    first. *)
Definition mostRecent20 (db : list Row) (conversationId : jsstring) : list Row :=
  let rows := orderAsc (filter (fun r => JS.eqb (conversation_id r) conversationId) db) in
  skipn (List.length rows - 20) rows.

End Responder.

(** ** Runs *)

(** The delays of the reconnection attempts scheduled in a trace. *)
Definition scheduledRetries (t : list Action) : list Z :=
  flat_map (fun a => match a with
                     | SetTimeout _ (RetrySubscription _) delayMs => [delayMs]
                     | _ => []
                     end) t.

(** Every timer set in a trace fires, in the order they were set. *)
Fixpoint fireScheduled (t : list Action) : M unit :=
  match t with
  | SetTimeout _ cb _ :: t' => fire cb ;; fireScheduled t'
  | _ :: t' => fireScheduled t'
  | [] => ret tt
  end.

(** *** Renders between the handlers

    A handler that changes state causes a render, and after the render React
    runs the cleanup of every effect one of whose dependencies changed, then
    the effect again. The dependencies of the connectivity effect are
    [[pendingMessage, currentConversationId, subscriptionStatus, toast]]. *)

Definition SubscriptionStatus_eqb (a b : SubscriptionStatus) : bool :=
  match a, b with
  | active, active | inactive, inactive | error, error => true
  | _, _ => false
  end.

(** The last write of the Pending Send slot in a trace, if there is one. *)
Definition lastPendingWrite (t : list Action) : option (option SendVars) :=
  fold_left (fun w a => match a with SetPendingMessage p => Some p | _ => w end) t None.

(** Whether a dependency of the connectivity effect differs between the
    render before a handler and the render after it ([t] is the handler's
    trace). An object written to [pendingMessage] is a new object; [null]
    written over [null] is no change; [toast] never changes. *)
Definition connectivityDepsChanged (prev cur : State) (t : list Action) : bool :=
  match lastPendingWrite t with
  | Some (Some _) => true
  | Some None => match pendingMessage prev with Some _ => true | None => false end
  | None => false
  end
  || negb (option_eqb (currentConversationId prev) (currentConversationId cur))
  || negb (SubscriptionStatus_eqb (subscriptionStatus prev) (subscriptionStatus cur)).

(** A handler and the render that follows it, as far as the connectivity
    effect goes: when one of its dependencies changed, its cleanup runs (the
    effect itself only adds the two window listeners again). The handlers
    this is used with, the subscribe callback and the retry timer, change
    none of the dependencies of the other effects. *)
Definition rendered (handler : M unit) : M unit :=
  fun s =>
    let r := handler s in
    if connectivityDepsChanged s (state_of r) (trace r) then
      let r' := connectivityEffectCleanup (state_of r) in
      (outcome r, state_of r', trace r ++ trace r')
    else r.

(** The timers a trace leaves pending: set, and not cleared afterwards. *)
Definition pendingTimers (t : list Action) : list (nat * Callback) :=
  fold_left (fun live a =>
               match a with
               | SetTimeout h cb _ => live ++ [(h, cb)]
               | ClearTimeout h => filter (fun x => negb (Nat.eqb (fst x) h)) live
               | _ => live
               end) t [].

(** The timers of a list fire, each followed by its render. *)
Fixpoint fireTimers (timers : list (nat * Callback)) : M unit :=
  match timers with
  | [] => ret tt
  | (_, cb) :: timers' => rendered (fire cb) ;; fireTimers timers'
  end.

(** One failed subscribe attempt in the component: the channel reports
    [CHANNEL_ERROR], the component renders, and then the retry this
    scheduled fires, if the render left it pending. *)
Definition failedAttempt (conversationId : jsstring) : M unit :=
  fun s =>
    let r1 := rendered (onSubscribeStatus conversationId CHANNEL_ERROR) s in
    let r2 := fireTimers (pendingTimers (trace r1)) (state_of r1) in
    (outcome r2, state_of r2, trace r1 ++ trace r2).

Fixpoint consecutiveFailures (n : nat) (conversationId : jsstring) : M unit :=
  match n with
  | O => ret tt
  | S n' => failedAttempt conversationId ;; consecutiveFailures n' conversationId
  end.

(** The realtime events of the message channel. *)
Inductive RealtimeEvent :=
| INSERT (new : Message)
| UPDATE (new : Message).

Definition onRealtimeEvent (e : RealtimeEvent) : M unit :=
  match e with
  | INSERT m => onInsert m
  | UPDATE m => onUpdate m
  end.

Fixpoint deliver (events : list RealtimeEvent) : M unit :=
  match events with
  | [] => ret tt
  | e :: events' => onRealtimeEvent e ;; deliver events'
  end.

(** Number of entries of the store with a given id. *)
Definition occurrences (i : jsstring) (l : list Message) : nat :=
  List.length (filter (fun m => JS.eqb (Message.id m) i) l).

(** The send attempts ([mutate] calls) and the network calls in a trace. *)
Definition sendAttempts (t : list Action) : list SendVars :=
  flat_map (fun a => match a with Mutate v => [v] | _ => [] end) t.

Definition isNetworkCall (a : Action) : bool :=
  match a with
  | StorageUpload _ _ | InvokeChatWithAi _ | DeleteConversationRow _ | Mutate _ => true
  | _ => false
  end.

Definition isInvalidate (a : Action) : bool :=
  match a with InvalidateQueries _ => true | _ => false end.

Definition isPlaceholderRemoval (a : Action) : bool :=
  match a with SetTimeout _ (RemovePlaceholders _) _ => true | _ => false end.


(** A conversation has just been selected on a freshly mounted component. *)
Definition conversationSelected (c : jsstring) : State :=
  state_of (handleSelectConversation c initialState).

(** The component after mount with the conversation [c] selected: the
    subscription effect has run. *)
Definition mountedWith (c : jsstring) : State :=
  state_of (subscriptionEffect (conversationSelected c)).

(** The store after an UPDATE for [u]. *)
Definition replaceById (u : Message) (l : list Message) : list Message :=
  map (fun msg => if JS.eqb (Message.id msg) (Message.id u) then u else msg) l.

(** Sample data for the runs below. *)
Definition sampleMessage (i : string) (r : Role) (text : string) : Message :=
  {| Message.id := js i; Message.role := r; Message.content := js text;
     Message.image_url := None; Message.created_at := js "2025-06-21T01:45:07.000Z" |}.

Definition sampleFile : File :=
  {| name := js "cat.photo.png"; bytes := [Byte.x89; Byte.x50; Byte.x4e; Byte.x47] |}.

Definition sampleError : JsError :=
  {| instanceofError := true; errorMessage := js "Edge Function returned a non-2xx status code" |}.

Definition sampleEnv (result : InvokeResult) : SendEnv :=
  {| now_fileName := 1750470307000; now_optimistic := 1750470307120;
     now_temp := 1750470307120;
     iso_optimistic := js "2025-06-21T01:45:07.120Z";
     iso_temp := js "2025-06-21T01:45:07.120Z";
     uploadError := None;
     getPublicUrl := fun fileName => js "https://storage/chat-images/" ++ fileName;
     invokeResult := result |}.

(** The upload step of a send goes through: no file, or no upload error;
    and the image URL it then yields. *)
Definition uploadSucceeds (env : SendEnv) (vars : SendVars) : bool :=
  match imageFile vars, uploadError env with
  | Some _, Some _ => false
  | _, _ => true
  end.

Definition uploadedUrl (env : SendEnv) (vars : SendVars) : option jsstring :=
  match imageFile vars with
  | Some f =>
      Some (getPublicUrl env (ofN (now_fileName env) ++ js "." ++ lastSegment [] (name f)))
  | None => None
  end.

Definition uploadFailed : JsError :=
  {| instanceofError := true; errorMessage := js "Failed to upload image" |}.

(** Twenty-one rows of one conversation, created at times 1 to 21, with
    roles alternating from [user]; the table holds them newest first. *)
Definition sampleRow (k : nat) : Responder.Row :=
  {| Responder.conversation_id := js "c1";
     Responder.role := if Nat.odd k then user else assistant;
     Responder.content := ofN (N.of_nat k);
     Responder.image_url := None;
     Responder.created_at := Z.of_nat k |}.

Definition sampleDb : list Responder.Row := map sampleRow (rev (seq 1 21)).

(** The recovery invocation that a list of messages calls for: one for its
    last message when that is from the user, none otherwise. *)
Definition lastUserRecovery (cid : option jsstring) (stored : list Message) : list InvokeBody :=
  match nth_error stored (List.length stored - 1) with
  | Some m =>
      match Message.role m with
      | user => [{| body_message := Message.content m; body_conversationId := cid;
                    body_imageUrl := Message.image_url m; body_isRetry := true |}]
      | assistant => []
      end
  | None => []
  end.

(** What the recovery effect of a render does to the outside world. *)
Definition recoveryTrace (render : State) : list Action :=
  trace (recoveryEffect render render).

(** ** Further parts of the controller *)

(** The title [startConversationMutation] derives from the first message:
    the message itself up to 30 code units, else its first 30 and an
    ellipsis. *)
Definition suggestedTitle (message : jsstring) : jsstring :=
  if (List.length message <=? 30)%nat then message
  else firstn 30 message ++ js "...".

(** The effect that persists [currentConversationId] to [localStorage]. *)
Definition persistConversationEffect : M unit :=
  cid <- gets activeConversation ;;
  match cid with
  | Some c => act (LocalStorageSetItem (js "currentConversationId") c)
  | None => act (LocalStorageRemoveItem (js "currentConversationId"))
  end.

(** [localStorage], and what the storage calls of a trace do to it. *)
Definition Storage := jsstring -> option jsstring.

Definition emptyStorage : Storage := fun _ => None.

Definition applyStorage (st : Storage) (a : Action) : Storage :=
  match a with
  | LocalStorageSetItem k v => fun k' => if JS.eqb k k' then Some v else st k'
  | LocalStorageRemoveItem k => fun k' => if JS.eqb k k' then None else st k'
  | _ => st
  end.

Definition storageAfter (t : list Action) (st : Storage) : Storage :=
  fold_left applyStorage t st.

(** The initial value of [currentConversationId] at mount:
    [localStorage.getItem('currentConversationId') || null]. *)
Definition storedConversationId (st : Storage) : option jsstring :=
  match st (js "currentConversationId") with
  | Some v => if truthy v then Some v else None
  | None => None
  end.

(** The channels left open by a trace: [Subscribe] opens one,
    [RemoveChannel] closes one of that conversation. *)
Fixpoint closeChannel (c : jsstring) (open : list jsstring) : list jsstring :=
  match open with
  | [] => []
  | x :: open' => if JS.eqb x c then open' else x :: closeChannel c open'
  end.

Definition applyChannel (open : list jsstring) (a : Action) : list jsstring :=
  match a with
  | Subscribe c => open ++ [c]
  | RemoveChannel c => closeChannel c open
  | _ => open
  end.

Definition openChannels (t : list Action) (open : list jsstring) : list jsstring :=
  fold_left applyChannel t open.

(** Everything in the controller that touches the realtime channel. Setting
    [currentConversationId] to a new value runs the cleanup of the
    subscription effect and then its body; setting it to the value it has
    causes no render. *)
Inductive LinkOp :=
| OpSetup (conversationId : jsstring)
| OpConversationChange (next : option jsstring)
| OpUnmount
| OpRetryFired (conversationId : jsstring)
| OpStatus (conversationId : jsstring) (status : ChannelStatus)
| OpForceReconnect
| OpOnline
| OpOffline
| OpRealtime (e : RealtimeEvent).

Definition linkOp (op : LinkOp) : M unit :=
  match op with
  | OpSetup c => setupRealtimeSubscription c
  | OpConversationChange next =>
      cur <- gets currentConversationId ;;
      if option_eqb next cur then ret tt
      else
        setCurrentConversationId next ;;
        subscriptionEffectCleanup ;;
        subscriptionEffect
  | OpUnmount => subscriptionEffectCleanup
  | OpRetryFired c => retrySubscription c
  | OpStatus c st => onSubscribeStatus c st
  | OpForceReconnect => handleForceReconnect
  | OpOnline => windowOnline
  | OpOffline => windowOffline
  | OpRealtime e => onRealtimeEvent e
  end.

Fixpoint linkOps (ops : list LinkOp) : M unit :=
  match ops with
  | [] => ret tt
  | op :: ops' => linkOp op ;; linkOps ops'
  end.

Definition refChannel (s : State) : list jsstring :=
  match realtimeChannelRef s with
  | Some c => [c]
  | None => []
  end.

(** An id that the removal of placeholders leaves in the store. *)
Definition survivesRemoval (tempId : jsstring) (m : Message) : bool :=
  negb (JS.eqb (Message.id m) tempId)
  && negb (JS.startsWith (Message.id m) (js "optimistic-")).

Definition eventMessage (e : RealtimeEvent) : Message :=
  match e with INSERT m => m | UPDATE m => m end.

Definition isInvoke (a : Action) : bool :=
  match a with InvokeChatWithAi _ => true | _ => false end.

Definition isDeleteRow (a : Action) : bool :=
  match a with DeleteConversationRow _ => true | _ => false end.

Definition toastTitles (t : list Action) : list jsstring :=
  flat_map (fun a => match a with Toast title _ _ => [title] | _ => [] end) t.

(** ** The edge functions and the tables behind them

    The tables of [supabase/migrations]: [conversations] and [messages],
    whose [conversation_id] references [conversations(id)], with the trigger
    that moves a conversation's [updated_at] when a message is inserted.
    Timestamps are positions on the time line. *)

Module Server.

Record ConversationRow := {
  id : jsstring;
  title : jsstring;
  created_at : Z;
  updated_at : Z
}.

Record Db := {
  conversations : list ConversationRow;
  messages : list Responder.Row
}.

(** The trigger function [update_conversation_updated_at]. *)
Definition update_conversation_updated_at (now : Z) (conversation_id : jsstring)
    (l : list ConversationRow) : list ConversationRow :=
  map (fun c => if JS.eqb (id c) conversation_id
                then {| id := id c; title := title c;
                        created_at := created_at c; updated_at := now |}
                else c) l.

Definition conversationExists (conversation_id : jsstring) (db : Db) : bool :=
  existsb (fun c => JS.eqb (id c) conversation_id) (conversations db).

(** [supabase.from('messages').insert(...)]: the new table and whether an
    error is reported. The insert is refused when the database does not
    answer ([fails]) and when no conversation has the row's
    [conversation_id]; otherwise the row is added and the trigger runs. *)
Definition insertMessage (fails : bool) (now : Z) (conversation_id : jsstring)
    (role : Role) (content : jsstring) (image_url : option jsstring) (db : Db) : Db * bool :=
  if fails || negb (conversationExists conversation_id db) then (db, true)
  else
    ({| conversations := update_conversation_updated_at now conversation_id (conversations db);
        messages := messages db
                    ++ [{| Responder.conversation_id := conversation_id;
                           Responder.role := role;
                           Responder.content := content;
                           Responder.image_url := image_url;
                           Responder.created_at := now |}] |},
     false).

(** [.order('updated_at', { ascending: false })] *)
Fixpoint insertDesc (r : ConversationRow) (l : list ConversationRow) : list ConversationRow :=
  match l with
  | [] => [r]
  | x :: l' => if updated_at x <? updated_at r then r :: l else x :: insertDesc r l'
  end.

Definition orderDesc (l : list ConversationRow) : list ConversationRow :=
  fold_right insertDesc [] (rev l).

(** A value that is neither [null], [undefined] nor the empty string. *)
Definition present (o : option jsstring) : bool :=
  match o with Some v => truthy v | None => false end.

(** [error.message || 'An unexpected error occurred'], with status 500. *)
Definition errorText (e : JsError) : jsstring :=
  or_else (errorMessage e) (js "An unexpected error occurred").

(** *** [get-conversations] *)

(** A request: the query parameters of its URL and the [conversationId] of
    its JSON body. *)
Record GetRequest := {
  searchParams : list (jsstring * jsstring);
  bodyConversationId : option jsstring
}.

(** [url.searchParams.get(name)] *)
Fixpoint searchParamsGet (name : jsstring) (params : list (jsstring * jsstring))
  : option jsstring :=
  match params with
  | [] => None
  | (k, v) :: params' => if JS.eqb k name then Some v else searchParamsGet name params'
  end.

Inductive GetBody :=
| Messages (messages : list Responder.Row)
| Conversations (conversations : list ConversationRow)
| GetError (error : jsstring).

Record GetResponse := { getStatus : N; getBody : GetBody }.

(** The handler; [queryError] is the error of its one query, if any. *)
Definition getConversations (queryError : option JsError) (req : GetRequest) (db : Db)
  : GetResponse :=
  match queryError with
  | Some e => {| getStatus := 500; getBody := GetError (errorText e) |}
  | None =>
      match searchParamsGet (js "conversationId") (searchParams req) with
      | Some conversationId =>
          if truthy conversationId then
            {| getStatus := 200;
               getBody := Messages
                 (Responder.orderAsc
                    (filter (fun r => JS.eqb (Responder.conversation_id r) conversationId)
                            (messages db))) |}
          else
            {| getStatus := 200;
               getBody := Conversations (firstn 20 (orderDesc (conversations db))) |}
      | None =>
          {| getStatus := 200;
             getBody := Conversations (firstn 20 (orderDesc (conversations db))) |}
      end
  end.

(** *** [chat-with-ai] *)

(** What [fetch] of the completions endpoint gives: a response with its
    status and the content of its first choice; a response with its status
    whose body cannot be read that far ([response.json()] or
    [data.choices[0].message.content] throws [e]); or a thrown error. *)
Inductive FetchResult :=
| HttpResponse (status : N) (content : jsstring)
| Unreadable (status : N) (e : JsError)
| FetchError (e : JsError).

(** The outside world of one request: the configured key, the answer of the
    completions endpoint to a list of messages, the id the database gives a
    new conversation, the errors of the three inserts, and the clock at
    each insert. *)
Record ChatEnv := {
  openAIApiKey : option jsstring;
  fetchOpenAI : list Responder.ChatMessage -> FetchResult;
  gen_random_uuid : jsstring;
  convError : option JsError;
  userMessageError : bool;
  aiMessageError : bool;
  now_conversation : Z;
  now_userMessage : Z;
  now_aiMessage : Z
}.

Inductive ChatBody :=
| ChatReply (response : jsstring) (conversationId : option jsstring)
| ChatError (error : jsstring)
| NoBody.

Record ChatResponse := { status : N; body : ChatBody }.

Definition failure (e : JsError) : ChatResponse :=
  {| status := 500; body := ChatError (errorText e) |}.

Definition conversationTitle (message : jsstring) : jsstring :=
  if (50 <? List.length message)%nat then firstn 50 message ++ js "..." else message.

(** "Save user message", "Save AI response" and the reply: the errors of
    the two inserts are logged and nothing else. *)
Definition saveMessages (env : ChatEnv) (req : InvokeBody) (aiResponse : jsstring)
    (finalConversationId : jsstring) (db : Db) : ChatResponse * Db :=
  let db1 := fst (insertMessage (userMessageError env) (now_userMessage env)
                    finalConversationId user (body_message req) (body_imageUrl req) db) in
  let db2 := fst (insertMessage (aiMessageError env) (now_aiMessage env)
                    finalConversationId assistant aiResponse None db1) in
  ({| status := 200; body := ChatReply aiResponse (Some finalConversationId) |}, db2).

(** "Create or get conversation", then the two inserts. *)
Definition createConversation (env : ChatEnv) (req : InvokeBody) (aiResponse : jsstring)
    (db : Db) : ChatResponse * Db :=
  match convError env with
  | Some e => (failure e, db)
  | None =>
      let newConversation :=
        {| id := gen_random_uuid env;
           title := conversationTitle (body_message req);
           created_at := now_conversation env;
           updated_at := now_conversation env |} in
      saveMessages env req aiResponse (id newConversation)
        {| conversations := conversations db ++ [newConversation];
           messages := messages db |}
  end.

(** The handler from the point where the body has been read: [req] is what
    [await req.json()] returned, an object with a string [message]. *)
Definition chatWithAi (env : ChatEnv) (req : InvokeBody) (db : Db) : ChatResponse * Db :=
  if negb (present (openAIApiKey env)) then
    (failure {| instanceofError := true;
                errorMessage := js "OpenAI API key not configured" |}, db)
  else
    let openAIMessages :=
      Responder.openAIMessages (messages db) (body_message req)
        (body_conversationId req) (body_imageUrl req) in
    match fetchOpenAI env openAIMessages with
    | FetchError e => (failure e, db)
    | Unreadable st e =>
        if negb ((200 <=? st) && (st <=? 299))%N then
          (failure {| instanceofError := true;
                      errorMessage := js "OpenAI API error: " ++ ofN st |}, db)
        else (failure e, db)
    | HttpResponse st aiResponse =>
        if negb ((200 <=? st) && (st <=? 299))%N then
          (failure {| instanceofError := true;
                      errorMessage := js "OpenAI API error: " ++ ofN st |}, db)
        else
          match body_conversationId req with
          | Some conversationId =>
              if truthy conversationId
              then saveMessages env req aiResponse conversationId db
              else createConversation env req aiResponse db
          | None => createConversation env req aiResponse db
          end
    end.

(** A request as the handler receives it: its method, and what
    [await req.json()] gives, the body or a thrown error. The handler
    treats every method other than [OPTIONS] alike. *)
Inductive Method := OPTIONS | POST.

Record ChatRequest := {
  method : Method;
  json : JsError + InvokeBody
}.

(** The whole handler: the preflight answer, the key, the body, the rest. *)
Definition serveChat (env : ChatEnv) (req : ChatRequest) (db : Db) : ChatResponse * Db :=
  match method req with
  | OPTIONS => ({| status := 200; body := NoBody |}, db)
  | POST =>
      if negb (present (openAIApiKey env)) then
        (failure {| instanceofError := true;
                    errorMessage := js "OpenAI API key not configured" |}, db)
      else
        match json req with
        | inl e => (failure e, db)
        | inr parsed => chatWithAi env parsed db
        end
  end.

End Server.

(** Sample tables and a sample request environment: conversation [c1]
    with the rows of [sampleDb], last touched at time 21, and [c2], last
    touched at time 30; the completions endpoint answers 'Hello!'. *)
Definition sampleTables : Server.Db :=
  {| Server.conversations :=
       [{| Server.id := js "c1"; Server.title := js "First";
           Server.created_at := 1; Server.updated_at := 21 |};
        {| Server.id := js "c2"; Server.title := js "Second";
           Server.created_at := 25; Server.updated_at := 30 |}];
     Server.messages := sampleDb |}.

Definition sampleChatEnv : Server.ChatEnv :=
  {| Server.openAIApiKey := Some (js "sk-test");
     Server.fetchOpenAI := fun _ => Server.HttpResponse 200 (js "Hello!");
     Server.gen_random_uuid := js "c3";
     Server.convError := None;
     Server.userMessageError := false;
     Server.aiMessageError := false;
     Server.now_conversation := 40;
     Server.now_userMessage := 41;
     Server.now_aiMessage := 42 |}.

Definition sampleRequest (conversationId : option jsstring) : InvokeBody :=
  {| body_message := js "Hello"; body_conversationId := conversationId;
     body_imageUrl := None; body_isRetry := false |}.

(** ** The components around the controller *)

(** The send button of the input box of [ChatInput.handleSend]:
    [disabled={isLoading || (!message.trim() && !selectedImage)}]. *)
Definition sendButtonDisabled (isLoading : bool) (st : ChatInput.InputState) : bool :=
  isLoading
  || (negb (truthy (trim (ChatInput.message st)))
      && negb (ChatInput.isSome (ChatInput.selectedImage st))).

(** [ConversationStarter]: the box that names a new conversation. *)

Module ConversationStarter.

Record StarterState := {
  message : jsstring;
  expanded : bool
}.

(** [handleSubmit]: the state afterwards and the call of
    [onStartConversation] it makes, if any. *)
Definition handleSubmit (st : StarterState) : StarterState * option jsstring :=
  if truthy (trim (message st)) then
    ({| message := []; expanded := false |}, Some (message st))
  else (st, None).

Definition handleCancel (st : StarterState) : StarterState :=
  {| message := []; expanded := false |}.

Inductive Key := Enter | Escape | OtherKey.

(** [handleKeyDown], for a key and the state of the shift key. *)
Definition handleKeyDown (key : Key) (shiftKey : bool) (st : StarterState)
  : StarterState * option jsstring :=
  match key with
  | Enter => if negb shiftKey then handleSubmit st else (st, None)
  | Escape => (handleCancel st, None)
  | OtherKey => (st, None)
  end.

(** The button 'Create Conversation': [disabled={!message.trim() || isLoading}]. *)
Definition submitDisabled (isLoading : bool) (st : StarterState) : bool :=
  negb (truthy (trim (message st))) || isLoading.

End ConversationStarter.

(** The file input of [src/components/Chatbot/ChatInput.tsx]. A picked file
    has, besides its name and bytes, a MIME type; its size is the number of
    its bytes. *)

Module ChatInputFile.

Record PickedFile := {
  file : File;
  type : jsstring
}.

Definition size (f : File) : Z := Z.of_nat (List.length (bytes f)).

(** [handleFileChange]: the state afterwards and the text of the alert, if
    any. The preview is set later, when the reader has loaded the file. *)
Definition handleFileChange (picked : option PickedFile)
    (st : ChatInputDisableable.InputState)
  : ChatInputDisableable.InputState * option jsstring :=
  match picked with
  | None => (st, None)
  | Some p =>
      if negb (JS.startsWith (type p) (js "image/")) then
        (st, Some (js "Please select an image file"))
      else if size (file p) >? 5 * 1024 * 1024 then
        (st, Some (js "File size should not exceed 5MB"))
      else
        ({| ChatInputDisableable.message := ChatInputDisableable.message st;
            ChatInputDisableable.imageFile := Some (file p);
            ChatInputDisableable.imagePreview := ChatInputDisableable.imagePreview st |},
         None)
  end.

(** [reader.onload] *)
Definition onload (result : jsstring) (st : ChatInputDisableable.InputState)
  : ChatInputDisableable.InputState :=
  {| ChatInputDisableable.message := ChatInputDisableable.message st;
     ChatInputDisableable.imageFile := ChatInputDisableable.imageFile st;
     ChatInputDisableable.imagePreview := Some result |}.

Definition handleRemoveImage (st : ChatInputDisableable.InputState)
  : ChatInputDisableable.InputState :=
  {| ChatInputDisableable.message := ChatInputDisableable.message st;
     ChatInputDisableable.imageFile := None;
     ChatInputDisableable.imagePreview := None |}.

Definition setMessage (text : jsstring) (st : ChatInputDisableable.InputState)
  : ChatInputDisableable.InputState :=
  {| ChatInputDisableable.message := text;
     ChatInputDisableable.imageFile := ChatInputDisableable.imageFile st;
     ChatInputDisableable.imagePreview := ChatInputDisableable.imagePreview st |}.

(** What the user and the browser do to the box. *)
Inductive InputEvent :=
| Typed (text : jsstring)
| FileChange (picked : option PickedFile)
| PreviewLoaded (result : jsstring)
| RemoveImage
| Send.

(** One event: the state afterwards and the calls of [onSendMessage]. *)
Definition inputEvent (e : InputEvent) (st : ChatInputDisableable.InputState)
  : ChatInputDisableable.InputState * list SendVars :=
  match e with
  | Typed text => (setMessage text st, [])
  | FileChange picked => (fst (handleFileChange picked st), [])
  | PreviewLoaded result => (onload result st, [])
  | RemoveImage => (handleRemoveImage st, [])
  | Send =>
      match ChatInputDisableable.handleSendMessage st with
      | (st', Some vars) => (st', [vars])
      | (st', None) => (st', [])
      end
  end.

Fixpoint inputEvents (events : list InputEvent) (st : ChatInputDisableable.InputState)
  : ChatInputDisableable.InputState * list SendVars :=
  match events with
  | [] => (st, [])
  | e :: events' =>
      let '(st1, sent1) := inputEvent e st in
      let '(st2, sent2) := inputEvents events' st1 in
      (st2, sent1 ++ sent2)
  end.

Definition emptyInput : ChatInputDisableable.InputState :=
  {| ChatInputDisableable.message := [];
     ChatInputDisableable.imageFile := None;
     ChatInputDisableable.imagePreview := None |}.

(** A file that [handleFileChange] accepts. *)
Definition acceptable (p : PickedFile) : bool :=
  JS.startsWith (type p) (js "image/") && (size (file p) <=? 5 * 1024 * 1024).

End ChatInputFile.

(** The typing effect of [src/components/Chatbot/ChatMessage.tsx]. Besides
    the three state cells the view has the props the effect depends on, the
    pending 300 ms timeout with the content its closure holds, and the
    intervals that are running, each with the content and the index of its
    closure. *)

Module ChatMessageView.

Record Interval := {
  content : jsstring;
  currentIndex : nat
}.

Record ViewState := {
  isUser : bool;
  message_content : jsstring;
  displayedText : jsstring;
  isTyping : bool;
  isFullyDisplayed : bool;
  typingTimer : option jsstring;
  intervals : list Interval
}.

(** The body of the effect. *)
Definition typingEffect (st : ViewState) : ViewState :=
  if isUser st then
    {| isUser := isUser st; message_content := message_content st;
       displayedText := message_content st;
       isTyping := isTyping st; isFullyDisplayed := isFullyDisplayed st;
       typingTimer := typingTimer st; intervals := intervals st |}
  else if negb (truthy (message_content st)) then
    {| isUser := isUser st; message_content := message_content st;
       displayedText := [];
       isTyping := isTyping st; isFullyDisplayed := false;
       typingTimer := typingTimer st; intervals := intervals st |}
  else
    {| isUser := isUser st; message_content := message_content st;
       displayedText := [];
       isTyping := true; isFullyDisplayed := false;
       typingTimer := Some (message_content st); intervals := intervals st |}.

(** Its cleanup, [clearTimeout(typingTimer)]: the intervals keep running. *)
Definition typingEffectCleanup (st : ViewState) : ViewState :=
  {| isUser := isUser st; message_content := message_content st;
     displayedText := displayedText st;
     isTyping := isTyping st; isFullyDisplayed := isFullyDisplayed st;
     typingTimer := None; intervals := intervals st |}.

(** The first render of a message. *)
Definition mount (user : bool) (text : jsstring) : ViewState :=
  typingEffect
    {| isUser := user; message_content := text;
       displayedText := []; isTyping := false; isFullyDisplayed := user;
       typingTimer := None; intervals := [] |}.

(** A render with new props: the effect runs again when
    [[message.content, isUser]] changed. *)
Definition render (user : bool) (text : jsstring) (st : ViewState) : ViewState :=
  if Bool.eqb user (isUser st) && JS.eqb text (message_content st) then st
  else
    let st1 := typingEffectCleanup st in
    typingEffect
      {| isUser := user; message_content := text;
         displayedText := displayedText st1;
         isTyping := isTyping st1; isFullyDisplayed := isFullyDisplayed st1;
         typingTimer := typingTimer st1; intervals := intervals st1 |}.

(** The 300 ms timeout fires: the interval starts. *)
Definition timeoutFires (st : ViewState) : ViewState :=
  match typingTimer st with
  | Some text =>
      {| isUser := isUser st; message_content := message_content st;
         displayedText := displayedText st;
         isTyping := isTyping st; isFullyDisplayed := isFullyDisplayed st;
         typingTimer := None;
         intervals := intervals st ++ [{| content := text; currentIndex := 0 |}] |}
  | None => st
  end.

Fixpoint replaceNth {A} (i : nat) (x : A) (l : list A) : list A :=
  match i, l with
  | _, [] => []
  | O, _ :: l' => x :: l'
  | S i', y :: l' => y :: replaceNth i' x l'
  end.

Fixpoint removeNth {A} (i : nat) (l : list A) : list A :=
  match i, l with
  | _, [] => []
  | O, _ :: l' => l'
  | S i', y :: l' => y :: removeNth i' l'
  end.

(** One tick of the [i]-th running interval. *)
Definition tick (i : nat) (st : ViewState) : ViewState :=
  match nth_error (intervals st) i with
  | Some iv =>
      if (currentIndex iv <? List.length (content iv))%nat then
        {| isUser := isUser st; message_content := message_content st;
           displayedText := firstn (currentIndex iv + 1) (content iv);
           isTyping := isTyping st; isFullyDisplayed := isFullyDisplayed st;
           typingTimer := typingTimer st;
           intervals := replaceNth i {| content := content iv;
                                        currentIndex := S (currentIndex iv) |}
                          (intervals st) |}
      else
        {| isUser := isUser st; message_content := message_content st;
           displayedText := displayedText st;
           isTyping := false; isFullyDisplayed := true;
           typingTimer := typingTimer st;
           intervals := removeNth i (intervals st) |}
  | None => st
  end.

Inductive TimerEvent := TimeoutFires | Tick (i : nat).

Definition timerEvent (e : TimerEvent) (st : ViewState) : ViewState :=
  match e with
  | TimeoutFires => timeoutFires st
  | Tick i => tick i st
  end.

Definition timerEvents (events : list TimerEvent) (st : ViewState) : ViewState :=
  fold_left (fun s e => timerEvent e s) events st.

End ChatMessageView.

(** A picked file for the runs below. *)
Definition samplePicked (mime : string) : ChatInputFile.PickedFile :=
  {| ChatInputFile.file := sampleFile; ChatInputFile.type := js mime |}.

(** *** The send mutation and the render at its delay

    [mutationFn] awaits three times: the upload, the 300 ms delay and the
    invocation. The state it set before an await is rendered, and the
    effects run, while it waits. The two definitions below are [mutationFn]
    up to the delay and from the delay on. *)

(** The [catch] block of [mutationFn]. *)
Definition sendCatch {A} (e : JsError) : M A :=
  toast (js "Message failed to send")
        (js "We'll retry when connection is restored") true ;;
  throw e.

(** Record the send, upload the file, insert the optimistic user row. *)
Definition mutationUntilDelay (env : SendEnv) (vars : SendVars) : M (option jsstring) :=
  try_catch
    (setPendingMessage (Some {| message := message vars; imageFile := imageFile vars |}) ;;
     imageUrl <- uploadImage env (imageFile vars) ;;
     prev <- gets messages ;;
     setMessages (prev ++ [optimisticUserMsg env vars imageUrl]) ;;
     ret imageUrl)
    sendCatch.

(** Insert the assistant placeholder, invoke the responder, and on success
    clear the pending send and set the removal timer. [cid] is the
    [currentConversationId] of the render the mutation was started in. *)
Definition mutationAfterDelay (env : SendEnv) (vars : SendVars)
    (cid imageUrl : option jsstring) : M ResponderData :=
  try_catch
    (prev <- gets messages ;;
     setMessages (prev ++ [tempMessage env]) ;;
     act (InvokeChatWithAi {| body_message := message vars;
                              body_conversationId := cid;
                              body_imageUrl := imageUrl;
                              body_isRetry := false |}) ;;
     match invokeResult env with
     | InvokeError e => throw e
     | InvokeOk data =>
         setPendingMessage None ;;
         _ <- setTimeout (RemovePlaceholders (tempMessageId env)) 500 ;;
         ret data
     end)
    sendCatch.

(** * Properties *)

(** Name the cells of a state. *)
Ltac open_state s :=
  destruct s as [cid msgs mref cs pm ss del ch n rt ts cd md mdr ml ol].

(** ** JavaScript strings *)

Lemma jseqb_eq (a b : jsstring) : JS.eqb a b = true <-> a = b.
Proof.
  revert b; induction a as [|x a IH]; intros [|y b]; simpl; split; intros H;
    try reflexivity; try discriminate.
  - apply andb_true_iff in H as [Hx Ha].
    apply N.eqb_eq in Hx. apply IH in Ha. congruence.
  - injection H as -> ->. apply andb_true_iff; split.
    + apply N.eqb_refl.
    + now apply IH.
Qed.

Lemma jseqb_refl (a : jsstring) : JS.eqb a a = true.
Proof. now apply jseqb_eq. Qed.

Lemma jseqb_neq (a b : jsstring) : JS.eqb a b = false <-> a <> b.
Proof.
  split; intros H.
  - intros E. apply jseqb_eq in E. congruence.
  - destruct (JS.eqb a b) eqn:E; [apply jseqb_eq in E; contradiction | reflexivity].
Qed.

Lemma trimStart_nil_iff (s : jsstring) : trimStart s = [] <-> whitespaceOnly s.
Proof.
  unfold whitespaceOnly. induction s as [|c s IH]; simpl.
  - split; [constructor | reflexivity].
  - destruct (isWhiteSpace c) eqn:Hc.
    + rewrite IH. split; intros H.
      * now constructor.
      * now inversion H.
    + split; intros H; [discriminate | inversion H; congruence].
Qed.

(** [trim] leaves nothing exactly when the string is empty or made of
    white space only. *)
Lemma trim_nil_iff (s : jsstring) : trim s = [] <-> whitespaceOnly s.
Proof.
  unfold trim, trimEnd. split; intros H.
  - apply trimStart_nil_iff.
    destruct (trimStart s) as [|c t] eqn:E; [reflexivity|].
    exfalso. apply (f_equal (@rev N)) in H. rewrite List.rev_involutive in H.
    change (@rev N []) with (@nil N) in H.
    apply trimStart_nil_iff in H. unfold whitespaceOnly in H.
    apply Forall_rev in H. rewrite List.rev_involutive in H.
    assert (Hc : isWhiteSpace c = true) by now inversion H.
    clear H. revert E. induction s as [|x s IH]; simpl; [discriminate|].
    destruct (isWhiteSpace x) eqn:Hx; [exact IH|].
    intros E; injection E as -> _. congruence.
  - apply trimStart_nil_iff in H. now rewrite H.
Qed.

(** ** The handler monad *)

Lemma bind_run {A B} (c : M A) (k : A -> M B) (s s1 : State) (a : A) (t1 : list Action) :
  c s = (Returned a, s1, t1) ->
  bind c k s = (outcome (k a s1), state_of (k a s1), t1 ++ trace (k a s1)).
Proof.
  intros H. unfold bind. rewrite H. destruct (k a s1) as [[r s2] t2]. reflexivity.
Qed.

Lemma scheduledRetries_app (t1 t2 : list Action) :
  scheduledRetries (t1 ++ t2) = scheduledRetries t1 ++ scheduledRetries t2.
Proof. unfold scheduledRetries. apply flat_map_app. Qed.

(** ** Projections of a run *)

Lemma outcome_mk {A} (o : Outcome A) (s : State) (t : list Action) : outcome (o, s, t) = o.
Proof. reflexivity. Qed.

Lemma state_of_mk {A} (o : Outcome A) (s : State) (t : list Action) : state_of (o, s, t) = s.
Proof. reflexivity. Qed.

Lemma trace_mk {A} (o : Outcome A) (s : State) (t : list Action) : trace (o, s, t) = t.
Proof. reflexivity. Qed.

Lemma run_eta {A} (r : Outcome A * State * list Action) :
  r = (outcome r, state_of r, trace r).
Proof. destruct r as [[o s] t]. reflexivity. Qed.

(** ** Realtime Link: when the attempt counter is reset *)

Lemma onInsert_run (m : Message) (s : State) :
  let r := onInsert m s in
  outcome r = Returned tt
  /\ retryCountRef (state_of r) = 0
  /\ subscriptionStatus (state_of r) = subscriptionStatus s
  /\ pendingMessage (state_of r) = pendingMessage s
  /\ messages (state_of r)
     = (if existsb (fun msg => JS.eqb (Message.id msg) (Message.id m)) (messages s)
        then messages s else messages s ++ [m])
  /\ scheduledRetries (trace r) = [].
Proof.
  open_state s.
  unfold onInsert. cbn.
  destruct (existsb _ msgs); cbn; destruct (Message.role m); cbn; repeat split; reflexivity.
Qed.

(** The claim of C4 fails: after the automatic attempts are spent and the
    user has reconnected, the [SUBSCRIBED] handshake makes the subscription
    [active] with the counter still at 3, and the next handshake error sets
    no timer at all. *)
Lemma subscribed_keeps_counter_counterexample :
  let c := js "c1" in
  let spent := state_of (consecutiveFailures 7 c (mountedWith c)) in
  let r := onSubscribeStatus c SUBSCRIBED (state_of (handleForceReconnect spent)) in
  subscriptionStatus (state_of r) = active
  /\ retryCountRef (state_of r) = 3
  /\ retryCountRef (state_of r) <> 0
  /\ scheduledRetries (trace (onSubscribeStatus c CHANNEL_ERROR (state_of r))) = [].
Proof. vm_compute. repeat split; discriminate. Qed.

(** C4, amended. The [SUBSCRIBED] handshake makes the subscription [active]
    and the connection [connected] and leaves the attempt counter as it
    was. The counter is set to 0 by the delivery of a realtime INSERT event,
    and by the subscription effect when it runs for a selected
    conversation. *)
Theorem retry_counter_reset_on_insert (s : State) (c : jsstring) (m : Message) :
  (let r := onSubscribeStatus c SUBSCRIBED s in
   subscriptionStatus (state_of r) = active
   /\ connectionStatus (state_of r) = connected
   /\ retryCountRef (state_of r) = retryCountRef s)
  /\ (let r := onInsert m s in
      retryCountRef (state_of r) = 0)
  /\ (let r := subscriptionEffect s in
      retryCountRef (state_of r)
      = match activeConversation s with
        | Some _ => 0
        | None => retryCountRef s
        end).
Proof.
  split; [|split].
  - destruct s as [cid msgs mref cs pm ss del ch n rt ts cd md mdr ml ol].
    cbn. repeat split; reflexivity.
  - destruct (onInsert_run m s) as (_ & Hz & _). exact Hz.
  - destruct s as [cid msgs mref cs pm ss del ch n rt ts cd md mdr ml ol].
    unfold subscriptionEffect, activeConversation. cbn.
    destruct cid as [c'|]; cbn.
    + destruct (truthy c'); cbn; destruct ch; reflexivity.
    + destruct ch; reflexivity.
Qed.

(** ** Message Store under realtime events *)

Lemma occurrences_app (i : jsstring) (l l' : list Message) :
  occurrences i (l ++ l') = (occurrences i l + occurrences i l')%nat.
Proof. unfold occurrences. now rewrite filter_app, length_app. Qed.

Lemma existsb_id_false (i : jsstring) (l : list Message) :
  existsb (fun msg => JS.eqb (Message.id msg) i) l = false <->
  forall x, In x l -> Message.id x <> i.
Proof.
  induction l as [|x l IH]; simpl.
  - split; [intros _ y [] | reflexivity].
  - rewrite orb_false_iff, IH, jseqb_neq. split.
    + intros [Hx Hl] y [<- | Hy]; auto.
    + intros H. split; [apply H; now left | intros y Hy; apply H; now right].
Qed.

Lemma occurrences_unseen (i : jsstring) (l : list Message) :
  existsb (fun msg => JS.eqb (Message.id msg) i) l = false -> occurrences i l = 0%nat.
Proof.
  unfold occurrences. induction l as [|x l IH]; simpl; [reflexivity|].
  intros H. apply orb_false_iff in H as [Hx Hl]. rewrite Hx. now apply IH.
Qed.

Lemma occurrences_replaceById (i : jsstring) (u : Message) (l : list Message) :
  occurrences i (replaceById u l) = occurrences i l.
Proof.
  unfold occurrences, replaceById. induction l as [|x l IH]; simpl; [reflexivity|].
  destruct (JS.eqb (Message.id x) (Message.id u)) eqn:E.
  - apply jseqb_eq in E. rewrite E.
    destruct (JS.eqb (Message.id u) i); simpl; now rewrite IH.
  - destruct (JS.eqb (Message.id x) i); simpl; now rewrite IH.
Qed.

Lemma replaceById_absent (u : Message) (l : list Message) :
  (forall x, In x l -> Message.id x <> Message.id u) -> replaceById u l = l.
Proof.
  unfold replaceById. induction l as [|x l IH]; simpl; intros H; [reflexivity|].
  assert (E : JS.eqb (Message.id x) (Message.id u) = false)
    by (apply jseqb_neq, H; now left).
  rewrite E, IH; [reflexivity | intros y Hy; apply H; now right].
Qed.

Lemma onUpdate_run (u : Message) (s : State) :
  let r := onUpdate u s in
  outcome r = Returned tt
  /\ messages (state_of r) = replaceById u (messages s)
  /\ retryCountRef (state_of r) = retryCountRef s
  /\ pendingMessage (state_of r) = pendingMessage s.
Proof.
  open_state s.
  cbn. repeat split; reflexivity.
Qed.

Lemma onRealtimeEvent_occurrences (e : RealtimeEvent) (s : State) (i : jsstring) :
  outcome (onRealtimeEvent e s) = Returned tt
  /\ ((occurrences i (messages s) <= 1)%nat ->
      (occurrences i (messages (state_of (onRealtimeEvent e s))) <= 1)%nat).
Proof.
  destruct e as [m|u]; simpl.
  - destruct (onInsert_run m s) as (Ho & _ & _ & _ & Hm & _). cbn zeta in *.
    split; [exact Ho|]. rewrite Hm.
    destruct (existsb _ (messages s)) eqn:E; [trivial|].
    intros H. rewrite occurrences_app. unfold occurrences at 2. simpl.
    destruct (JS.eqb (Message.id m) i) eqn:Ei; simpl; [|lia].
    apply jseqb_eq in Ei. subst i. rewrite (occurrences_unseen _ _ E). lia.
  - destruct (onUpdate_run u s) as (Ho & Hm & _). cbn zeta in *.
    split; [exact Ho|]. now rewrite Hm, occurrences_replaceById.
Qed.

Lemma deliver_occurrences (events : list RealtimeEvent) (i : jsstring) :
  forall s : State,
    (occurrences i (messages s) <= 1)%nat ->
    (occurrences i (messages (state_of (deliver events s))) <= 1)%nat.
Proof.
  induction events as [|e events IH]; intros s H; [exact H|].
  destruct (onRealtimeEvent_occurrences e s i) as [Ho Hstep].
  change (deliver (e :: events))
    with (bind (onRealtimeEvent e) (fun _ => deliver events)).
  erewrite bind_run by (rewrite (run_eta (onRealtimeEvent e s)), Ho; reflexivity).
  rewrite state_of_mk. apply IH, Hstep, H.
Qed.

(** C2. Under any sequence of realtime INSERT and UPDATE events, an id
    that labels at most one entry of the Message Store keeps labelling at
    most one. An INSERT whose id is not in the store appends the message, one
    whose id is present leaves the store as it is; an UPDATE puts the new
    message in place of the entry with its id, and leaves the store as it is
    when no entry has that id. *)
Theorem realtime_events_keep_ids_unique (s : State) :
  (forall (events : list RealtimeEvent) (i : jsstring),
      (occurrences i (messages s) <= 1)%nat ->
      (occurrences i (messages (state_of (deliver events s))) <= 1)%nat)
  /\ (forall m : Message,
        (forall x, In x (messages s) -> Message.id x <> Message.id m) ->
        messages (state_of (onInsert m s)) = messages s ++ [m])
  /\ (forall m : Message,
        (exists x, In x (messages s) /\ Message.id x = Message.id m) ->
        messages (state_of (onInsert m s)) = messages s)
  /\ (forall u : Message,
        messages (state_of (onUpdate u s))
        = map (fun msg => if JS.eqb (Message.id msg) (Message.id u) then u else msg)
              (messages s))
  /\ (forall u : Message,
        (forall x, In x (messages s) -> Message.id x <> Message.id u) ->
        messages (state_of (onUpdate u s)) = messages s).
Proof.
  split; [|split; [|split; [|split]]].
  - intros events i. apply deliver_occurrences.
  - intros m H. destruct (onInsert_run m s) as (_ & _ & _ & _ & Hm & _).
    cbn zeta in Hm. rewrite Hm.
    apply existsb_id_false in H. now rewrite H.
  - intros m (x & Hx & Hid). destruct (onInsert_run m s) as (_ & _ & _ & _ & Hm & _).
    cbn zeta in Hm. rewrite Hm.
    destruct (existsb _ (messages s)) eqn:E; [reflexivity|].
    exfalso. apply (proj1 (existsb_id_false _ _) E x Hx Hid).
  - intros u. apply onUpdate_run.
  - intros u H. destruct (onUpdate_run u s) as (_ & Hm & _). cbn zeta in Hm.
    rewrite Hm. now apply replaceById_absent.
Qed.

Lemma realtime_events_keep_ids_unique_witness :
  let m1 := sampleMessage "m1" user "Hi" in
  let m2 := sampleMessage "m2" assistant "Hello!" in
  let m2' := sampleMessage "m2" assistant "Hello there!" in
  let s := state_of (dispatch (messagesQuerySettled [m1]) (conversationSelected (js "c1"))) in
  (occurrences (js "m2")
     (messages (state_of (deliver [INSERT m1; INSERT m2; UPDATE m2'; INSERT m2] s))) <= 1)%nat
  /\ messages (state_of (onInsert m2 s)) = [m1; m2]
  /\ messages (state_of (onInsert m1 s)) = [m1]
  /\ messages (state_of (onUpdate m2 s)) = [m1].
Proof.
  intros m1 m2 m2' s.
  destruct (realtime_events_keep_ids_unique s) as (Hocc & Hnew & Hdup & _ & Habs).
  split; [|split; [|split]].
  - apply Hocc. vm_compute. lia.
  - change [m1; m2] with (messages s ++ [m2]).
    apply (Hnew m2). intros x [<- | []]. vm_compute. discriminate.
  - change [m1] with (messages s).
    apply (Hdup m1). exists m1. split; [now left | reflexivity].
  - change [m1] with (messages s).
    apply (Habs m2). intros x [<- | []]. vm_compute. discriminate.
Defined.

(** ** Missing-response recovery *)

Lemma option_eqb_refl (a : option jsstring) : option_eqb a a = true.
Proof. destruct a; simpl; [apply jseqb_refl | reflexivity]. Qed.

Lemma nth_error_last {A} (l : list A) (x : A) :
  nth_error (l ++ [x]) (List.length (l ++ [x]) - 1) = Some x.
Proof.
  rewrite length_app. simpl.
  replace (List.length l + 1 - 1)%nat with (List.length l) by lia.
  rewrite nth_error_app2 by lia. now rewrite Nat.sub_diag.
Qed.

Lemma bind_gets {A B} (f : State -> A) (k : A -> M B) (s : State) :
  bind (gets f) k s = k (f s) s.
Proof. unfold bind, gets. destruct (k (f s) s) as [[r s2] t2]. reflexivity. Qed.

Lemma bind_ret_tt {B} (k : unit -> M B) (s : State) :
  bind (ret tt) k s = k tt s.
Proof. unfold bind, ret. destruct (k tt s) as [[r s2] t2]. reflexivity. Qed.

Lemma recoveryInvocations_app (t1 t2 : list Action) :
  recoveryInvocations (t1 ++ t2) = recoveryInvocations t1 ++ recoveryInvocations t2.
Proof. unfold recoveryInvocations. apply flat_map_app. Qed.

(** The recovery effect changes no state and does not throw. *)
Lemma recoveryEffect_pure (render s : State) :
  recoveryEffect render s = (Returned tt, s, recoveryTrace render).
Proof.
  unfold recoveryTrace, recoveryEffect.
  destruct (messagesData render); [|reflexivity].
  destruct (negb (messagesLoading render) && (0 <? List.length (messages render))%nat);
    [|reflexivity].
  destruct (nth_error (messages render) (List.length (messages render) - 1)) as [m|];
    [|reflexivity].
  destruct (Role_eqb (Message.role m) user); reflexivity.
Qed.

Lemma recoveryTrace_invocations (render : State) :
  recoveryInvocations (recoveryTrace render)
  = match messagesData render with
    | Some _ =>
        if messagesLoading render then []
        else lastUserRecovery (currentConversationId render) (messages render)
    | None => []
    end.
Proof.
  unfold recoveryTrace, recoveryEffect, lastUserRecovery.
  destruct (messagesData render); [|reflexivity].
  destruct (messagesLoading render); [reflexivity|]. cbn [negb andb].
  destruct (messages render) as [|x rest] eqn:E; [reflexivity|].
  cbn [List.length Nat.ltb Nat.leb].
  destruct (nth_error (x :: rest) _) as [m|]; [|reflexivity].
  destruct (Message.role m); reflexivity.
Qed.

Ltac step_effects E :=
  repeat (first [rewrite recoveryEffect_pure | rewrite E];
          lazy -[recoveryEffect JS.eqb js lastUserRecovery recoveryInvocations
                 recoveryTrace trace app]).

(** Loading a conversation on a freshly mounted component invokes the
    responder for recovery once when the last stored message is from the
    user, and not at all otherwise. *)
Lemma recovery_on_load (c : jsstring) (stored : list Message) :
  recoveryInvocations (trace (loadConversation c stored initialState))
  = lastUserRecovery (Some c) stored.
Proof.
  pose proof (jseqb_refl c) as E.
  unfold loadConversation, dispatch, runEffects, effectsPass.
  destruct c as [|x c'];
    lazy -[recoveryEffect JS.eqb js lastUserRecovery recoveryInvocations
           recoveryTrace trace app];
    step_effects E;
    rewrite trace_mk, !recoveryInvocations_app, !recoveryTrace_invocations;
    reflexivity.
Qed.

(** With no dependency changed, no effect runs. *)
Lemma effectsPass_same (s : State) : effectsPass s s = (Returned tt, s, []).
Proof.
  unfold effectsPass. rewrite bind_gets.
  unfold recoveryDepsChanged, syncDepsChanged.
  rewrite !Nat.eqb_refl, option_eqb_refl, Bool.eqb_reflx. reflexivity.
Qed.

Lemma syncMessagesEffect_run (render s : State) :
  outcome (syncMessagesEffect render s) = Returned tt
  /\ trace (syncMessagesEffect render s) = []
  /\ messagesDataRef (state_of (syncMessagesEffect render s)) = messagesDataRef s
  /\ currentConversationId (state_of (syncMessagesEffect render s)) = currentConversationId s.
Proof.
  unfold syncMessagesEffect.
  destruct (messagesData render); [|destruct (activeConversation render)];
    open_state s; repeat split.
Qed.

Lemma effectsPass_run (prev s : State) :
  let s' := if syncDepsChanged prev s then state_of (syncMessagesEffect s s) else s in
  effectsPass prev s
  = (Returned tt, s', if recoveryDepsChanged prev s then recoveryTrace s else []).
Proof.
  cbn zeta. unfold effectsPass. rewrite bind_gets.
  destruct (syncMessagesEffect_run s s) as (Ho & Ht & _).
  destruct (syncDepsChanged prev s) eqn:Es; cbn [when].
  - erewrite bind_run by (rewrite (run_eta (syncMessagesEffect s s)), Ho, Ht; reflexivity).
    destruct (recoveryDepsChanged prev s); cbn [when].
    + now rewrite recoveryEffect_pure.
    + reflexivity.
  - rewrite bind_ret_tt.
    destruct (recoveryDepsChanged prev s); cbn [when].
    + now rewrite recoveryEffect_pure.
    + reflexivity.
Qed.

(** The render caused by the effects of a pass runs at most the recovery
    effect again, which sets no state: two passes settle the component. *)
Lemma runEffects_settles (prev s : State) :
  state_of (runEffects prev s) = state_of (effectsPass prev s)
  /\ effectsPass (state_of (runEffects prev s)) (state_of (runEffects prev s))
     = (Returned tt, state_of (runEffects prev s), []).
Proof.
  split; [|apply effectsPass_same].
  unfold runEffects. rewrite bind_gets.
  erewrite bind_run by apply effectsPass_run.
  rewrite state_of_mk, !effectsPass_run, !state_of_mk.
  assert (Hsame : forall x, syncDepsChanged x x = false).
  { intros x. unfold syncDepsChanged. now rewrite Nat.eqb_refl, option_eqb_refl. }
  destruct (syncDepsChanged prev s) eqn:Es; [|now rewrite Hsame].
  destruct (syncMessagesEffect_run s s) as (_ & _ & Hd & Hc).
  unfold syncDepsChanged at 1. rewrite Hd, Hc, Nat.eqb_refl, option_eqb_refl.
  reflexivity.
Qed.

(** But the effect depends on [messages]: once the messages of the
    conversation are loaded, every realtime INSERT of a user message with a
    new id makes it run again and invoke the responder for that message. *)
Lemma insert_retriggers_recovery (s : State) (m : Message) (d : list Message) :
  messagesData s = Some d ->
  messagesLoading s = false ->
  Message.role m = user ->
  existsb (fun x => JS.eqb (Message.id x) (Message.id m)) (messages s) = false ->
  recoveryInvocations (trace (dispatch (onInsert m) s))
  = [{| body_message := Message.content m;
        body_conversationId := currentConversationId s;
        body_imageUrl := Message.image_url m;
        body_isRetry := true |}].
Proof.
  intros Hd Hl Hr Hex.
  pose (s1 := state_of (onInsert m s)).
  assert (Hins : onInsert m s = (Returned tt, s1, [])).
  { subst s1. revert Hex. open_state s. cbn [messages]. intros Hex.
    unfold onInsert. cbn. rewrite Hex, Hr. reflexivity. }
  assert (Hs1 : messagesData s1 = Some d /\ messagesLoading s1 = false
                /\ messages s1 = messages s ++ [m]
                /\ currentConversationId s1 = currentConversationId s
                /\ messagesDataRef s1 = messagesDataRef s
                /\ messagesRef s1 = S (messagesRef s)).
  { subst s1. revert Hd Hl Hex. open_state s.
    cbn [messages messagesData messagesLoading]. intros -> -> Hex.
    unfold onInsert. cbn. rewrite Hex, Hr. repeat split. }
  destruct Hs1 as (Hd1 & Hl1 & Hm1 & Hc1 & Hdr1 & Hr1).
  unfold dispatch. rewrite bind_gets.
  erewrite bind_run by exact Hins. rewrite trace_mk. cbn [app].
  unfold runEffects. rewrite bind_gets.
  assert (Hpass : effectsPass s s1
                  = (Returned tt, s1,
                     recoveryTrace s1)).
  { unfold effectsPass. rewrite bind_gets.
    unfold recoveryDepsChanged, syncDepsChanged.
    rewrite Hdr1, Hc1, Hl1, Hl, Hr1, Nat.eqb_refl, option_eqb_refl.
    replace (messagesRef s =? S (messagesRef s))%nat with false
      by (symmetry; apply Nat.eqb_neq; lia).
    cbn [negb orb Bool.eqb when]. rewrite bind_ret_tt.
    apply recoveryEffect_pure. }
  erewrite bind_run by exact Hpass. rewrite trace_mk, effectsPass_same, trace_mk.
  rewrite app_nil_r, recoveryTrace_invocations, Hd1, Hl1, Hm1, Hc1.
  unfold lastUserRecovery. now rewrite nth_error_last, Hr.
Qed.

(** C3, the code at the failing input. Conversation [c1] is loaded with a
    single stored message, from the user: one recovery invocation. The
    realtime INSERT of a further user row then changes the Message Store,
    the effect runs again and invokes the responder a second time within the
    same load. Likewise a conversation loaded with an assistant reply last
    (no invocation at load) gets an invocation from a later INSERT. *)
Theorem recovery_runs_on_store_mutation :
  let c := js "c1" in
  let m1 := sampleMessage "m1" user "Hi" in
  let m2 := sampleMessage "m2" assistant "Hello!" in
  let m3 := sampleMessage "m3" user "Hi" in
  map body_message
      (recoveryInvocations (trace (loadConversation c [m1] initialState)))
  = [js "Hi"]
  /\ map body_message
       (recoveryInvocations
          (trace ((loadConversation c [m1] ;; dispatch (onInsert m3)) initialState)))
     = [js "Hi"; js "Hi"]
  /\ recoveryInvocations (trace (loadConversation c [m1; m2] initialState)) = []
  /\ recoveryInvocations
       (trace ((loadConversation c [m1; m2] ;; dispatch (onInsert m3)) initialState))
     = [{| body_message := js "Hi"; body_conversationId := Some c;
           body_imageUrl := None; body_isRetry := true |}].
Proof. vm_compute. repeat split. Qed.

(** ** Send Pipeline *)

(** The three ways [mutationFn] can go. *)
Lemma mutationFn_upload_fails (env : SendEnv) (vars : SendVars) (s : State) :
  uploadSucceeds env vars = false ->
  let r := mutationFn env vars s in
  outcome r = Thrown uploadFailed
  /\ messages (state_of r) = messages s
  /\ pendingMessage (state_of r) = Some vars
  /\ onLine (state_of r) = onLine s
  /\ (exists rest, trace r = SetPendingMessage (Some vars) :: rest)
  /\ existsb isPlaceholderRemoval (trace r) = false.
Proof.
  open_state s.
  destruct vars as [text file], env as [n1 n2 n3 i1 i2 ue url ir].
  unfold uploadSucceeds. cbn [imageFile uploadError].
  destruct file as [f|], ue as [e|]; try discriminate. intros _.
  cbn -[js ofN lastSegment]. repeat split; try reflexivity. eexists; reflexivity.
Qed.

Lemma mutationFn_invoke_fails (env : SendEnv) (vars : SendVars) (s : State) (e : JsError) :
  uploadSucceeds env vars = true ->
  invokeResult env = InvokeError e ->
  let r := mutationFn env vars s in
  outcome r = Thrown e
  /\ messages (state_of r)
     = messages s ++ [optimisticUserMsg env vars (uploadedUrl env vars); tempMessage env]
  /\ pendingMessage (state_of r) = Some vars
  /\ onLine (state_of r) = onLine s
  /\ (exists rest, trace r = SetPendingMessage (Some vars) :: rest)
  /\ existsb isPlaceholderRemoval (trace r) = false.
Proof.
  open_state s.
  destruct vars as [text file], env as [n1 n2 n3 i1 i2 ue url ir].
  unfold uploadSucceeds. cbn [imageFile uploadError invokeResult].
  intros Hu ->.
  destruct file as [f|], ue as [e'|]; try discriminate;
    cbn -[js ofN lastSegment]; rewrite <- app_assoc;
    (repeat split; try reflexivity; eexists; reflexivity).
Qed.

Lemma mutationFn_succeeds (env : SendEnv) (vars : SendVars) (s : State) (data : ResponderData) :
  uploadSucceeds env vars = true ->
  invokeResult env = InvokeOk data ->
  let r := mutationFn env vars s in
  outcome r = Returned data
  /\ messages (state_of r)
     = messages s ++ [optimisticUserMsg env vars (uploadedUrl env vars); tempMessage env]
  /\ pendingMessage (state_of r) = None
  /\ (exists rest, trace r = SetPendingMessage (Some vars) :: rest)
  /\ In (SetTimeout (timerSeq s) (RemovePlaceholders (tempMessageId env)) 500) (trace r).
Proof.
  open_state s.
  destruct vars as [text file], env as [n1 n2 n3 i1 i2 ue url ir].
  unfold uploadSucceeds. cbn [imageFile uploadError invokeResult].
  intros Hu ->.
  destruct file as [f|], ue as [e'|]; try discriminate;
    cbn -[js ofN lastSegment]; rewrite <- app_assoc;
    (repeat split; try reflexivity; [eexists; reflexivity | intuition]).
Qed.

Lemma sendOnSuccess_run (data : ResponderData) (s : State) :
  let r := sendOnSuccess data s in
  messages (state_of r) = messages s
  /\ pendingMessage (state_of r) = pendingMessage s
  /\ existsb isPlaceholderRemoval (trace r) = false.
Proof.
  open_state s.
  destruct data as [resp [c|]]; unfold sendOnSuccess; cbn -[js option_eqb truthy].
  - destruct (truthy c && negb (option_eqb (Some c) cid));
      cbn -[js option_eqb truthy]; repeat split.
  - repeat split.
Qed.

Lemma sendOnError_run (e : JsError) (s : State) :
  let r := sendOnError e s in
  messages (state_of r) = messages s
  /\ pendingMessage (state_of r) = pendingMessage s
  /\ existsb isPlaceholderRemoval (trace r) = false.
Proof.
  open_state s.
  unfold sendOnError; cbn -[js]. destruct ol; cbn -[js]; repeat split.
Qed.

(** A whole run of the mutation ends with the store and the pending slot as
    [mutationFn] left them, and [onSuccess] and [onError] set no timer. *)
Lemma sendMessageMutation_run (env : SendEnv) (vars : SendVars) (s : State) :
  let r0 := mutationFn env vars s in
  let r := sendMessageMutation env vars s in
  messages (state_of r) = messages (state_of r0)
  /\ pendingMessage (state_of r) = pendingMessage (state_of r0)
  /\ exists t, trace r = trace r0 ++ t /\ existsb isPlaceholderRemoval t = false.
Proof.
  unfold sendMessageMutation.
  destruct (mutationFn env vars s) as [[[data|e] s1] t1]; cbn zeta.
  - destruct (sendOnSuccess_run data s1) as (Hm & Hp & Ht). cbn zeta in *.
    destruct (sendOnSuccess data s1) as [[o s2] t2].
    rewrite !state_of_mk, !trace_mk in *. repeat split; eauto.
  - destruct (sendOnError_run e s1) as (Hm & Hp & Ht). cbn zeta in *.
    destruct (sendOnError e s1) as [[o s2] t2].
    rewrite !state_of_mk, !trace_mk in *. repeat split; eauto.
Qed.

(** C5. In every send attempt the first thing done is to record the
    composition as Pending Send, so every network call of the attempt comes
    after it. The attempt returns exactly when the upload step goes through
    and the responder invocation succeeds; then Pending Send is cleared.
    Whenever the attempt throws, in particular when the invocation fails
    after the optimistic placeholders were inserted, Pending Send is the
    original (text, file) pair. [onSuccess] and [onError] leave the slot as
    it is. *)
Theorem pending_send_preserved (env : SendEnv) (vars : SendVars) (s : State) :
  let r := mutationFn env vars s in
  (exists rest, trace r = SetPendingMessage (Some vars) :: rest)
  /\ outcome r
     = (if uploadSucceeds env vars then
          match invokeResult env with
          | InvokeOk data => Returned data
          | InvokeError e => Thrown e
          end
        else Thrown uploadFailed)
  /\ pendingMessage (state_of r)
     = match outcome r with
       | Returned _ => None
       | Thrown _ => Some vars
       end
  /\ pendingMessage (state_of (sendMessageMutation env vars s))
     = pendingMessage (state_of r).
Proof.
  cbn zeta.
  assert (H : (exists rest, trace (mutationFn env vars s) = SetPendingMessage (Some vars) :: rest)
              /\ outcome (mutationFn env vars s)
                 = (if uploadSucceeds env vars then
                      match invokeResult env with
                      | InvokeOk data => Returned data
                      | InvokeError e => Thrown e
                      end
                    else Thrown uploadFailed)
              /\ pendingMessage (state_of (mutationFn env vars s))
                 = match outcome (mutationFn env vars s) with
                   | Returned _ => None
                   | Thrown _ => Some vars
                   end).
  { destruct (uploadSucceeds env vars) eqn:Hu.
    - destruct (invokeResult env) as [data|e] eqn:Hi.
      + destruct (mutationFn_succeeds env vars s Hu Hi) as (Ho & _ & Hp & Ht & _).
        cbn zeta in *. rewrite Ho. auto.
      + destruct (mutationFn_invoke_fails env vars s Hu Hi) as (Ho & _ & Hp & _ & Ht & _).
        cbn zeta in *. rewrite Ho. auto.
    - destruct (mutationFn_upload_fails env vars s Hu) as (Ho & _ & Hp & _ & Ht & _).
      cbn zeta in *. rewrite Ho. auto. }
  destruct H as (H1 & H2 & H3). repeat split; try assumption.
  apply sendMessageMutation_run.
Qed.

(** C10. When the upload step goes through, both placeholders are appended
    to the Message Store. If the responder invocation then fails, the run
    of the mutation ends with both still in the store, with Pending Send
    kept, and without any timer set to remove them; the removal timer
    (500 ms) is set on the success path only. *)
Theorem failed_send_leaves_placeholders (env : SendEnv) (vars : SendVars) (s : State) :
  uploadSucceeds env vars = true ->
  let r := sendMessageMutation env vars s in
  let userRow := optimisticUserMsg env vars (uploadedUrl env vars) in
  messages (state_of r) = messages s ++ [userRow; tempMessage env]
  /\ In userRow (messages (state_of r))
  /\ In (tempMessage env) (messages (state_of r))
  /\ match invokeResult env with
     | InvokeError _ =>
         existsb isPlaceholderRemoval (trace r) = false
         /\ pendingMessage (state_of r) = Some vars
     | InvokeOk _ =>
         In (SetTimeout (timerSeq s) (RemovePlaceholders (tempMessageId env)) 500) (trace r)
     end.
Proof.
  intros Hu. cbn zeta.
  destruct (sendMessageMutation_run env vars s) as (Hm & Hp & t & Ht & Hno).
  cbn zeta in *. rewrite Hm, Hp, Ht.
  assert (Hstore : messages (state_of (mutationFn env vars s))
                   = messages s ++ [optimisticUserMsg env vars (uploadedUrl env vars);
                                    tempMessage env]).
  { destruct (invokeResult env) as [data|e] eqn:Hi.
    - apply (mutationFn_succeeds env vars s Hu Hi).
    - apply (mutationFn_invoke_fails env vars s Hu Hi). }
  rewrite Hstore. split; [reflexivity|]. split; [|split].
  - apply in_or_app. right. now left.
  - apply in_or_app. right. right. now left.
  - destruct (invokeResult env) as [data|e] eqn:Hi.
    + destruct (mutationFn_succeeds env vars s Hu Hi) as (_ & _ & _ & _ & Hin).
      apply in_or_app. now left.
    + destruct (mutationFn_invoke_fails env vars s Hu Hi) as (_ & _ & Hpend & _ & _ & Hrem).
      cbn zeta in *. rewrite existsb_app, Hrem, Hno. auto.
Qed.

Lemma failed_send_leaves_placeholders_witness :
  let env := sampleEnv (InvokeError sampleError) in
  let vars := {| message := js "What is in this picture?"; imageFile := Some sampleFile |} in
  let s := conversationSelected (js "c1") in
  List.length (messages (state_of (sendMessageMutation env vars s))) = 2%nat
  /\ existsb isPlaceholderRemoval (trace (sendMessageMutation env vars s)) = false.
Proof.
  intros env vars s.
  assert (Hu : uploadSucceeds env vars = true) by reflexivity.
  destruct (failed_send_leaves_placeholders env vars s Hu) as (Hm & _ & _ & Hrem & _).
  split; [|exact Hrem].
  rewrite Hm. reflexivity.
Defined.

(** ** Offline send and replay *)



(** ** Deleting the current conversation *)

(** C8. With an active conversation, a deletion that the persistence
    service accepts ends with no active conversation, an empty Message Store
    and the conversation list invalidated; one that it rejects ends with an
    error notice, and with the active id, the Message Store and the
    conversation list as they were, the list not invalidated. *)
Theorem delete_conversation_atomic (s : State) (c : jsstring) :
  activeConversation s = Some c ->
  (let r := deleteConversationMutation None s in
   currentConversationId (state_of r) = None
   /\ messages (state_of r) = []
   /\ In (DeleteConversationRow c) (trace r)
   /\ In (InvalidateQueries (js "conversations")) (trace r))
  /\ (forall e : JsError,
        let r := deleteConversationMutation (Some e) s in
        currentConversationId (state_of r) = currentConversationId s
        /\ messages (state_of r) = messages s
        /\ conversationsData (state_of r) = conversationsData s
        /\ existsb isInvalidate (trace r) = false
        /\ In (Toast (js "Error")
                     (errorDescription e (js "Failed to delete conversation")) true)
              (trace r)).
Proof.
  open_state s.
  unfold activeConversation. cbn [currentConversationId].
  intros H. destruct cid as [c'|]; [|discriminate].
  destruct (truthy c') eqn:Ht; [|discriminate]. injection H as ->.
  unfold deleteConversationMutation, deleteMutationFn, activeConversation.
  split.
  - cbn -[js]. rewrite Ht. cbn -[js]. repeat split; auto.
  - intros e. cbn -[js errorDescription]. rewrite Ht. cbn -[js errorDescription].
    repeat split; auto.
Qed.

Lemma delete_conversation_atomic_witness :
  let s := state_of (dispatch (messagesQuerySettled [sampleMessage "m1" user "Hi"])
                              (conversationSelected (js "c1"))) in
  messages (state_of (deleteConversationMutation None s)) = []
  /\ messages (state_of (deleteConversationMutation (Some sampleError) s))
     = [sampleMessage "m1" user "Hi"].
Proof.
  intros s.
  assert (H : activeConversation s = Some (js "c1")) by reflexivity.
  destruct (delete_conversation_atomic s H) as ((_ & Hok & _) & Hfail).
  split; [exact Hok|].
  destruct (Hfail sampleError) as (_ & Hm & _). exact Hm.
Defined.

(** ** The chat input box *)

(** The claim of C9 fails on the input box of [ChatInput.tsx], the one the
    controller renders with [isDisabled]: with white space typed and an image
    attached, [handleSendMessage] sends the white space and the image, not
    the text 'Please analyze this image'. *)
Lemma blank_text_sent_as_typed_counterexample :
  let st := {| ChatInputDisableable.message := [32; 9]%N;
               ChatInputDisableable.imageFile := Some sampleFile;
               ChatInputDisableable.imagePreview := None |} in
  whitespaceOnly (ChatInputDisableable.message st)
  /\ snd (ChatInputDisableable.handleSendMessage st)
     = Some {| message := [32; 9]%N; imageFile := Some sampleFile |}
  /\ snd (ChatInputDisableable.handleSendMessage st)
     <> Some {| message := js "Please analyze this image"; imageFile := Some sampleFile |}.
Proof.
  cbn zeta. split; [repeat constructor|]. split; [reflexivity|].
  vm_compute. discriminate.
Qed.

(** C9, amended. With a text that is empty or white space only and an image
    attached, the box whose handler is [handleSend] sends the text 'Please
    analyze this image' with that image, and the box of [ChatInput.tsx],
    whose handler is [handleSendMessage], sends the text as typed with that
    image; both empty the box. With no image attached neither sends
    anything, and both leave the box as it is. *)
Theorem blank_text_send_per_box (text : jsstring) (image : option File)
        (preview : option jsstring) :
  whitespaceOnly text ->
  let box := {| ChatInput.message := text; ChatInput.selectedImage := image;
                ChatInput.imagePreview := preview |} in
  let box' := {| ChatInputDisableable.message := text;
                 ChatInputDisableable.imageFile := image;
                 ChatInputDisableable.imagePreview := preview |} in
  match image with
  | Some f =>
      ChatInput.handleSend box
      = ({| ChatInput.message := []; ChatInput.selectedImage := None;
            ChatInput.imagePreview := None |},
         Some {| message := js "Please analyze this image"; imageFile := Some f |})
      /\ ChatInputDisableable.handleSendMessage box'
         = ({| ChatInputDisableable.message := [];
               ChatInputDisableable.imageFile := None;
               ChatInputDisableable.imagePreview := None |},
            Some {| message := text; imageFile := Some f |})
  | None =>
      ChatInput.handleSend box = (box, None)
      /\ ChatInputDisableable.handleSendMessage box' = (box', None)
  end.
Proof.
  intros Hws. apply trim_nil_iff in Hws. cbn zeta.
  unfold ChatInput.handleSend, ChatInputDisableable.handleSendMessage.
  cbn [ChatInput.message ChatInput.selectedImage ChatInputDisableable.message
       ChatInputDisableable.imageFile].
  rewrite Hws. destruct image as [f|]; split; reflexivity.
Qed.

Lemma blank_text_send_per_box_witness :
  let text := [32; 9; 10; 160]%N in
  let preview := Some (js "data:image/png;base64,iVBORw0KGgo=") in
  snd (ChatInput.handleSend
         {| ChatInput.message := text; ChatInput.selectedImage := Some sampleFile;
            ChatInput.imagePreview := preview |})
  = Some {| message := js "Please analyze this image"; imageFile := Some sampleFile |}
  /\ snd (ChatInputDisableable.handleSendMessage
            {| ChatInputDisableable.message := text;
               ChatInputDisableable.imageFile := Some sampleFile;
               ChatInputDisableable.imagePreview := preview |})
     = Some {| message := text; imageFile := Some sampleFile |}.
Proof.
  intros text preview.
  assert (Hws : whitespaceOnly text) by (repeat constructor).
  destruct (@blank_text_send_per_box text (Some sampleFile) preview Hws) as [H1 H2].
  cbn zeta in H1, H2. rewrite H1, H2. split; reflexivity.
Defined.

(** The variant of the input box with the [isDisabled] prop has no default
    text: with an image attached it sends the text as typed, white space
    included. *)
Remark handleSendMessage_sends_text_as_typed
    (st : ChatInputDisableable.InputState) (f : File) :
  ChatInputDisableable.imageFile st = Some f ->
  snd (ChatInputDisableable.handleSendMessage st)
  = Some {| message := ChatInputDisableable.message st; imageFile := Some f |}.
Proof.
  intros H. unfold ChatInputDisableable.handleSendMessage. rewrite H.
  cbn [ChatInput.isSome negb]. rewrite andb_false_r. reflexivity.
Qed.

(** ** The responder's context window *)

Lemma historyData_length (db : list Responder.Row) (c : jsstring) :
  (List.length (Responder.historyData db c) <= 20)%nat.
Proof. unfold Responder.historyData. apply firstn_le_length. Qed.

(** The window is the beginning of the conversation in creation order:
    whatever is left out was created later. *)
Lemma historyData_prefix (db : list Responder.Row) (c : jsstring) :
  Responder.orderAsc (filter (fun r => JS.eqb (Responder.conversation_id r) c) db)
  = Responder.historyData db c
    ++ skipn 20 (Responder.orderAsc
                   (filter (fun r => JS.eqb (Responder.conversation_id r) c) db)).
Proof. unfold Responder.historyData. symmetry. apply firstn_skipn. Qed.

(** C7, the code at the failing input. For a conversation with 21 stored
    messages (created at times 1 to 21) the request is the system directive,
    a window of 20 messages and the current message; the window is the 20
    oldest (times 1 to 20), whereas the 20 most recent are those of times 2
    to 21: the newest stored message is left out and the oldest kept. *)
Theorem history_window_is_oldest_20 :
  let request := Responder.openAIMessages sampleDb (js "next") (Some (js "c1")) None in
  map Responder.created_at (Responder.historyData sampleDb (js "c1"))
  = map Z.of_nat (seq 1 20)
  /\ map Responder.created_at (Responder.mostRecent20 sampleDb (js "c1"))
     = map Z.of_nat (seq 2 20)
  /\ Responder.historyData sampleDb (js "c1") <> Responder.mostRecent20 sampleDb (js "c1")
  /\ request
     = Responder.systemPrompt
       :: map Responder.toChatMessage (Responder.historyData sampleDb (js "c1"))
       ++ [Responder.currentMessage (js "next") None]
  /\ List.length request = 22%nat.
Proof.
  cbn zeta. split; [vm_compute; reflexivity|]. split; [vm_compute; reflexivity|].
  split; [|split; [reflexivity | vm_compute; reflexivity]].
  intros H. apply (f_equal (map Responder.created_at)) in H.
  vm_compute in H. discriminate.
Qed.

(** ** Realtime Link: backoff in the component *)

(** A handshake error met with the counter below 3 sets the status to
    [error] and sets one timer, of [2^k] seconds, for the retry. *)
Lemma handshake_error_schedules_retry (c : jsstring) (s : State) :
  retryCountRef s < MAX_RETRIES ->
  onSubscribeStatus c CHANNEL_ERROR s
  = (Returned tt,
     state_of (onSubscribeStatus c CHANNEL_ERROR s),
     [SetTimeout (timerSeq s) (RetrySubscription c) (2 ^ retryCountRef s * 1000)])
  /\ subscriptionStatus (state_of (onSubscribeStatus c CHANNEL_ERROR s)) = error
  /\ retryTimeoutRef (state_of (onSubscribeStatus c CHANNEL_ERROR s)) = Some (timerSeq s)
  /\ retryCountRef (state_of (onSubscribeStatus c CHANNEL_ERROR s)) = retryCountRef s
  /\ connectionStatus (state_of (onSubscribeStatus c CHANNEL_ERROR s)) = connectionStatus s
  /\ currentConversationId (state_of (onSubscribeStatus c CHANNEL_ERROR s))
     = currentConversationId s.
Proof.
  open_state s. cbn [retryCountRef timerSeq]. unfold MAX_RETRIES. intros Hk.
  unfold onSubscribeStatus, MAX_RETRIES. cbn -[Z.pow Z.mul].
  destruct (Z.ltb_spec n 3) as [_|Hge]; [|lia]. cbn -[Z.pow Z.mul]. repeat split; reflexivity.
Qed.

Lemma rendered_run (h : M unit) (s : State) :
  rendered h s
  = if connectivityDepsChanged s (state_of (h s)) (trace (h s)) then
      (outcome (h s), state_of (connectivityEffectCleanup (state_of (h s))),
       trace (h s) ++ trace (connectivityEffectCleanup (state_of (h s))))
    else h s.
Proof. reflexivity. Qed.

(** One failed attempt in the component. When the error changes
    [subscriptionStatus] (it was [inactive] or [active]), the render it
    causes runs the cleanup of the connectivity effect, which clears the
    timer just set: nothing is left to fire, no attempt is made and the
    counter stays. *)
Lemma failedAttempt_cleared (c : jsstring) (s : State) :
  retryCountRef s < MAX_RETRIES ->
  subscriptionStatus s <> error ->
  let r := failedAttempt c s in
  outcome r = Returned tt
  /\ trace r = [SetTimeout (timerSeq s) (RetrySubscription c) (2 ^ retryCountRef s * 1000);
                ClearTimeout (timerSeq s)]
  /\ pendingTimers (trace r) = []
  /\ retryCountRef (state_of r) = retryCountRef s
  /\ subscriptionStatus (state_of r) = error
  /\ connectionStatus (state_of r) = connectionStatus s.
Proof.
  intros Hk Hne. cbn zeta.
  destruct (@handshake_error_schedules_retry c s Hk) as (Hrun & Hst & Hrt & Hn & Hcs & Hcid).
  set (s1 := state_of (onSubscribeStatus c CHANNEL_ERROR s)) in *. clearbody s1.
  assert (Hr : rendered (onSubscribeStatus c CHANNEL_ERROR) s
               = (Returned tt, s1,
                  [SetTimeout (timerSeq s) (RetrySubscription c) (2 ^ retryCountRef s * 1000);
                   ClearTimeout (timerSeq s)])).
  { rewrite rendered_run, Hrun, outcome_mk, state_of_mk, trace_mk.
    unfold connectivityDepsChanged. rewrite Hst, Hcid, option_eqb_refl.
    cbn [lastPendingWrite fold_left negb orb].
    destruct (subscriptionStatus s); [| |contradiction]; cbn [SubscriptionStatus_eqb negb orb];
      unfold connectivityEffectCleanup; rewrite bind_gets, Hrt; reflexivity. }
  unfold failedAttempt. rewrite Hr, trace_mk, state_of_mk.
  assert (Hp : pendingTimers
                 [SetTimeout (timerSeq s) (RetrySubscription c) (2 ^ retryCountRef s * 1000);
                  ClearTimeout (timerSeq s)] = []).
  { unfold pendingTimers. cbn [fold_left app filter fst]. now rewrite Nat.eqb_refl. }
  rewrite Hp. cbn [fireTimers]. unfold ret. rewrite outcome_mk, state_of_mk, trace_mk, app_nil_r.
  repeat split; auto.
Qed.

Lemma retrySubscription_run (c : jsstring) (s : State) :
  let r := rendered (fire (RetrySubscription c)) s in
  outcome r = Returned tt
  /\ scheduledRetries (trace r) = []
  /\ In (Subscribe c) (trace r)
  /\ retryCountRef (state_of r) = retryCountRef s + 1
  /\ subscriptionStatus (state_of r) = inactive
  /\ connectionStatus (state_of r) = reconnecting.
Proof.
  open_state s. cbn zeta. rewrite rendered_run.
  unfold fire, retrySubscription, setupRealtimeSubscription, connectivityDepsChanged,
    connectivityEffectCleanup.
  destruct ch as [c0|], ss, rt as [t|]; cbn; rewrite ?option_eqb_refl; cbn;
    repeat split; auto.
Qed.

(** When the status was [error] already there is no render; the timer
    fires, counts the attempt and subscribes again. *)
Lemma failedAttempt_fires (c : jsstring) (s : State) :
  retryCountRef s < MAX_RETRIES ->
  subscriptionStatus s = error ->
  let r := failedAttempt c s in
  outcome r = Returned tt
  /\ scheduledRetries (trace r) = [2 ^ retryCountRef s * 1000]
  /\ In (Subscribe c) (trace r)
  /\ retryCountRef (state_of r) = retryCountRef s + 1
  /\ subscriptionStatus (state_of r) = inactive
  /\ connectionStatus (state_of r) = reconnecting.
Proof.
  intros Hk He. cbn zeta.
  destruct (@handshake_error_schedules_retry c s Hk) as (Hrun & Hst & Hrt & Hn & Hcs & Hcid).
  set (s1 := state_of (onSubscribeStatus c CHANNEL_ERROR s)) in *. clearbody s1.
  assert (Hr : rendered (onSubscribeStatus c CHANNEL_ERROR) s
               = (Returned tt, s1,
                  [SetTimeout (timerSeq s) (RetrySubscription c)
                     (2 ^ retryCountRef s * 1000)])).
  { rewrite rendered_run, Hrun, outcome_mk, state_of_mk, trace_mk.
    unfold connectivityDepsChanged. rewrite Hst, Hcid, option_eqb_refl, He.
    reflexivity. }
  unfold failedAttempt. rewrite Hr, trace_mk, state_of_mk.
  change (pendingTimers [SetTimeout (timerSeq s) (RetrySubscription c)
                           (2 ^ retryCountRef s * 1000)])
    with [(timerSeq s, RetrySubscription c)].
  cbn [fireTimers].
  destruct (retrySubscription_run c s1) as (Ho & Hs & Hin & Hcnt & Hsub & Hconn).
  cbn zeta in *.
  erewrite bind_run
    by (rewrite (run_eta (rendered (fire (RetrySubscription c)) _)), Ho; reflexivity).
  unfold ret. rewrite !outcome_mk, !state_of_mk, !trace_mk, ?app_nil_r.
  rewrite scheduledRetries_app, Hs, Hcnt, Hn.
  split; [reflexivity|]. split; [reflexivity|]. split; [right; exact Hin|].
  split; [reflexivity|]. split; assumption.
Qed.

(** With the counter at 3 or more nothing is scheduled. *)
Lemma failedAttempt_spent (c : jsstring) (s : State) :
  MAX_RETRIES <= retryCountRef s ->
  let r := failedAttempt c s in
  outcome r = Returned tt
  /\ scheduledRetries (trace r) = []
  /\ pendingTimers (trace r) = []
  /\ retryCountRef (state_of r) = retryCountRef s
  /\ subscriptionStatus (state_of r) = error.
Proof.
  open_state s. cbn [retryCountRef]. unfold MAX_RETRIES. intros Hk. cbn zeta.
  unfold failedAttempt. rewrite rendered_run.
  unfold onSubscribeStatus, MAX_RETRIES, connectivityDepsChanged, connectivityEffectCleanup.
  cbn. destruct (Z.ltb_spec n 3) as [Hlt|_]; [lia|].
  cbn. rewrite option_eqb_refl.
  destruct ss, rt as [t|]; cbn; repeat split; reflexivity.
Qed.

(** The subscribe callback and the retry timer change none of the
    dependencies of the other effects: [currentConversationId],
    [messagesData], [messagesLoading] and [messages] are as before. *)
Lemma link_handlers_other_effects_idle (c : jsstring) (st : ChannelStatus) (s : State) :
  recoveryDepsChanged s (state_of (onSubscribeStatus c st s)) = false
  /\ recoveryDepsChanged s (state_of (fire (RetrySubscription c) s)) = false.
Proof.
  open_state s. unfold recoveryDepsChanged, syncDepsChanged.
  split.
  - unfold onSubscribeStatus, MAX_RETRIES.
    destruct st; cbn; try (destruct (n <? 3); cbn);
      now rewrite !Nat.eqb_refl, option_eqb_refl, Bool.eqb_reflx.
  - unfold fire, retrySubscription, setupRealtimeSubscription.
    destruct ch; cbn; now rewrite !Nat.eqb_refl, option_eqb_refl, Bool.eqb_reflx.
Qed.

(** C1, the code at the failing input. Conversation [c1] is selected and
    subscribed. The first handshake error sets the 1 s timer and the status
    [error]; the render this change causes runs the cleanup of the
    connectivity effect, which clears that timer: no timer is pending, no
    attempt follows, the counter stays at 0. When the channel reports the
    error again the status does not change, the timer stays and fires. So
    five reports in a row set timers of 1, 1, 2, 2 and 4 s and leave the
    counter at 2; after three failures the fourth still sets a timer; eight
    reports set six timers. *)
Theorem retry_timer_cleared_by_render :
  let c := js "c1" in
  let s := mountedWith c in
  let first := failedAttempt c s in
  subscriptionStatus s = inactive
  /\ trace first = [SetTimeout 0 (RetrySubscription c) 1000; ClearTimeout 0]
  /\ pendingTimers (trace first) = []
  /\ subscriptionStatus (state_of first) = error
  /\ retryCountRef (state_of first) = 0
  /\ existsb (fun a => match a with Subscribe _ => true | _ => false end) (trace first)
     = false
  /\ scheduledRetries (trace (consecutiveFailures 5 c s)) = [1000; 1000; 2000; 2000; 4000]
  /\ retryCountRef (state_of (consecutiveFailures 5 c s)) = 2
  /\ scheduledRetries (trace (failedAttempt c (state_of (consecutiveFailures 3 c s))))
     = [2000]
  /\ scheduledRetries (trace (consecutiveFailures 8 c s))
     = [1000; 1000; 2000; 2000; 4000; 4000].
Proof. vm_compute. repeat split; reflexivity. Qed.

(** * Further properties of the controller *)

(** ** One channel at a time *)

Lemma openChannels_app (t1 t2 : list Action) (open : list jsstring) :
  openChannels (t1 ++ t2) open = openChannels t2 (openChannels t1 open).
Proof. unfold openChannels. apply fold_left_app. Qed.

Lemma closeChannel_single (c : jsstring) : closeChannel c [c] = [].
Proof. simpl. now rewrite jseqb_refl. Qed.

(** The channels open after an operation are those of its ref, provided
    that held before it. *)
Lemma linkOp_keeps_one_channel (op : LinkOp) (s : State) (open : list jsstring) :
  open = refChannel s ->
  outcome (linkOp op s) = Returned tt
  /\ openChannels (trace (linkOp op s)) open = refChannel (state_of (linkOp op s)).
Proof.
  intros ->. unfold refChannel.
  open_state s. cbn [realtimeChannelRef].
  destruct op as [c|next|  |c|c st| | | |e]; unfold linkOp.
  - unfold setupRealtimeSubscription. destruct ch as [c0|]; cbn;
      rewrite ?jseqb_refl; split; reflexivity.
  - unfold subscriptionEffectCleanup, subscriptionEffect, activeConversation,
      setupRealtimeSubscription.
    cbn -[option_eqb]. destruct (option_eqb next cid); [destruct ch; split; reflexivity|].
    destruct next as [c'|]; [destruct (truthy c') eqn:Ht|];
      destruct ch as [c0|]; cbn; rewrite ?Ht; cbn; rewrite ?jseqb_refl;
      split; reflexivity.
  - unfold subscriptionEffectCleanup. destruct ch as [c0|]; cbn;
      rewrite ?jseqb_refl; split; reflexivity.
  - unfold retrySubscription, setupRealtimeSubscription. destruct ch as [c0|]; cbn;
      rewrite ?jseqb_refl; split; reflexivity.
  - unfold onSubscribeStatus, MAX_RETRIES. destruct st; cbn;
      try (destruct ch; split; reflexivity).
    destruct (n <? 3); cbn; destruct ch; split; reflexivity.
  - unfold handleForceReconnect, activeConversation, setupRealtimeSubscription.
    cbn. destruct cid as [c'|]; [destruct (truthy c')|];
      destruct ch as [c0|], pm; cbn; rewrite ?jseqb_refl; split; reflexivity.
  - unfold windowOnline, handleOnlineStatus, handleSendMessage, activeConversation,
      setupRealtimeSubscription.
    cbn. destruct pm; cbn; destruct ss; cbn; try (destruct ch; split; reflexivity);
      (destruct cid as [c'|]; [destruct (truthy c')|]);
      destruct ch as [c0|]; cbn; rewrite ?jseqb_refl; split; reflexivity.
  - unfold windowOffline, handleOfflineStatus. cbn. destruct ch; split; reflexivity.
  - destruct e as [m|u]; unfold onRealtimeEvent.
    + unfold onInsert. cbn. destruct (existsb _ msgs); cbn;
        destruct (Message.role m); cbn; destruct ch; split; reflexivity.
    + unfold onUpdate. cbn. destruct ch; split; reflexivity.
Qed.

Lemma linkOps_keep_one_channel (ops : list LinkOp) :
  forall (s : State) (open : list jsstring),
    open = refChannel s ->
    outcome (linkOps ops s) = Returned tt
    /\ openChannels (trace (linkOps ops s)) open = refChannel (state_of (linkOps ops s)).
Proof.
  induction ops as [|op ops IH]; intros s open H.
  - cbn. split; [reflexivity | exact H].
  - destruct (linkOp_keeps_one_channel op s H) as [Ho Hc].
    change (linkOps (op :: ops)) with (bind (linkOp op) (fun _ => linkOps ops)).
    erewrite bind_run by (rewrite (run_eta (linkOp op s)), Ho; reflexivity).
    rewrite outcome_mk, state_of_mk, trace_mk, openChannels_app.
    apply IH. exact Hc.
Qed.

Lemma linkOps_snoc (ops : list LinkOp) (op : LinkOp) :
  forall s : State,
    linkOps (ops ++ [op]) s
    = (outcome (linkOp op (state_of (linkOps ops s))),
       state_of (linkOp op (state_of (linkOps ops s))),
       trace (linkOps ops s) ++ trace (linkOp op (state_of (linkOps ops s)))).
Proof.
  induction ops as [|o l IH]; intros s.
  - cbn [app linkOps]. destruct (linkOp_keeps_one_channel op s eq_refl) as [Ho _].
    erewrite bind_run by (rewrite (run_eta (linkOp op s)), Ho; reflexivity).
    cbn. now rewrite Ho, app_nil_r.
  - cbn [app linkOps].
    destruct (linkOp_keeps_one_channel o s eq_refl) as [Ho _].
    erewrite !bind_run by (rewrite (run_eta (linkOp o s)), Ho; reflexivity).
    rewrite IH, !outcome_mk, !state_of_mk, !trace_mk, app_assoc. reflexivity.
Qed.

(** X1. Whatever sequence of conversation changes, status callbacks, retry
    timers, reconnect actions, browser online and offline events and
    realtime events the controller goes through from mount, the channels it
    has subscribed and not removed are at most one, and that one is the
    channel held in [realtimeChannelRef]; after a change to the (non-empty) id
    [c] it is the channel of [c], after a change to no conversation there is
    none. *)
Theorem one_channel_open (ops : list LinkOp) :
  let r := linkOps ops initialState in
  openChannels (trace r) [] = refChannel (state_of r)
  /\ (List.length (openChannels (trace r) []) <= 1)%nat
  /\ (forall c : jsstring,
        truthy c = true ->
        currentConversationId (state_of r) <> Some c ->
        let r' := linkOps (ops ++ [OpConversationChange (Some c)]) initialState in
        openChannels (trace r') [] = [c])
  /\ (currentConversationId (state_of r) <> None ->
      let r' := linkOps (ops ++ [OpConversationChange None]) initialState in
      openChannels (trace r') [] = []).
Proof.
  cbn zeta.
  assert (Hall : forall l, openChannels (trace (linkOps l initialState)) []
                           = refChannel (state_of (linkOps l initialState))).
  { intros l. now apply linkOps_keep_one_channel. }
  split; [apply Hall|]. split.
  { rewrite Hall. unfold refChannel. destruct (realtimeChannelRef _); simpl; lia. }
  assert (Hsnoc := fun op => linkOps_snoc ops op initialState).
  split.
  - intros c Ht Hne. rewrite Hall, Hsnoc, state_of_mk.
    remember (state_of (linkOps ops initialState)) as s eqn:Es. clear - Ht Hne.
    unfold refChannel. open_state s. cbn [currentConversationId] in Hne.
    unfold linkOp, subscriptionEffectCleanup, subscriptionEffect, activeConversation,
      setupRealtimeSubscription.
    cbn -[option_eqb].
    destruct (option_eqb (Some c) cid) eqn:E.
    + exfalso. apply Hne. destruct cid as [c0|]; [|discriminate].
      cbn in E. apply jseqb_eq in E. now subst.
    + destruct ch; cbn; rewrite Ht; reflexivity.
  - intros Hne. rewrite Hall, Hsnoc, state_of_mk.
    remember (state_of (linkOps ops initialState)) as s eqn:Es. clear - Hne.
    unfold refChannel. open_state s. cbn [currentConversationId] in Hne.
    unfold linkOp, subscriptionEffectCleanup, subscriptionEffect, activeConversation.
    destruct cid as [c0|]; [|contradiction]. cbn. destruct ch; reflexivity.
Qed.

Lemma one_channel_open_witness :
  let a := js "c1" in
  let b := js "c2" in
  let ops := [OpConversationChange (Some a); OpStatus a CHANNEL_ERROR; OpRetryFired a;
              OpStatus a SUBSCRIBED; OpOffline; OpOnline; OpForceReconnect] in
  openChannels (trace (linkOps (ops ++ [OpConversationChange (Some b)]) initialState)) [] = [b]
  /\ openChannels (trace (linkOps (ops ++ [OpConversationChange None]) initialState)) [] = [].
Proof.
  intros a b ops.
  destruct (one_channel_open ops) as (_ & _ & Hswitch & Hnone).
  split.
  - apply Hswitch; [reflexivity | vm_compute; discriminate].
  - apply Hnone. vm_compute. discriminate.
Defined.

(** ** The active conversation across a reload *)

(** X2. What the controller writes to [localStorage] always reads back, at
    the next mount, as the conversation that is active: after the persisting
    effect, after selecting a conversation, after starting a new one and
    after a successful deletion, whatever the storage held before. *)
Theorem reload_restores_conversation (s : State) (st : Storage) :
  storedConversationId (storageAfter (trace (persistConversationEffect s)) st)
  = activeConversation s
  /\ (forall c : jsstring,
        let r := handleSelectConversation c s in
        storedConversationId (storageAfter (trace r) st) = activeConversation (state_of r))
  /\ (let r := handleNewConversation s in
      storedConversationId (storageAfter (trace r) st) = activeConversation (state_of r))
  /\ (let r := deleteOnSuccess s in
      storedConversationId (storageAfter (trace r) st) = activeConversation (state_of r)).
Proof.
  open_state s. unfold persistConversationEffect, activeConversation, storedConversationId.
  split; [|split; [|split]].
  - cbn -[js]. destruct cid as [c|]; [destruct (truthy c) eqn:Ht|]; cbn;
      rewrite ?Ht; reflexivity.
  - intros c. cbn. reflexivity.
  - cbn. reflexivity.
  - cbn. reflexivity.
Qed.

(** ** Retrying the pending send *)

(** X3. [handleRetryMessage] does nothing when no send is pending. With a
    pending send and the browser online it starts exactly one send, of that
    composition, and empties the slot; with the browser offline it starts
    none, makes no network call, and the slot ends up holding the same
    composition again. *)
Theorem retry_sends_pending_once (s : State) :
  let r := handleRetryMessage s in
  match pendingMessage s with
  | None => r = (Returned tt, s, [])
  | Some p =>
      if onLine s then
        sendAttempts (trace r) = [p] /\ pendingMessage (state_of r) = None
      else
        filter isNetworkCall (trace r) = [] /\ pendingMessage (state_of r) = Some p
  end.
Proof.
  open_state s. unfold handleRetryMessage, handleRetryMessageWith, handleSendMessage.
  cbn -[js]. destruct pm as [[text file]|]; [|reflexivity].
  destruct ol; cbn -[js]; split; reflexivity.
Qed.

(** X4. The explicit reconnect action shows [reconnecting], subscribes again
    for the active conversation, schedules the retry of a pending send after
    one second, and leaves the attempt counter alone: once the three
    automatic attempts are spent, a handshake error after a manual reconnect
    schedules no automatic attempt. *)
Theorem manual_reconnect_keeps_counter (s : State) (c : jsstring) :
  activeConversation s = Some c ->
  let r := handleForceReconnect s in
  connectionStatus (state_of r) = reconnecting
  /\ openChannels (trace r) (refChannel s) = [c]
  /\ retryCountRef (state_of r) = retryCountRef s
  /\ flat_map (fun a => match a with SetTimeout _ cb d => [(cb, d)] | _ => [] end) (trace r)
     = match pendingMessage s with
       | Some p => [(RetryPending (Some p), 1000)]
       | None => []
       end
  /\ (MAX_RETRIES <= retryCountRef s ->
      let r' := onSubscribeStatus c CHANNEL_ERROR (state_of r) in
      subscriptionStatus (state_of r') = error /\ scheduledRetries (trace r') = []).
Proof.
  open_state s. unfold activeConversation, refChannel, MAX_RETRIES.
  cbn [currentConversationId realtimeChannelRef pendingMessage retryCountRef].
  intros H. destruct cid as [c'|]; [|discriminate].
  destruct (truthy c') eqn:Ht; [|discriminate]. injection H as ->.
  unfold handleForceReconnect, activeConversation, setupRealtimeSubscription,
    onSubscribeStatus, MAX_RETRIES.
  cbn. rewrite Ht.
  destruct ch as [c0|], pm as [p|]; cbn; rewrite ?jseqb_refl;
    (do 4 (split; [reflexivity|]); intros Hge;
     destruct (Z.ltb_spec n 3); [lia | split; reflexivity]).
Qed.

Lemma manual_reconnect_keeps_counter_witness :
  let c := js "c1" in
  let spent := state_of (consecutiveFailures 7 c (mountedWith c)) in
  retryCountRef (state_of (handleForceReconnect spent)) = 3
  /\ scheduledRetries
       (trace (onSubscribeStatus c CHANNEL_ERROR (state_of (handleForceReconnect spent)))) = [].
Proof.
  intros c spent.
  assert (H : activeConversation spent = Some c) by reflexivity.
  destruct (manual_reconnect_keeps_counter spent H) as (_ & _ & Hn & _ & Hex).
  split.
  - rewrite Hn. reflexivity.
  - apply Hex. vm_compute. discriminate.
Defined.

(** X5. The retry that the reconnect action schedules carries the pending
    send as it was when the action ran. If that send has been retried and
    the slot emptied before the timer fires, the timer starts a second send
    of the same composition. *)
Theorem delayed_retry_resends_captured (s : State) (p : SendVars) :
  pendingMessage s = Some p ->
  onLine s = true ->
  let reconnect := handleForceReconnect s in
  let retried := handleRetryMessage (state_of reconnect) in
  let fired := fireScheduled (trace reconnect) (state_of retried) in
  sendAttempts (trace retried) = [p]
  /\ pendingMessage (state_of retried) = None
  /\ sendAttempts (trace fired) = [p].
Proof.
  open_state s. cbn [pendingMessage onLine]. intros -> ->. destruct p as [text file].
  unfold handleForceReconnect, handleRetryMessage, handleRetryMessageWith,
    handleSendMessage, activeConversation, setupRealtimeSubscription.
  cbn. destruct cid as [c'|]; [destruct (truthy c')|]; destruct ch as [c0|]; cbn;
    repeat split; reflexivity.
Qed.

Lemma delayed_retry_resends_captured_witness :
  let p := {| message := js "Hello"; imageFile := None |} in
  let s := state_of (handleSendMessage (js "Hello") None
                       (state_of (setOnLine false (conversationSelected (js "c1"))))) in
  let s := state_of (setOnLine true s) in
  sendAttempts
    (trace (fireScheduled (trace (handleForceReconnect s))
              (state_of (handleRetryMessage (state_of (handleForceReconnect s))))))
  = [p].
Proof.
  intros p s0 s.
  assert (Hp : pendingMessage s = Some p) by reflexivity.
  assert (Ho : onLine s = true) by reflexivity.
  destruct (delayed_retry_resends_captured s Hp Ho) as (_ & _ & H). exact H.
Defined.

(** ** Placeholders and their removal *)

Lemma survivesRemoval_id (t : jsstring) (x y : Message) :
  Message.id x = Message.id y -> survivesRemoval t x = survivesRemoval t y.
Proof. unfold survivesRemoval. now intros ->. Qed.

Lemma filter_all {A} (f : A -> bool) (l : list A) :
  Forall (fun x => f x = true) l -> filter f l = l.
Proof. induction 1 as [|x l Hx _ IH]; simpl; [reflexivity|]. now rewrite Hx, IH. Qed.

Lemma removePlaceholders_run (t : jsstring) (s : State) :
  removePlaceholders t s
  = (Returned tt,
     state_of (setMessages (filter (survivesRemoval t) (messages s)) s),
     []).
Proof. open_state s. reflexivity. Qed.

Lemma optimistic_id_removed (t x : jsstring) (m : Message) :
  Message.id m = js "optimistic-user-" ++ x -> survivesRemoval t m = false.
Proof.
  unfold survivesRemoval. intros ->. apply andb_false_iff. right. reflexivity.
Qed.

Lemma temp_id_no_prefix (env : SendEnv) :
  JS.startsWith (tempMessageId env) (js "optimistic-") = false.
Proof. reflexivity. Qed.

Lemma existsb_filter_survives (t : jsstring) (m : Message) (l : list Message) :
  survivesRemoval t m = true ->
  existsb (fun msg => JS.eqb (Message.id msg) (Message.id m)) (filter (survivesRemoval t) l)
  = existsb (fun msg => JS.eqb (Message.id msg) (Message.id m)) l.
Proof.
  intros He. induction l as [|x l IH]; simpl; [reflexivity|].
  destruct (JS.eqb (Message.id x) (Message.id m)) eqn:Ex.
  - apply jseqb_eq in Ex. rewrite (survivesRemoval_id t x m Ex), He.
    simpl. apply jseqb_eq in Ex. now rewrite Ex.
  - destruct (survivesRemoval t x); simpl; now rewrite ?Ex, IH.
Qed.

Lemma replaceById_filter (t : jsstring) (u : Message) (l : list Message) :
  survivesRemoval t u = true ->
  filter (survivesRemoval t) (replaceById u l)
  = replaceById u (filter (survivesRemoval t) l).
Proof.
  intros He. unfold replaceById. induction l as [|x l IH]; simpl; [reflexivity|].
  destruct (JS.eqb (Message.id x) (Message.id u)) eqn:Ex.
  - apply jseqb_eq in Ex. rewrite (survivesRemoval_id t x u Ex), He.
    simpl. apply jseqb_eq in Ex. now rewrite Ex, IH.
  - destruct (survivesRemoval t x); simpl; now rewrite ?Ex, IH.
Qed.

(** The store after an event, filtered, is the filtered store after the
    event, when the event's message is not a placeholder. *)
Lemma onRealtimeEvent_filter (t : jsstring) (e : RealtimeEvent) (s1 s2 : State) :
  survivesRemoval t (eventMessage e) = true ->
  filter (survivesRemoval t) (messages s1) = messages s2 ->
  outcome (onRealtimeEvent e s1) = Returned tt
  /\ outcome (onRealtimeEvent e s2) = Returned tt
  /\ filter (survivesRemoval t) (messages (state_of (onRealtimeEvent e s1)))
     = messages (state_of (onRealtimeEvent e s2)).
Proof.
  intros He H. destruct e as [m|u]; cbn [onRealtimeEvent eventMessage] in *.
  - destruct (onInsert_run m s1) as (Ho1 & _ & _ & _ & Hm1 & _).
    destruct (onInsert_run m s2) as (Ho2 & _ & _ & _ & Hm2 & _).
    cbn zeta in *. split; [exact Ho1|]. split; [exact Ho2|].
    rewrite Hm1, Hm2, <- H, (existsb_filter_survives t m (messages s1) He).
    destruct (existsb _ (messages s1)); [reflexivity|].
    rewrite filter_app. simpl. now rewrite He.
  - destruct (onUpdate_run u s1) as (Ho1 & Hm1 & _).
    destruct (onUpdate_run u s2) as (Ho2 & Hm2 & _).
    cbn zeta in *. split; [exact Ho1|]. split; [exact Ho2|].
    rewrite Hm1, Hm2, <- H. now apply replaceById_filter.
Qed.

Lemma deliver_filter (t : jsstring) (events : list RealtimeEvent) :
  Forall (fun e => survivesRemoval t (eventMessage e) = true) events ->
  forall s1 s2 : State,
    filter (survivesRemoval t) (messages s1) = messages s2 ->
    filter (survivesRemoval t) (messages (state_of (deliver events s1)))
    = messages (state_of (deliver events s2)).
Proof.
  induction 1 as [|e events He _ IH]; intros s1 s2 H; [exact H|].
  destruct (@onRealtimeEvent_filter t e s1 s2 He H) as (Ho1 & Ho2 & Hstep).
  change (deliver (e :: events))
    with (bind (onRealtimeEvent e) (fun _ => deliver events)).
  erewrite !bind_run.
  2: rewrite (run_eta (onRealtimeEvent e s2)), Ho2; reflexivity.
  2: rewrite (run_eta (onRealtimeEvent e s1)), Ho1; reflexivity.
  rewrite !state_of_mk. now apply IH.
Qed.

(** The timers of a successful send are the removal of its placeholders. *)
Lemma successful_send_timers (env : SendEnv) (vars : SendVars) (s s' : State)
      (data : ResponderData) :
  uploadSucceeds env vars = true ->
  invokeResult env = InvokeOk data ->
  messages (state_of (fireScheduled (trace (sendMessageMutation env vars s)) s'))
  = filter (survivesRemoval (tempMessageId env)) (messages s').
Proof.
  open_state s.
  destruct vars as [text file], env as [n1 n2 n3 i1 i2 ue url ir], data as [resp dc].
  unfold uploadSucceeds. cbn [imageFile uploadError invokeResult].
  intros Hu ->.
  unfold sendMessageMutation, sendOnSuccess.
  destruct file as [f|], ue as [e'|]; try discriminate;
    cbn -[js ofN lastSegment option_eqb truthy removePlaceholders];
    (destruct dc as [c|];
     [destruct (truthy c && negb (option_eqb (Some c) cid))|]);
    cbn -[js ofN lastSegment option_eqb truthy removePlaceholders];
    destruct s'; reflexivity.
Qed.

(** X6. A send that went through, followed by the realtime events that
    carry the stored rows (or any events whose ids are not placeholder ids)
    and then by the removal timer, leaves the store exactly as those events
    alone would have left the store the send started from: nothing of the
    two placeholders stays, and nothing else is lost. *)
Theorem placeholders_handed_over (env : SendEnv) (vars : SendVars) (s : State)
        (data : ResponderData) (events : list RealtimeEvent) :
  uploadSucceeds env vars = true ->
  invokeResult env = InvokeOk data ->
  Forall (fun m => survivesRemoval (tempMessageId env) m = true) (messages s) ->
  Forall (fun e => survivesRemoval (tempMessageId env) (eventMessage e) = true) events ->
  let sent := sendMessageMutation env vars s in
  let received := deliver events (state_of sent) in
  let cleaned := fireScheduled (trace sent) (state_of received) in
  messages (state_of cleaned) = messages (state_of (deliver events s))
  /\ pendingMessage (state_of sent) = None.
Proof.
  intros Hu Hi Hs He. cbn zeta. split.
  - rewrite (@successful_send_timers env vars s _ data Hu Hi).
    apply deliver_filter; [exact He|].
    destruct (sendMessageMutation_run env vars s) as (Hm & _).
    destruct (@mutationFn_succeeds env vars s data Hu Hi) as (_ & Hm' & _).
    cbn zeta in *. rewrite Hm, Hm', filter_app, (filter_all _ Hs).
    cbn [filter].
    rewrite (@optimistic_id_removed (tempMessageId env) (ofN (now_optimistic env))
               (optimisticUserMsg env vars (uploadedUrl env vars)) eq_refl).
    unfold survivesRemoval at 1. cbn [tempMessage Message.id].
    rewrite jseqb_refl. cbn. apply app_nil_r.
  - destruct (sendMessageMutation_run env vars s) as (_ & Hp & _).
    destruct (@mutationFn_succeeds env vars s data Hu Hi) as (_ & _ & Hp' & _).
    cbn zeta in *. now rewrite Hp.
Qed.

Lemma placeholders_handed_over_witness :
  let m1 := sampleMessage "m1" user "Hi" in
  let m2 := sampleMessage "m2" user "Hello" in
  let m3 := sampleMessage "m3" assistant "Hello!" in
  let s := state_of (dispatch (messagesQuerySettled [m1]) (conversationSelected (js "c1"))) in
  let vars := {| message := js "Hello"; imageFile := None |} in
  let data := {| data_response := js "Hello!"; data_conversationId := Some (js "c1") |} in
  let env := sampleEnv (InvokeOk data) in
  let sent := sendMessageMutation env vars s in
  messages (state_of (fireScheduled (trace sent)
                        (state_of (deliver [INSERT m2; INSERT m3] (state_of sent)))))
  = [m1; m2; m3].
Proof.
  intros m1 m2 m3 s vars data env sent.
  assert (Hu : uploadSucceeds env vars = true) by reflexivity.
  assert (Hs : Forall (fun m => survivesRemoval (tempMessageId env) m = true)
                 (messages s))
    by (repeat constructor).
  assert (He : Forall (fun e => survivesRemoval (tempMessageId env) (eventMessage e)
                                = true)
                 [INSERT m2; INSERT m3])
    by (repeat constructor).
  destruct (@placeholders_handed_over env vars s data [INSERT m2; INSERT m3]
              Hu eq_refl Hs He) as [H _].
  exact H.
Defined.

(** X7. The empty assistant placeholder of a failed send outlives the
    cleanup of a later send that goes through: that cleanup removes the
    user-row placeholders of both sends and its own assistant placeholder,
    and leaves the failed send's assistant placeholder, whose id differs, in
    the store. *)
Theorem orphaned_typing_placeholder_stays (env1 env2 : SendEnv) (vars1 vars2 : SendVars)
        (s : State) (e : JsError) (data : ResponderData) :
  uploadSucceeds env1 vars1 = true ->
  invokeResult env1 = InvokeError e ->
  uploadSucceeds env2 vars2 = true ->
  invokeResult env2 = InvokeOk data ->
  tempMessageId env1 <> tempMessageId env2 ->
  let failed := sendMessageMutation env1 vars1 s in
  let sent := sendMessageMutation env2 vars2 (state_of failed) in
  let cleaned := fireScheduled (trace sent) (state_of sent) in
  messages (state_of cleaned)
  = filter (survivesRemoval (tempMessageId env2)) (messages s) ++ [tempMessage env1].
Proof.
  intros Hu1 Hi1 Hu2 Hi2 Hne. cbn zeta.
  rewrite (@successful_send_timers env2 vars2 _ _ data Hu2 Hi2).
  destruct (sendMessageMutation_run env2 vars2 (state_of (sendMessageMutation env1 vars1 s)))
    as (Hm2 & _).
  destruct (@mutationFn_succeeds env2 vars2 (state_of (sendMessageMutation env1 vars1 s))
              data Hu2 Hi2) as (_ & Hm2' & _).
  destruct (sendMessageMutation_run env1 vars1 s) as (Hm1 & _).
  destruct (@mutationFn_invoke_fails env1 vars1 s e Hu1 Hi1) as (_ & Hm1' & _).
  cbn zeta in *. rewrite Hm2, Hm2', Hm1, Hm1', !filter_app. cbn [filter].
  rewrite (@optimistic_id_removed (tempMessageId env2) (ofN (now_optimistic env1))
             (optimisticUserMsg env1 vars1 (uploadedUrl env1 vars1)) eq_refl).
  rewrite (@optimistic_id_removed (tempMessageId env2) (ofN (now_optimistic env2))
             (optimisticUserMsg env2 vars2 (uploadedUrl env2 vars2)) eq_refl).
  unfold survivesRemoval. cbn [tempMessage Message.id].
  rewrite jseqb_refl. apply jseqb_neq in Hne. rewrite Hne.
  rewrite temp_id_no_prefix. cbn. now rewrite app_nil_r.
Qed.

Lemma orphaned_typing_placeholder_stays_witness :
  let m1 := sampleMessage "m1" user "Hi" in
  let s := state_of (dispatch (messagesQuerySettled [m1]) (conversationSelected (js "c1"))) in
  let vars := {| message := js "Hello"; imageFile := None |} in
  let data := {| data_response := js "Hello!"; data_conversationId := Some (js "c1") |} in
  let env1 := sampleEnv (InvokeError sampleError) in
  let env2 := {| now_fileName := 1750470309000; now_optimistic := 1750470309000;
                 now_temp := 1750470309001;
                 iso_optimistic := js "2025-06-21T01:45:09.000Z";
                 iso_temp := js "2025-06-21T01:45:09.001Z";
                 uploadError := None;
                 getPublicUrl := fun fileName => fileName;
                 invokeResult := InvokeOk data |} in
  let sent := sendMessageMutation env2 vars (state_of (sendMessageMutation env1 vars s)) in
  messages (state_of (fireScheduled (trace sent) (state_of sent)))
  = [m1; tempMessage env1].
Proof.
  intros m1 s vars data env1 env2 sent.
  assert (Hu1 : uploadSucceeds env1 vars = true) by reflexivity.
  assert (Hu2 : uploadSucceeds env2 vars = true) by reflexivity.
  assert (Hne : tempMessageId env1 <> tempMessageId env2) by (vm_compute; discriminate).
  exact (@orphaned_typing_placeholder_stays env1 env2 vars vars s sampleError data
           Hu1 eq_refl Hu2 eq_refl Hne).
Defined.

(** ** Failed and successful sends *)

(** X8. When the upload of the attached file reports an error the send
    stops there: the responder is not invoked, the store is as it was, the
    composition stays pending, and the failure is announced with the fixed
    text 'Failed to upload image', whatever the upload error said. *)
Theorem upload_failure_aborts_send (env : SendEnv) (text : jsstring) (f : File) (s : State) :
  uploadError env <> None ->
  let vars := {| message := text; imageFile := Some f |} in
  let r := sendMessageMutation env vars s in
  messages (state_of r) = messages s
  /\ currentConversationId (state_of r) = currentConversationId s
  /\ pendingMessage (state_of r) = Some vars
  /\ filter isInvoke (trace r) = []
  /\ trace r
     = [SetPendingMessage (Some vars);
        StorageUpload (ofN (now_fileName env) ++ js "." ++ lastSegment [] (name f)) f;
        Toast (js "Message failed to send") (js "We'll retry when connection is restored") true]
       ++ (if onLine s
           then [Toast (js "Error") (js "Failed to upload image") true]
           else []).
Proof.
  open_state s. destruct env as [n1 n2 n3 i1 i2 ue url ir].
  cbn [uploadError]. intros Hue. destruct ue as [e|]; [|contradiction].
  unfold sendMessageMutation, sendOnError.
  cbn -[js ofN lastSegment]. destruct ol; cbn -[js ofN lastSegment];
    repeat split; reflexivity.
Qed.

Lemma upload_failure_aborts_send_witness :
  let env := {| now_fileName := 1750470307000; now_optimistic := 1750470307120;
                now_temp := 1750470307121;
                iso_optimistic := js "2025-06-21T01:45:07.120Z";
                iso_temp := js "2025-06-21T01:45:07.121Z";
                uploadError := Some sampleError;
                getPublicUrl := fun fileName => fileName;
                invokeResult := InvokeError sampleError |} in
  let s := conversationSelected (js "c1") in
  filter isInvoke
    (trace (sendMessageMutation env {| message := js "Look"; imageFile := Some sampleFile |} s))
  = [].
Proof.
  intros env s.
  assert (H : uploadError env <> None) by discriminate.
  destruct (@upload_failure_aborts_send env (js "Look") sampleFile s H) as (_ & _ & _ & Hi & _).
  exact Hi.
Defined.

(** [mutationFn] is its two parts, one after the other. *)
Lemma mutationFn_split (env : SendEnv) (vars : SendVars) (s : State) :
  mutationFn env vars s
  = (imageUrl <- mutationUntilDelay env vars ;;
     mutationAfterDelay env vars (currentConversationId s) imageUrl) s.
Proof.
  open_state s.
  destruct vars as [text file], env as [n1 n2 n3 i1 i2 ue url ir].
  unfold mutationFn, mutationUntilDelay, mutationAfterDelay, sendCatch.
  destruct file as [f|], ue as [e|], ir as [d|e'];
    cbn -[js ofN lastSegment]; rewrite <- ?app_assoc; reflexivity.
Qed.

Lemma mutationUntilDelay_run (env : SendEnv) (vars : SendVars) (s : State) :
  uploadSucceeds env vars = true ->
  let r := (mutationUntilDelay env vars ;; ret tt) s in
  outcome r = Returned tt
  /\ messages (state_of r) = messages s ++ [optimisticUserMsg env vars (uploadedUrl env vars)]
  /\ messagesRef (state_of r) = S (messagesRef s)
  /\ messagesData (state_of r) = messagesData s
  /\ messagesDataRef (state_of r) = messagesDataRef s
  /\ messagesLoading (state_of r) = messagesLoading s
  /\ currentConversationId (state_of r) = currentConversationId s
  /\ recoveryInvocations (trace r) = []
  /\ toastTitles (trace r) = [].
Proof.
  open_state s.
  destruct vars as [text file], env as [n1 n2 n3 i1 i2 ue url ir].
  unfold uploadSucceeds. cbn [imageFile uploadError]. intros Hu.
  unfold mutationUntilDelay, sendCatch, uploadedUrl.
  destruct file as [f|], ue as [e|]; try discriminate;
    cbn -[js ofN lastSegment]; repeat split; reflexivity.
Qed.

Lemma toastTitles_app (t1 t2 : list Action) :
  toastTitles (t1 ++ t2) = toastTitles t1 ++ toastTitles t2.
Proof. unfold toastTitles. apply flat_map_app. Qed.

(** The render during the delay of a send on a loaded conversation: the
    recovery effect finds the optimistic user row last. *)
Lemma send_triggers_recovery (env : SendEnv) (vars : SendVars) (s : State)
      (d : list Message) :
  uploadSucceeds env vars = true ->
  messagesData s = Some d ->
  messagesLoading s = false ->
  let during := dispatch (mutationUntilDelay env vars ;; ret tt) s in
  recoveryInvocations (trace during)
  = [{| body_message := message vars;
        body_conversationId := currentConversationId s;
        body_imageUrl := uploadedUrl env vars;
        body_isRetry := true |}]
  /\ toastTitles (trace during) = [js "Retrieving AI response"].
Proof.
  intros Hu Hd Hl. cbn zeta.
  destruct (@mutationUntilDelay_run env vars s Hu)
    as (Ho & Hm & Hr & Hmd & Hmdr & Hml & Hcid & Hri & Htt).
  cbn zeta in *.
  set (h := mutationUntilDelay env vars ;; ret tt) in *.
  set (s1 := state_of (h s)) in *.
  assert (Hrun : h s = (Returned tt, s1, trace (h s))).
  { rewrite (run_eta (h s)), Ho. reflexivity. }
  unfold dispatch. rewrite bind_gets.
  erewrite bind_run by exact Hrun.
  unfold runEffects. rewrite bind_gets.
  assert (Hpass : effectsPass s s1 = (Returned tt, s1, recoveryTrace s1)).
  { rewrite effectsPass_run. unfold syncDepsChanged, recoveryDepsChanged, syncDepsChanged.
    rewrite Hmdr, Hcid, Hml, Hr, Nat.eqb_refl, option_eqb_refl, Bool.eqb_reflx.
    replace (messagesRef s =? S (messagesRef s))%nat with false
      by (symmetry; apply Nat.eqb_neq; lia).
    reflexivity. }
  erewrite bind_run by exact Hpass.
  rewrite effectsPass_same, !trace_mk, app_nil_r.
  rewrite recoveryInvocations_app, toastTitles_app, Hri, Htt. cbn [app].
  split.
  - rewrite recoveryTrace_invocations, Hmd, Hd, Hml, Hl, Hm, Hcid.
    unfold lastUserRecovery. now rewrite nth_error_last.
  - unfold recoveryTrace. rewrite recoveryEffect_pure.
    unfold recoveryTrace, recoveryEffect. rewrite Hmd, Hd, Hml, Hl, Hm.
    rewrite length_app. cbn [List.length negb andb].
    replace (0 <? List.length (messages s) + 1)%nat with true
      by (symmetry; apply Nat.ltb_lt; lia).
    replace (List.length (messages s) + 1 - 1)%nat with (List.length (messages s)) by lia.
    rewrite nth_error_app2 by lia. rewrite Nat.sub_diag. reflexivity.
Qed.

(** X9. In a send that goes through, the mutation's own invocation of the
    responder carries the text, the conversation id of the moment, the URL
    of the uploaded file and [isRetry] false; afterwards the active
    conversation is the one the responder returned, when it returned a
    non-empty id, and the one it was otherwise; the list of conversations is
    invalidated once, and the mutation raises no toast of its own. It is not
    the only invocation: when the messages of the conversation are loaded,
    the render during the 300 ms delay runs the recovery effect, which finds
    the optimistic user row last, raises 'Retrieving AI response' and
    invokes the responder for that row with [isRetry] true, before the
    mutation's own call. *)
Theorem successful_send_adopts_conversation (env : SendEnv) (vars : SendVars) (s : State)
        (data : ResponderData) :
  uploadSucceeds env vars = true ->
  invokeResult env = InvokeOk data ->
  let r := sendMessageMutation env vars s in
  currentConversationId (state_of r)
  = match data_conversationId data with
    | Some c => if truthy c then Some c else currentConversationId s
    | None => currentConversationId s
    end
  /\ filter isInvoke (trace r)
     = [InvokeChatWithAi {| body_message := message vars;
                            body_conversationId := currentConversationId s;
                            body_imageUrl := uploadedUrl env vars;
                            body_isRetry := false |}]
  /\ filter isInvalidate (trace r) = [InvalidateQueries (js "conversations")]
  /\ toastTitles (trace r) = []
  /\ (forall d : list Message,
        messagesData s = Some d ->
        messagesLoading s = false ->
        let during := dispatch (mutationUntilDelay env vars ;; ret tt) s in
        recoveryInvocations (trace during)
        = [{| body_message := message vars;
              body_conversationId := currentConversationId s;
              body_imageUrl := uploadedUrl env vars;
              body_isRetry := true |}]
        /\ toastTitles (trace during) = [js "Retrieving AI response"]).
Proof.
  intros Hu Hi. cbn zeta.
  assert (Hown :
    currentConversationId (state_of (sendMessageMutation env vars s))
    = match data_conversationId data with
      | Some c => if truthy c then Some c else currentConversationId s
      | None => currentConversationId s
      end
    /\ filter isInvoke (trace (sendMessageMutation env vars s))
       = [InvokeChatWithAi {| body_message := message vars;
                              body_conversationId := currentConversationId s;
                              body_imageUrl := uploadedUrl env vars;
                              body_isRetry := false |}]
    /\ filter isInvalidate (trace (sendMessageMutation env vars s))
       = [InvalidateQueries (js "conversations")]
    /\ toastTitles (trace (sendMessageMutation env vars s)) = []).
  { revert Hu Hi. open_state s.
    destruct vars as [text file], env as [n1 n2 n3 i1 i2 ue url ir], data as [resp dc].
    unfold uploadSucceeds, uploadedUrl. cbn [imageFile uploadError invokeResult message
      currentConversationId data_conversationId now_fileName getPublicUrl].
    intros Hu ->.
    unfold sendMessageMutation, sendOnSuccess.
    destruct file as [f|], ue as [e'|]; try discriminate;
      cbn -[js ofN lastSegment option_eqb truthy];
      (destruct dc as [c|];
       [destruct (truthy c); cbn -[js ofN lastSegment option_eqb truthy];
        [destruct (option_eqb (Some c) cid) eqn:E;
         [destruct cid as [c0|]; [|discriminate]; cbn in E; apply jseqb_eq in E; subst c0|]|]
       |]);
      cbn -[js ofN lastSegment]; repeat split; reflexivity. }
  destruct Hown as (H1 & H2 & H3 & H4).
  split; [exact H1|]. split; [exact H2|]. split; [exact H3|]. split; [exact H4|].
  intros d Hd Hl. exact (@send_triggers_recovery env vars s d Hu Hd Hl).
Qed.

Lemma successful_send_adopts_conversation_witness :
  let vars := {| message := js "Hello"; imageFile := None |} in
  let data := {| data_response := js "Hello!"; data_conversationId := Some (js "c9") |} in
  let loaded :=
    state_of (dispatch (messagesQuerySettled [sampleMessage "m1" user "Hi";
                                              sampleMessage "m2" assistant "Hi!"])
                (conversationSelected (js "c1"))) in
  currentConversationId
    (state_of (sendMessageMutation (sampleEnv (InvokeOk data)) vars initialState))
  = Some (js "c9")
  /\ recoveryInvocations
       (trace (dispatch (mutationUntilDelay (sampleEnv (InvokeOk data)) vars ;; ret tt) loaded))
     = [{| body_message := js "Hello"; body_conversationId := Some (js "c1");
           body_imageUrl := None; body_isRetry := true |}].
Proof.
  intros vars data loaded.
  assert (Hu : uploadSucceeds (sampleEnv (InvokeOk data)) vars = true) by reflexivity.
  split.
  - destruct (@successful_send_adopts_conversation (sampleEnv (InvokeOk data)) vars
                initialState data Hu eq_refl) as (H & _).
    exact H.
  - destruct (@successful_send_adopts_conversation (sampleEnv (InvokeOk data)) vars
                loaded data Hu eq_refl) as (_ & _ & _ & _ & H).
    assert (Hd : messagesData loaded
                 = Some [sampleMessage "m1" user "Hi"; sampleMessage "m2" assistant "Hi!"])
      by reflexivity.
    assert (Hl : messagesLoading loaded = false) by reflexivity.
    destruct (H _ Hd Hl) as [Hr _]. exact Hr.
Defined.

(** X10. A send that fails, at the upload or at the invocation, always
    raises the toast 'Message failed to send'; the toast 'Error' follows it
    exactly when the browser reports itself online. The active conversation
    stays, and the list of conversations is not invalidated. *)
Theorem failed_send_toasts (env : SendEnv) (vars : SendVars) (s : State) (e : JsError) :
  outcome (mutationFn env vars s) = Thrown e ->
  let r := sendMessageMutation env vars s in
  toastTitles (trace r)
  = js "Message failed to send" :: (if onLine s then [js "Error"] else [])
  /\ (onLine s = true ->
      In (Toast (js "Error")
                (errorDescription e (js "Failed to send message. Please try again.")) true)
         (trace r))
  /\ currentConversationId (state_of r) = currentConversationId s
  /\ filter isInvalidate (trace r) = [].
Proof.
  open_state s.
  destruct vars as [text file], env as [n1 n2 n3 i1 i2 ue url ir].
  unfold sendMessageMutation, sendOnError.
  destruct file as [f|], ue as [e'|], ir as [d|e''];
    cbn -[js ofN lastSegment errorDescription]; intros H; try discriminate;
    injection H as <-; destruct ol; cbn -[js ofN lastSegment errorDescription];
    (repeat split; try reflexivity; try discriminate; intros _; intuition).
Qed.

Lemma failed_send_toasts_witness :
  let vars := {| message := js "Hello"; imageFile := None |} in
  let s := conversationSelected (js "c1") in
  toastTitles (trace (sendMessageMutation (sampleEnv (InvokeError sampleError)) vars s))
  = [js "Message failed to send"; js "Error"].
Proof.
  intros vars s.
  assert (H : outcome (mutationFn (sampleEnv (InvokeError sampleError)) vars s)
              = Thrown sampleError) by reflexivity.
  destruct (@failed_send_toasts (sampleEnv (InvokeError sampleError)) vars s sampleError H)
    as (Ht & _).
  exact Ht.
Defined.

(** ** Deleting with no conversation selected *)

(** X11. With no conversation selected the delete mutation issues no
    delete, whatever the database would have answered; it still completes
    as a success: the success toast is shown, the store is emptied, the
    stored id is removed and the list of conversations is invalidated. *)
Theorem delete_without_conversation (s : State) (deleteError : option JsError) :
  activeConversation s = None ->
  let r := deleteConversationMutation deleteError s in
  filter isDeleteRow (trace r) = []
  /\ toastTitles (trace r) = [js "Success"]
  /\ filter isInvalidate (trace r) = [InvalidateQueries (js "conversations")]
  /\ messages (state_of r) = []
  /\ currentConversationId (state_of r) = None
  /\ isDeletingConversation (state_of r) = false.
Proof.
  open_state s. unfold activeConversation. cbn [currentConversationId]. intros H.
  unfold deleteConversationMutation, deleteMutationFn, activeConversation.
  cbn -[js]. destruct cid as [c|]; [destruct (truthy c); [discriminate|]|];
    cbn -[js]; repeat split; reflexivity.
Qed.

Lemma delete_without_conversation_witness :
  toastTitles (trace (deleteConversationMutation (Some sampleError) initialState))
  = [js "Success"].
Proof.
  assert (H : activeConversation initialState = None) by reflexivity.
  destruct (@delete_without_conversation initialState (Some sampleError) H) as (_ & Ht & _).
  exact Ht.
Defined.

(** * The edge functions *)

Lemma conversationExists_update (now : Z) (c c' : jsstring) (l : list Server.ConversationRow) :
  existsb (fun x => JS.eqb (Server.id x) c') (Server.update_conversation_updated_at now c l)
  = existsb (fun x => JS.eqb (Server.id x) c') l.
Proof.
  unfold Server.update_conversation_updated_at.
  induction l as [|x l IH]; simpl; [reflexivity|].
  rewrite IH. now destruct (JS.eqb (Server.id x) c).
Qed.

Lemma update_conversation_twice (n1 n2 : Z) (c : jsstring) (l : list Server.ConversationRow) :
  Server.update_conversation_updated_at n2 c (Server.update_conversation_updated_at n1 c l)
  = Server.update_conversation_updated_at n2 c l.
Proof.
  unfold Server.update_conversation_updated_at.
  induction l as [|x l IH]; simpl; [reflexivity|].
  rewrite IH. destruct (JS.eqb (Server.id x) c) eqn:E; simpl; now rewrite E.
Qed.

Lemma update_conversation_absent (now : Z) (c : jsstring) (l : list Server.ConversationRow) :
  existsb (fun x => JS.eqb (Server.id x) c) l = false ->
  Server.update_conversation_updated_at now c l = l.
Proof.
  unfold Server.update_conversation_updated_at.
  induction l as [|x l IH]; simpl; [reflexivity|].
  intros H. apply orb_false_iff in H as [Hx Hl]. now rewrite Hx, IH.
Qed.

Lemma conversationTitle_length (message : jsstring) :
  (List.length (Server.conversationTitle message) <= 53)%nat.
Proof.
  unfold Server.conversationTitle.
  destruct (Nat.ltb_spec 50 (List.length message)).
  - rewrite length_app, length_firstn. change (List.length (js "...")) with 3%nat. lia.
  - lia.
Qed.

(** The two inserts of [saveMessages] for a conversation that exists. *)
Lemma saveMessages_run (env : Server.ChatEnv) (req : InvokeBody) (ai c : jsstring)
      (db : Server.Db) :
  Server.conversationExists c db = true ->
  Server.saveMessages env req ai c db
  = ({| Server.status := 200; Server.body := Server.ChatReply ai (Some c) |},
     {| Server.conversations :=
          if Server.userMessageError env && Server.aiMessageError env
          then Server.conversations db
          else Server.update_conversation_updated_at
                 (if Server.aiMessageError env then Server.now_userMessage env
                  else Server.now_aiMessage env)
                 c (Server.conversations db);
        Server.messages :=
          Server.messages db
          ++ (if Server.userMessageError env then []
              else [{| Responder.conversation_id := c; Responder.role := user;
                       Responder.content := body_message req;
                       Responder.image_url := body_imageUrl req;
                       Responder.created_at := Server.now_userMessage env |}])
          ++ (if Server.aiMessageError env then []
              else [{| Responder.conversation_id := c; Responder.role := assistant;
                       Responder.content := ai;
                       Responder.image_url := None;
                       Responder.created_at := Server.now_aiMessage env |}]) |}).
Proof.
  intros Hc. destruct db as [convs msgs]. unfold Server.conversationExists in Hc.
  cbn [Server.conversations] in Hc.
  unfold Server.saveMessages, Server.insertMessage, Server.conversationExists.
  destruct (Server.userMessageError env), (Server.aiMessageError env);
    cbn [orb andb negb fst Server.conversations Server.messages];
    rewrite ?Hc; cbn [orb andb negb fst Server.conversations Server.messages];
    rewrite ?conversationExists_update, ?Hc;
    cbn [orb andb negb fst Server.conversations Server.messages];
    rewrite ?update_conversation_twice, ?app_nil_r, <- ?app_assoc;
    reflexivity.
Qed.

(** X12. A preflight request is answered with 200 and no body. Any other
    request to [chat-with-ai] is answered with 200 and a reply, or with 500
    and an error text. It is answered with 500, and the tables are left
    exactly as they were, in these cases: no API key is configured; the body
    cannot be read; the completions request throws, is answered outside
    200..299, or is answered inside 200..299 with a body whose first choice
    cannot be read; or the request names no conversation and the insert of
    the new one fails. For a body that can be read and carries a string
    [message] there are no other cases. *)
Theorem chat_failure_persists_nothing (env : Server.ChatEnv) (req : Server.ChatRequest)
        (db : Server.Db) :
  let r := Server.serveChat env req db in
  let refused :=
    negb (Server.present (Server.openAIApiKey env))
    || match Server.json req with
       | inl _ => true
       | inr parsed =>
           match Server.fetchOpenAI env
                   (Responder.openAIMessages (Server.messages db) (body_message parsed)
                      (body_conversationId parsed) (body_imageUrl parsed)) with
           | Server.FetchError _ => true
           | Server.Unreadable _ _ => true
           | Server.HttpResponse st _ => negb ((200 <=? st) && (st <=? 299))%N
           end
           || (negb (Server.present (body_conversationId parsed))
               && match Server.convError env with Some _ => true | None => false end)
       end in
  match Server.method req with
  | Server.OPTIONS =>
      r = ({| Server.status := 200; Server.body := Server.NoBody |}, db)
  | Server.POST =>
      if refused
      then Server.status (fst r) = 500%N /\ snd r = db
           /\ exists text, Server.body (fst r) = Server.ChatError text
      else Server.status (fst r) = 200%N
           /\ exists ai c, Server.body (fst r) = Server.ChatReply ai (Some c)
  end.
Proof.
  cbn zeta. unfold Server.serveChat.
  destruct (Server.method req); [reflexivity|].
  destruct (Server.present (Server.openAIApiKey env)) eqn:Hk; cbn [negb orb];
    [|repeat split; eexists; reflexivity].
  destruct (Server.json req) as [e|parsed]; [repeat split; eexists; reflexivity|].
  unfold Server.chatWithAi. rewrite Hk. cbn [negb].
  destruct (Server.fetchOpenAI env _) as [st ai|st e|e]; cbn [orb];
    [| destruct ((200 <=? st)%N && (st <=? 299)%N); cbn [negb];
       repeat split; eexists; reflexivity
     | repeat split; eexists; reflexivity].
  destruct ((200 <=? st)%N && (st <=? 299)%N); cbn [negb orb];
    [|repeat split; eexists; reflexivity].
  unfold Server.createConversation, Server.saveMessages, Server.present.
  destruct (body_conversationId parsed) as [c|]; [destruct (truthy c)|];
    cbn [negb andb]; try destruct (Server.convError env);
    cbn [fst snd Server.status Server.body];
    repeat split; repeat eexists; reflexivity.
Qed.

(** X13. A request for a conversation that exists, answered by the
    completions endpoint, is answered with 200, the reply and that
    conversation id, whether or not the two inserts go through: the user
    row and then the assistant row are appended, each unless its insert
    failed, and the conversation's [updated_at] moves to the time of the
    last insert that went through. *)
Theorem chat_appends_exchange (env : Server.ChatEnv) (req : InvokeBody) (db : Server.Db)
        (c ai : jsstring) (st : N) :
  Server.present (Server.openAIApiKey env) = true ->
  Server.fetchOpenAI env
    (Responder.openAIMessages (Server.messages db) (body_message req)
       (body_conversationId req) (body_imageUrl req))
  = Server.HttpResponse st ai ->
  (200 <= st <= 299)%N ->
  body_conversationId req = Some c ->
  truthy c = true ->
  Server.conversationExists c db = true ->
  let r := Server.chatWithAi env req db in
  fst r = {| Server.status := 200; Server.body := Server.ChatReply ai (Some c) |}
  /\ Server.messages (snd r)
     = Server.messages db
       ++ (if Server.userMessageError env then []
           else [{| Responder.conversation_id := c; Responder.role := user;
                    Responder.content := body_message req;
                    Responder.image_url := body_imageUrl req;
                    Responder.created_at := Server.now_userMessage env |}])
       ++ (if Server.aiMessageError env then []
           else [{| Responder.conversation_id := c; Responder.role := assistant;
                    Responder.content := ai;
                    Responder.image_url := None;
                    Responder.created_at := Server.now_aiMessage env |}])
  /\ Server.conversations (snd r)
     = if Server.userMessageError env && Server.aiMessageError env
       then Server.conversations db
       else Server.update_conversation_updated_at
              (if Server.aiMessageError env then Server.now_userMessage env
               else Server.now_aiMessage env)
              c (Server.conversations db).
Proof.
  intros Hk Hf [H1 H2] Hc Ht He. cbn zeta. unfold Server.chatWithAi.
  rewrite Hk, Hf, Hc, Ht. cbn [negb].
  apply N.leb_le in H1, H2. rewrite H1, H2. cbn [andb negb].
  rewrite (@saveMessages_run env req ai c db He). repeat split; reflexivity.
Qed.

Lemma chat_appends_exchange_witness :
  let r := Server.chatWithAi sampleChatEnv (sampleRequest (Some (js "c1"))) sampleTables in
  Server.status (fst r) = 200%N
  /\ map Responder.created_at (Server.messages (snd r))
     = map Responder.created_at sampleDb ++ [41; 42]
  /\ map Server.updated_at (Server.conversations (snd r)) = [42; 30].
Proof.
  assert (Hst : (200 <= 200 <= 299)%N) by lia.
  destruct (@chat_appends_exchange sampleChatEnv (sampleRequest (Some (js "c1")))
              sampleTables (js "c1") (js "Hello!") 200%N
              eq_refl eq_refl Hst eq_refl eq_refl eq_refl) as (Hr & Hm & Hc).
  cbn zeta in *. rewrite Hr, Hm, Hc. repeat split; vm_compute; reflexivity.
Defined.

(** X14. A request that names no conversation (none, or the empty string)
    and is answered by the completions endpoint creates one: its title is
    the message, cut to its first 50 code units and '...' when it is longer,
    so never longer than 53; the reply carries the new id, and the two rows
    are stored under it. *)
Theorem chat_creates_conversation (env : Server.ChatEnv) (req : InvokeBody) (db : Server.Db)
        (ai : jsstring) (st : N) :
  Server.present (Server.openAIApiKey env) = true ->
  Server.fetchOpenAI env
    (Responder.openAIMessages (Server.messages db) (body_message req)
       (body_conversationId req) (body_imageUrl req))
  = Server.HttpResponse st ai ->
  (200 <= st <= 299)%N ->
  Server.present (body_conversationId req) = false ->
  Server.convError env = None ->
  Server.userMessageError env = false ->
  Server.aiMessageError env = false ->
  Server.conversationExists (Server.gen_random_uuid env) db = false ->
  let r := Server.chatWithAi env req db in
  let c := Server.gen_random_uuid env in
  let title := Server.conversationTitle (body_message req) in
  fst r = {| Server.status := 200; Server.body := Server.ChatReply ai (Some c) |}
  /\ Server.conversations (snd r)
     = Server.conversations db
       ++ [{| Server.id := c; Server.title := title;
              Server.created_at := Server.now_conversation env;
              Server.updated_at := Server.now_aiMessage env |}]
  /\ Server.messages (snd r)
     = Server.messages db
       ++ [{| Responder.conversation_id := c; Responder.role := user;
              Responder.content := body_message req;
              Responder.image_url := body_imageUrl req;
              Responder.created_at := Server.now_userMessage env |};
           {| Responder.conversation_id := c; Responder.role := assistant;
              Responder.content := ai;
              Responder.image_url := None;
              Responder.created_at := Server.now_aiMessage env |}]
  /\ (List.length title <= 53)%nat
  /\ firstn 50 title = firstn 50 (body_message req)
  /\ ((List.length (body_message req) <= 50)%nat -> title = body_message req).
Proof.
  intros Hk Hf [H1 H2] Hc He Hu Ha Hfresh. cbn zeta.
  assert (Hr : Server.chatWithAi env req db
               = Server.createConversation env req ai db).
  { unfold Server.chatWithAi. rewrite Hk, Hf. cbn [negb].
    apply N.leb_le in H1, H2. rewrite H1, H2. cbn [andb negb].
    unfold Server.present in Hc.
    destruct (body_conversationId req) as [c|]; [now rewrite Hc | reflexivity]. }
  rewrite Hr. unfold Server.createConversation. rewrite He. cbn [Server.id].
  rewrite saveMessages_run.
  2:{ unfold Server.conversationExists. cbn [Server.conversations].
      rewrite existsb_app. cbn. rewrite jseqb_refl. now rewrite orb_true_r. }
  rewrite Hu, Ha. cbn [andb fst snd Server.conversations Server.messages].
  unfold Server.conversationExists in Hfresh.
  split; [reflexivity|]. split.
  { unfold Server.update_conversation_updated_at. rewrite map_app.
    fold (Server.update_conversation_updated_at (Server.now_aiMessage env)
            (Server.gen_random_uuid env) (Server.conversations db)).
    rewrite (update_conversation_absent _ _ _ Hfresh). cbn [map Server.id].
    now rewrite jseqb_refl. }
  split; [reflexivity|]. split; [apply conversationTitle_length|].
  unfold Server.conversationTitle.
  destruct (Nat.ltb_spec 50 (List.length (body_message req))) as [Hlt|Hle].
  - split; [|lia]. rewrite firstn_app, length_firstn.
    replace (50 - Nat.min 50 (List.length (body_message req)))%nat with 0%nat by lia.
    rewrite firstn_firstn, firstn_O, app_nil_r. reflexivity.
  - split; reflexivity.
Qed.

Lemma chat_creates_conversation_witness :
  let r := Server.chatWithAi sampleChatEnv (sampleRequest None) sampleTables in
  Server.body (fst r) = Server.ChatReply (js "Hello!") (Some (js "c3"))
  /\ map Server.id (Server.conversations (snd r)) = [js "c1"; js "c2"; js "c3"]
  /\ map Server.title (Server.conversations (snd r)) = [js "First"; js "Second"; js "Hello"].
Proof.
  assert (Hst : (200 <= 200 <= 299)%N) by lia.
  destruct (@chat_creates_conversation sampleChatEnv (sampleRequest None) sampleTables
              (js "Hello!") 200%N eq_refl eq_refl Hst eq_refl eq_refl eq_refl eq_refl eq_refl)
    as (Hr & Hc & _).
  cbn zeta in *. rewrite Hr, Hc. repeat split; vm_compute; reflexivity.
Defined.

(** X15. A request that names a conversation that does not exist is still
    answered with 200 and the reply, but nothing is stored: both inserts are
    refused by the reference to [conversations(id)], and their errors are
    only logged. *)
Theorem chat_unknown_conversation_stores_nothing (env : Server.ChatEnv) (req : InvokeBody)
        (db : Server.Db) (c ai : jsstring) (st : N) :
  Server.present (Server.openAIApiKey env) = true ->
  Server.fetchOpenAI env
    (Responder.openAIMessages (Server.messages db) (body_message req)
       (body_conversationId req) (body_imageUrl req))
  = Server.HttpResponse st ai ->
  (200 <= st <= 299)%N ->
  body_conversationId req = Some c ->
  truthy c = true ->
  Server.conversationExists c db = false ->
  Server.chatWithAi env req db
  = ({| Server.status := 200; Server.body := Server.ChatReply ai (Some c) |}, db).
Proof.
  intros Hk Hf [H1 H2] Hc Ht He. unfold Server.chatWithAi.
  rewrite Hk, Hf, Hc, Ht. cbn [negb].
  apply N.leb_le in H1, H2. rewrite H1, H2. cbn [andb negb].
  unfold Server.saveMessages, Server.insertMessage.
  rewrite He. cbn [negb fst]. rewrite !orb_true_r. cbn [fst]. rewrite He.
  cbn [negb]. rewrite orb_true_r. reflexivity.
Qed.

Lemma chat_unknown_conversation_stores_nothing_witness :
  Server.chatWithAi sampleChatEnv (sampleRequest (Some (js "c7"))) sampleTables
  = ({| Server.status := 200;
        Server.body := Server.ChatReply (js "Hello!") (Some (js "c7")) |}, sampleTables).
Proof.
  assert (Hst : (200 <= 200 <= 299)%N) by lia.
  exact (@chat_unknown_conversation_stores_nothing sampleChatEnv
           (sampleRequest (Some (js "c7"))) sampleTables (js "c7") (js "Hello!") 200%N
           eq_refl eq_refl Hst eq_refl eq_refl eq_refl).
Defined.

(** X16. The recovery invocation stores the user's message a second time.
    When a conversation is loaded whose last stored message [m] is from the
    user, the controller invokes the responder with the content and image
    of [m] and [isRetry]; the responder does not read [isRetry], and
    appends a new user row with that content and image, then the assistant
    row. *)
Theorem recovery_stores_user_message_again (env : Server.ChatEnv) (db : Server.Db)
        (c : jsstring) (earlier : list Message) (m : Message) (ai : jsstring) (st : N) :
  Message.role m = user ->
  truthy c = true ->
  Server.conversationExists c db = true ->
  Server.present (Server.openAIApiKey env) = true ->
  Server.fetchOpenAI env
    (Responder.openAIMessages (Server.messages db) (Message.content m) (Some c)
       (Message.image_url m))
  = Server.HttpResponse st ai ->
  (200 <= st <= 299)%N ->
  Server.userMessageError env = false ->
  Server.aiMessageError env = false ->
  exists b : InvokeBody,
    recoveryInvocations (trace (loadConversation c (earlier ++ [m]) initialState)) = [b]
    /\ body_isRetry b = true
    /\ Server.messages (snd (Server.chatWithAi env b db))
       = Server.messages db
         ++ [{| Responder.conversation_id := c; Responder.role := user;
                Responder.content := Message.content m;
                Responder.image_url := Message.image_url m;
                Responder.created_at := Server.now_userMessage env |};
             {| Responder.conversation_id := c; Responder.role := assistant;
                Responder.content := ai;
                Responder.image_url := None;
                Responder.created_at := Server.now_aiMessage env |}].
Proof.
  intros Hrole Ht He Hk Hf Hst Hu Ha.
  exists {| body_message := Message.content m; body_conversationId := Some c;
            body_imageUrl := Message.image_url m; body_isRetry := true |}.
  split; [|split; [reflexivity|]].
  - rewrite recovery_on_load. unfold lastUserRecovery.
    rewrite length_app. cbn [List.length].
    replace (List.length earlier + 1 - 1)%nat with (List.length earlier) by lia.
    rewrite nth_error_app2 by lia. rewrite Nat.sub_diag. cbn [nth_error].
    now rewrite Hrole.
  - unfold Server.chatWithAi.
    cbn [body_message body_conversationId body_imageUrl].
    rewrite Hk, Hf, Ht. cbn [negb].
    destruct Hst as [H1 H2]. apply N.leb_le in H1, H2. rewrite H1, H2. cbn [andb negb].
    rewrite saveMessages_run by exact He. rewrite Hu, Ha.
    cbn [snd Server.messages body_message body_imageUrl]. reflexivity.
Qed.

Lemma recovery_stores_user_message_again_witness :
  let m := sampleMessage "m1" user "1" in
  exists b : InvokeBody,
    recoveryInvocations (trace (loadConversation (js "c1") [m] initialState)) = [b]
    /\ List.length
         (filter (fun r => JS.eqb (Responder.content r) (js "1"))
                 (Server.messages (snd (Server.chatWithAi sampleChatEnv b sampleTables))))
       = 2%nat.
Proof.
  intros m.
  assert (Hst : (200 <= 200 <= 299)%N) by lia.
  destruct (@recovery_stores_user_message_again sampleChatEnv sampleTables (js "c1") [] m
              (js "Hello!") 200%N eq_refl eq_refl eq_refl eq_refl eq_refl Hst eq_refl eq_refl)
    as (b & Hb & _ & Hm).
  exists b. split; [exact Hb|]. rewrite Hm. vm_compute. reflexivity.
Defined.

(** ** Listing conversations and messages *)

Lemma insertDesc_perm (r : Server.ConversationRow) (l : list Server.ConversationRow) :
  Permutation (Server.insertDesc r l) (r :: l).
Proof.
  induction l as [|x l IH]; simpl; [reflexivity|].
  destruct (Server.updated_at x <? Server.updated_at r); [reflexivity|].
  rewrite IH. apply perm_swap.
Qed.

Lemma orderDesc_perm (l : list Server.ConversationRow) :
  Permutation (Server.orderDesc l) l.
Proof.
  unfold Server.orderDesc. rewrite (Permutation_rev l) at 2.
  induction (rev l) as [|x l' IH]; simpl; [reflexivity|].
  now rewrite insertDesc_perm, IH.
Qed.

Lemma insertDesc_sorted (r : Server.ConversationRow) (l : list Server.ConversationRow) :
  StronglySorted (fun a b => Server.updated_at b <= Server.updated_at a) l ->
  StronglySorted (fun a b => Server.updated_at b <= Server.updated_at a)
    (Server.insertDesc r l).
Proof.
  induction 1 as [|x l Hs IH Hx]; simpl.
  - repeat constructor.
  - destruct (Z.ltb_spec (Server.updated_at x) (Server.updated_at r)).
    + constructor; [now constructor|]. constructor; [lia|].
      eapply Forall_impl; [|exact Hx]. cbn. intros; lia.
    + constructor; [exact IH|].
      eapply Permutation_Forall; [symmetry; apply insertDesc_perm|].
      constructor; [lia | exact Hx].
Qed.

Lemma orderDesc_sorted (l : list Server.ConversationRow) :
  StronglySorted (fun a b => Server.updated_at b <= Server.updated_at a)
    (Server.orderDesc l).
Proof.
  unfold Server.orderDesc. induction (rev l) as [|x l' IH]; simpl; [constructor|].
  now apply insertDesc_sorted.
Qed.

Lemma insertAsc_perm (r : Responder.Row) (l : list Responder.Row) :
  Permutation (Responder.insertAsc r l) (r :: l).
Proof.
  induction l as [|x l IH]; simpl; [reflexivity|].
  destruct (Responder.created_at r <? Responder.created_at x); [reflexivity|].
  rewrite IH. apply perm_swap.
Qed.

Lemma orderAsc_perm (l : list Responder.Row) : Permutation (Responder.orderAsc l) l.
Proof.
  unfold Responder.orderAsc. rewrite (Permutation_rev l) at 2.
  induction (rev l) as [|x l' IH]; simpl; [reflexivity|].
  now rewrite insertAsc_perm, IH.
Qed.

Lemma insertAsc_sorted (r : Responder.Row) (l : list Responder.Row) :
  StronglySorted (fun a b => Responder.created_at a <= Responder.created_at b) l ->
  StronglySorted (fun a b => Responder.created_at a <= Responder.created_at b)
    (Responder.insertAsc r l).
Proof.
  induction 1 as [|x l Hs IH Hx]; simpl.
  - repeat constructor.
  - destruct (Z.ltb_spec (Responder.created_at r) (Responder.created_at x)).
    + constructor; [now constructor|]. constructor; [lia|].
      eapply Forall_impl; [|exact Hx]. cbn. intros; lia.
    + constructor; [exact IH|].
      eapply Permutation_Forall; [symmetry; apply insertAsc_perm|].
      constructor; [lia | exact Hx].
Qed.

Lemma orderAsc_sorted (l : list Responder.Row) :
  StronglySorted (fun a b => Responder.created_at a <= Responder.created_at b)
    (Responder.orderAsc l).
Proof.
  unfold Responder.orderAsc. induction (rev l) as [|x l' IH]; simpl; [constructor|].
  now apply insertAsc_sorted.
Qed.

Lemma StronglySorted_firstn {A} (R : A -> A -> Prop) (n : nat) (l : list A) :
  StronglySorted R l -> StronglySorted R (firstn n l).
Proof.
  intros H. revert n. induction H as [|x l Hs IH Hx]; intros [|n]; simpl; try constructor.
  - apply IH.
  - apply Forall_forall. intros y Hy. apply (proj1 (Forall_forall _ _) Hx).
    rewrite <- (firstn_skipn n l). apply in_or_app. now left.
Qed.

(** X17. [get-conversations] decides by the URL alone and never reads the
    body. Without a [conversationId] query parameter it answers with at most
    20 conversations, all from the table, most recently updated first. With
    one it answers with all the messages of that conversation and no others,
    oldest first. *)
Theorem get_conversations_reads_url_only (req : Server.GetRequest) (db : Server.Db) :
  (forall (queryError : option JsError) (b : option jsstring),
      Server.getConversations queryError
        {| Server.searchParams := Server.searchParams req; Server.bodyConversationId := b |} db
      = Server.getConversations queryError req db)
  /\ (Server.searchParamsGet (js "conversationId") (Server.searchParams req) = None ->
      exists l,
        Server.getConversations None req db
        = {| Server.getStatus := 200; Server.getBody := Server.Conversations l |}
        /\ (List.length l <= 20)%nat
        /\ incl l (Server.conversations db)
        /\ StronglySorted (fun a b => Server.updated_at b <= Server.updated_at a) l
        /\ ((List.length (Server.conversations db) <= 20)%nat ->
            Permutation l (Server.conversations db)))
  /\ (forall c : jsstring,
        Server.searchParamsGet (js "conversationId") (Server.searchParams req) = Some c ->
        truthy c = true ->
        exists l,
          Server.getConversations None req db
          = {| Server.getStatus := 200; Server.getBody := Server.Messages l |}
          /\ Permutation l
               (filter (fun r => JS.eqb (Responder.conversation_id r) c) (Server.messages db))
          /\ StronglySorted
               (fun a b => Responder.created_at a <= Responder.created_at b) l).
Proof.
  split; [reflexivity|]. split.
  - intros Hq. exists (firstn 20 (Server.orderDesc (Server.conversations db))).
    unfold Server.getConversations. rewrite Hq.
    split; [reflexivity|]. split; [apply firstn_le_length|]. split; [|split].
    + intros x Hx. apply (Permutation_in x (orderDesc_perm (Server.conversations db))).
      rewrite <- (firstn_skipn 20 (Server.orderDesc _)). apply in_or_app. now left.
    + apply StronglySorted_firstn, orderDesc_sorted.
    + intros Hlen. rewrite firstn_all2; [apply orderDesc_perm|].
      now rewrite (Permutation_length (orderDesc_perm (Server.conversations db))).
  - intros c Hq Ht. eexists. unfold Server.getConversations. rewrite Hq, Ht.
    split; [reflexivity|]. split; [apply orderAsc_perm | apply orderAsc_sorted].
Qed.

Lemma get_conversations_reads_url_only_witness :
  let viaBody := {| Server.searchParams := [];
                    Server.bodyConversationId := Some (js "c1") |} in
  let viaUrl := {| Server.searchParams := [(js "conversationId", js "c1")];
                   Server.bodyConversationId := None |} in
  (exists l, Server.getBody (Server.getConversations None viaBody sampleTables)
             = Server.Conversations l)
  /\ (exists l, Server.getBody (Server.getConversations None viaUrl sampleTables)
                = Server.Messages l /\ List.length l = 21%nat).
Proof.
  intros viaBody viaUrl. split.
  - destruct (get_conversations_reads_url_only viaBody sampleTables) as (_ & H & _).
    destruct (H eq_refl) as (l & Hl & _). exists l. now rewrite Hl.
  - destruct (get_conversations_reads_url_only viaUrl sampleTables) as (_ & _ & H).
    destruct (H (js "c1") eq_refl eq_refl) as (l & Hl & Hp & _).
    exists l. split; [now rewrite Hl|].
    rewrite (Permutation_length Hp). vm_compute. reflexivity.
Defined.

(** X18. After a request to [chat-with-ai] for an existing conversation has
    stored its rows at a time later than every [updated_at] in the table,
    the list of conversations begins with that conversation: the trigger on
    [messages] has moved its [updated_at]. *)
Theorem chatted_conversation_listed_first (env : Server.ChatEnv) (req : InvokeBody)
        (db : Server.Db) (c ai : jsstring) (st : N) (get : Server.GetRequest) :
  Server.present (Server.openAIApiKey env) = true ->
  Server.fetchOpenAI env
    (Responder.openAIMessages (Server.messages db) (body_message req)
       (body_conversationId req) (body_imageUrl req))
  = Server.HttpResponse st ai ->
  (200 <= st <= 299)%N ->
  body_conversationId req = Some c ->
  truthy c = true ->
  Server.conversationExists c db = true ->
  Server.aiMessageError env = false ->
  Forall (fun x => Server.updated_at x < Server.now_aiMessage env) (Server.conversations db) ->
  Server.searchParamsGet (js "conversationId") (Server.searchParams get) = None ->
  exists first rest,
    Server.getConversations None get (snd (Server.chatWithAi env req db))
    = {| Server.getStatus := 200;
         Server.getBody := Server.Conversations (first :: rest) |}
    /\ Server.id first = c
    /\ Server.updated_at first = Server.now_aiMessage env.
Proof.
  intros Hk Hf Hst Hc Ht He Ha Hold Hq.
  assert (Hconv : Server.conversations (snd (Server.chatWithAi env req db))
                  = Server.update_conversation_updated_at (Server.now_aiMessage env) c
                      (Server.conversations db)).
  { unfold Server.chatWithAi. rewrite Hk, Hf, Hc, Ht. cbn [negb].
    destruct Hst as [H1 H2]. apply N.leb_le in H1, H2. rewrite H1, H2. cbn [andb negb].
    rewrite saveMessages_run by exact He. rewrite Ha, andb_false_r. reflexivity. }
  unfold Server.getConversations. rewrite Hq, Hconv.
  set (l := Server.update_conversation_updated_at (Server.now_aiMessage env) c
              (Server.conversations db)).
  (* every row of the table is either the touched conversation or older *)
  assert (Hrows : Forall (fun x => (Server.id x = c
                                    /\ Server.updated_at x = Server.now_aiMessage env)
                                   \/ Server.updated_at x < Server.now_aiMessage env) l).
  { unfold l, Server.update_conversation_updated_at. apply Forall_forall.
    intros x Hx. apply in_map_iff in Hx as (y & <- & Hy).
    destruct (JS.eqb (Server.id y) c) eqn:E.
    - left. apply jseqb_eq in E. now split.
    - right. apply (proj1 (Forall_forall _ _) Hold y Hy). }
  assert (Hin : exists x, In x l /\ Server.updated_at x = Server.now_aiMessage env).
  { unfold Server.conversationExists in He. apply existsb_exists in He as (y & Hy & E).
    exists {| Server.id := Server.id y; Server.title := Server.title y;
              Server.created_at := Server.created_at y;
              Server.updated_at := Server.now_aiMessage env |}.
    split; [|reflexivity]. unfold l, Server.update_conversation_updated_at.
    apply in_map_iff. exists y. now rewrite E. }
  destruct Hin as (x & Hx & Hxt).
  pose proof (orderDesc_perm l) as Hp. pose proof (orderDesc_sorted l) as Hs.
  destruct (Server.orderDesc l) as [|first rest] eqn:Eo.
  { exfalso. apply Permutation_nil in Hp. rewrite Hp in Hx. exact Hx. }
  exists first, (firstn 19 rest). split; [reflexivity|].
  assert (Hfirst : In first l) by (apply (Permutation_in first Hp); now left).
  assert (Hmax : Server.updated_at x <= Server.updated_at first).
  { apply (Permutation_in x (Permutation_sym Hp)) in Hx. destruct Hx as [<- | Hx]; [lia|].
    inversion Hs as [|? ? _ Hall]; subst.
    apply (proj1 (Forall_forall _ _) Hall x Hx). }
  destruct (proj1 (Forall_forall _ _) Hrows first Hfirst) as [[Hid Hup] | Hlt].
  - now split.
  - lia.
Qed.

Lemma chatted_conversation_listed_first_witness :
  exists first rest,
    Server.getConversations None
      {| Server.searchParams := []; Server.bodyConversationId := None |}
      (snd (Server.chatWithAi sampleChatEnv (sampleRequest (Some (js "c1"))) sampleTables))
    = {| Server.getStatus := 200; Server.getBody := Server.Conversations (first :: rest) |}
    /\ Server.id first = js "c1"
    /\ Server.updated_at first = 42.
Proof.
  assert (Hst : (200 <= 200 <= 299)%N) by lia.
  assert (Hold : Forall (fun x => Server.updated_at x < Server.now_aiMessage sampleChatEnv)
                   (Server.conversations sampleTables))
    by (repeat constructor).
  exact (@chatted_conversation_listed_first sampleChatEnv (sampleRequest (Some (js "c1")))
           sampleTables (js "c1") (js "Hello!") 200%N
           {| Server.searchParams := []; Server.bodyConversationId := None |}
           eq_refl eq_refl Hst eq_refl eq_refl eq_refl eq_refl Hold eq_refl).
Defined.

(** * The components around the controller *)

Lemma trimStart_idem (s : jsstring) : trimStart (trimStart s) = trimStart s.
Proof.
  induction s as [|c s IH]; simpl; [reflexivity|].
  destruct (isWhiteSpace c) eqn:E; [exact IH|]. simpl. now rewrite E.
Qed.

Lemma trimStart_snoc (l : jsstring) (c : N) :
  isWhiteSpace c = false -> trimStart (l ++ [c]) = trimStart l ++ [c].
Proof.
  intros Hc. induction l as [|x l IH]; simpl; [now rewrite Hc|].
  destruct (isWhiteSpace x); [exact IH | reflexivity].
Qed.

Lemma trimStart_head (s : jsstring) :
  trimStart s = [] \/ exists c t, trimStart s = c :: t /\ isWhiteSpace c = false.
Proof.
  induction s as [|c s IH]; simpl; [now left|].
  destruct (isWhiteSpace c) eqn:E; [exact IH|]. right. now exists c, s.
Qed.

Lemma trim_idem (s : jsstring) : trim (trim s) = trim s.
Proof.
  unfold trim, trimEnd.
  destruct (trimStart_head s) as [-> | (c & t & -> & Hc)]; [reflexivity|].
  change (rev (c :: t)) with (rev t ++ [c]).
  rewrite (@trimStart_snoc _ c Hc), rev_app_distr. cbn [rev app].
  cbn [trimStart]. rewrite Hc.
  change (rev (c :: rev (trimStart (rev t)))) with (rev (rev (trimStart (rev t))) ++ [c]).
  rewrite rev_involutive, (@trimStart_snoc _ c Hc), trimStart_idem, rev_app_distr.
  reflexivity.
Qed.

(** X19. Whatever [handleSend] sends has a text that is not empty and has
    no white space at either end: the text of the box trimmed, or the
    default text when the box holds only white space; the file is the one
    attached, and the box is emptied. It sends nothing exactly when the
    send button is disabled for a box that is not loading, and then leaves
    the box as it is. *)
Theorem handleSend_sends_trimmed (st : ChatInput.InputState) :
  match snd (ChatInput.handleSend st) with
  | Some vars =>
      message vars <> []
      /\ trim (message vars) = message vars
      /\ (message vars = trim (ChatInput.message st)
          \/ (whitespaceOnly (ChatInput.message st)
              /\ message vars = js "Please analyze this image"))
      /\ imageFile vars = ChatInput.selectedImage st
      /\ fst (ChatInput.handleSend st)
         = {| ChatInput.message := []; ChatInput.selectedImage := None;
              ChatInput.imagePreview := None |}
      /\ sendButtonDisabled false st = false
  | None =>
      whitespaceOnly (ChatInput.message st)
      /\ ChatInput.selectedImage st = None
      /\ fst (ChatInput.handleSend st) = st
      /\ sendButtonDisabled false st = true
  end.
Proof.
  unfold ChatInput.handleSend, sendButtonDisabled, or_else.
  destruct (trim (ChatInput.message st)) as [|c t] eqn:Et.
  - apply trim_nil_iff in Et.
    destruct (ChatInput.selectedImage st) as [f|]; cbn.
    + repeat split; try discriminate; auto.
    + repeat split; auto.
  - assert (Hidem : trim (c :: t) = c :: t) by (rewrite <- Et; apply trim_idem).
    cbn. repeat split; try discriminate; auto.
Qed.

(** X20. A conversation started from the starter never gets a blank title.
    [handleSubmit] passes the text on exactly when it is not white space
    only, and empties and collapses the box; the title computed from it is
    the text when that has at most 30 code units, its first 30 and '...'
    otherwise, so it has at most 33 and is not white space only. Enter
    without shift submits in the same way, whether or not a creation is in
    progress. *)
Theorem starter_title_never_blank (st : ConversationStarter.StarterState) :
  match snd (ConversationStarter.handleSubmit st) with
  | Some m =>
      m = ConversationStarter.message st
      /\ fst (ConversationStarter.handleSubmit st)
         = {| ConversationStarter.message := []; ConversationStarter.expanded := false |}
      /\ ~ whitespaceOnly (suggestedTitle m)
      /\ (List.length (suggestedTitle m) <= 33)%nat
      /\ firstn 30 (suggestedTitle m) = firstn 30 m
      /\ (suggestedTitle m = m \/ (30 < List.length m)%nat)
      /\ ConversationStarter.submitDisabled false st = false
  | None =>
      whitespaceOnly (ConversationStarter.message st)
      /\ fst (ConversationStarter.handleSubmit st) = st
      /\ ConversationStarter.submitDisabled false st = true
  end
  /\ ConversationStarter.handleKeyDown ConversationStarter.Enter false st
     = ConversationStarter.handleSubmit st.
Proof.
  split; [|reflexivity].
  unfold ConversationStarter.handleSubmit, ConversationStarter.submitDisabled.
  destruct (trim (ConversationStarter.message st)) as [|c t] eqn:Et;
    cbn [fst snd truthy negb orb].
  - apply trim_nil_iff in Et. repeat split; auto.
  - assert (Hnb : ~ whitespaceOnly (ConversationStarter.message st)).
    { intros H. apply trim_nil_iff in H. congruence. }
    unfold suggestedTitle.
    destruct (Nat.leb_spec (List.length (ConversationStarter.message st)) 30) as [Hle|Hlt].
    + split; [reflexivity|]. split; [reflexivity|]. split; [exact Hnb|].
      split; [lia|]. split; [reflexivity|]. split; [now left | reflexivity].
    + split; [reflexivity|]. split; [reflexivity|].
      split; [|split; [|split; [|split; [right; lia | reflexivity]]]].
      * intros H. unfold whitespaceOnly in H. apply Forall_app in H as [_ H].
        inversion H as [|? ? Hdot _]. discriminate Hdot.
      * rewrite length_app, length_firstn. change (List.length (js "...")) with 3%nat. lia.
      * rewrite firstn_app, length_firstn.
        replace (30 - Nat.min 30 (List.length (ConversationStarter.message st)))%nat
          with 0%nat by lia.
        now rewrite firstn_firstn, firstn_O, app_nil_r.
Qed.

(** ** The file input *)

Lemma handleFileChange_file (picked : option ChatInputFile.PickedFile)
      (st : ChatInputDisableable.InputState) (f : File) :
  ChatInputDisableable.imageFile (fst (ChatInputFile.handleFileChange picked st)) = Some f ->
  ChatInputDisableable.imageFile st = Some f
  \/ exists p, picked = Some p /\ ChatInputFile.file p = f
               /\ ChatInputFile.acceptable p = true.
Proof.
  unfold ChatInputFile.handleFileChange.
  destruct picked as [p|]; [|now left].
  destruct (JS.startsWith (ChatInputFile.type p) (js "image/")) eqn:Et; cbn [negb];
    [|now left].
  destruct (Z.gtb_spec (ChatInputFile.size (ChatInputFile.file p)) (5 * 1024 * 1024));
    [now left|].
  cbn [fst ChatInputDisableable.imageFile]. intros Hf. injection Hf as <-.
  right. exists p. split; [reflexivity|]. split; [reflexivity|].
  unfold ChatInputFile.acceptable. rewrite Et. apply Z.leb_le. lia.
Qed.

Lemma inputEvents_files (events : list ChatInputFile.InputEvent) :
  forall (st : ChatInputDisableable.InputState) (f : File),
    (In (Some f) (map imageFile (snd (ChatInputFile.inputEvents events st)))
     \/ ChatInputDisableable.imageFile (fst (ChatInputFile.inputEvents events st)) = Some f) ->
    ChatInputDisableable.imageFile st = Some f
    \/ exists p, In (ChatInputFile.FileChange (Some p)) events
                 /\ ChatInputFile.file p = f /\ ChatInputFile.acceptable p = true.
Proof.
  induction events as [|e events IH]; intros st f H.
  - cbn in H. destruct H as [[] | H]. now left.
  - cbn [ChatInputFile.inputEvents] in H.
    destruct (ChatInputFile.inputEvent e st) as [st1 sent1] eqn:E1.
    destruct (ChatInputFile.inputEvents events st1) as [st2 sent2] eqn:E2.
    cbn [fst snd] in H.
    assert (Hrest : In (Some f) (map imageFile sent1)
                    \/ ChatInputDisableable.imageFile st1 = Some f
                    \/ exists p, In (ChatInputFile.FileChange (Some p)) events
                                 /\ ChatInputFile.file p = f
                                 /\ ChatInputFile.acceptable p = true).
    { destruct H as [H | H].
      - rewrite map_app in H. apply in_app_or in H as [H | H]; [now left|].
        right. apply (IH st1 f). left. now rewrite E2.
      - right. apply (IH st1 f). right. now rewrite E2. }
    assert (Hlater : forall p, In (ChatInputFile.FileChange (Some p)) events ->
                               In (ChatInputFile.FileChange (Some p)) (e :: events))
      by (intros; now right).
    destruct Hrest as [Hs | [Hs | (p & Hp & Hf & Ha)]];
      [| |right; exists p; auto].
    + destruct e; cbn in E1; try (injection E1 as <- <-; now destruct Hs).
      unfold ChatInputDisableable.handleSendMessage in E1.
      destruct (JS.eqb _ _ && _); injection E1 as <- <-; [now destruct Hs|].
      cbn in Hs. destruct Hs as [Hs | []]. now left.
    + destruct e; cbn in E1.
      * injection E1 as <- <-. now left.
      * injection E1 as <- <-.
        destruct (handleFileChange_file _ _ Hs) as [H' | (p & -> & Hf & Ha)];
          [now left|].
        right. exists p. repeat split; auto. now left.
      * injection E1 as <- <-. now left.
      * injection E1 as <- <-. discriminate Hs.
      * unfold ChatInputDisableable.handleSendMessage in E1.
        destruct (JS.eqb _ _ && _); injection E1 as <- <-; [now left | discriminate Hs].
Qed.

(** X21. Whatever is typed, picked, removed and sent, from an empty box,
    a file that reaches [onSendMessage], or is attached at the end, is one
    that was picked with a type beginning with 'image/' and a size of at
    most 5 MiB. A pick that fails either test leaves the box as it was and
    raises an alert. *)
Theorem only_accepted_files_are_sent (events : list ChatInputFile.InputEvent) :
  let r := ChatInputFile.inputEvents events ChatInputFile.emptyInput in
  (forall f : File,
      In (Some f) (map imageFile (snd r))
      \/ ChatInputDisableable.imageFile (fst r) = Some f ->
      exists p, In (ChatInputFile.FileChange (Some p)) events
                /\ ChatInputFile.file p = f
                /\ JS.startsWith (ChatInputFile.type p) (js "image/") = true
                /\ ChatInputFile.size f <= 5 * 1024 * 1024)
  /\ (forall (p : ChatInputFile.PickedFile) (st : ChatInputDisableable.InputState),
        ChatInputFile.acceptable p = false ->
        fst (ChatInputFile.handleFileChange (Some p) st) = st
        /\ snd (ChatInputFile.handleFileChange (Some p) st) <> None).
Proof.
  cbn zeta. split.
  - intros f H. destruct (@inputEvents_files events _ f H) as [H' | (p & Hp & Hf & Ha)].
    + discriminate H'.
    + exists p. unfold ChatInputFile.acceptable in Ha.
      apply andb_true_iff in Ha as [Ht Hs]. apply Z.leb_le in Hs.
      rewrite <- Hf. auto.
  - intros p st Ha. unfold ChatInputFile.acceptable in Ha.
    unfold ChatInputFile.handleFileChange.
    destruct (JS.startsWith (ChatInputFile.type p) (js "image/")); cbn [negb andb] in *.
    + destruct (Z.gtb_spec (ChatInputFile.size (ChatInputFile.file p)) (5 * 1024 * 1024)).
      * split; [reflexivity | discriminate].
      * apply Z.leb_gt in Ha. lia.
    + split; [reflexivity | discriminate].
Qed.

Lemma only_accepted_files_are_sent_witness :
  let events := [ChatInputFile.FileChange (Some (samplePicked "application/pdf"));
                 ChatInputFile.Typed (js "What is this?");
                 ChatInputFile.Send;
                 ChatInputFile.FileChange (Some (samplePicked "image/png"));
                 ChatInputFile.Send] in
  map imageFile (snd (ChatInputFile.inputEvents events ChatInputFile.emptyInput))
  = [None; Some sampleFile]
  /\ exists p, In (ChatInputFile.FileChange (Some p)) events
               /\ ChatInputFile.file p = sampleFile
               /\ JS.startsWith (ChatInputFile.type p) (js "image/") = true
               /\ ChatInputFile.size sampleFile <= 5 * 1024 * 1024.
Proof.
  intros events. split; [reflexivity|].
  destruct (only_accepted_files_are_sent events) as [H _].
  apply (H sampleFile). left. cbn. auto.
Defined.

(** ** The typing effect *)

(** Ticks of the only running interval, as long as it has text left. *)
Lemma ticks_reveal (text : jsstring) (k : nat) :
  forall st : ChatMessageView.ViewState,
    ChatMessageView.intervals st
    = [{| ChatMessageView.content := text; ChatMessageView.currentIndex := 0 |}] ->
    (k <= List.length text)%nat ->
    Nat.iter k (ChatMessageView.tick 0) st
    = {| ChatMessageView.isUser := ChatMessageView.isUser st;
         ChatMessageView.message_content := ChatMessageView.message_content st;
         ChatMessageView.displayedText :=
           match k with O => ChatMessageView.displayedText st | S _ => firstn k text end;
         ChatMessageView.isTyping := ChatMessageView.isTyping st;
         ChatMessageView.isFullyDisplayed := ChatMessageView.isFullyDisplayed st;
         ChatMessageView.typingTimer := ChatMessageView.typingTimer st;
         ChatMessageView.intervals :=
           [{| ChatMessageView.content := text; ChatMessageView.currentIndex := k |}] |}.
Proof.
  induction k as [|k IH]; intros st Hi Hk.
  - destruct st. cbn in *. now rewrite Hi.
  - rewrite Nat.iter_succ, (IH st Hi) by lia.
    unfold ChatMessageView.tick.
    cbn [ChatMessageView.intervals nth_error ChatMessageView.currentIndex
         ChatMessageView.content].
    destruct (Nat.ltb_spec k (List.length text)); [|lia].
    cbn [ChatMessageView.replaceNth ChatMessageView.isUser
         ChatMessageView.message_content ChatMessageView.isTyping
         ChatMessageView.isFullyDisplayed ChatMessageView.typingTimer].
    now rewrite Nat.add_1_r.
Qed.

Lemma ticks_finish (text : jsstring) (st : ChatMessageView.ViewState) :
  ChatMessageView.intervals st
  = [{| ChatMessageView.content := text; ChatMessageView.currentIndex := 0 |}] ->
  text <> [] ->
  Nat.iter (S (List.length text)) (ChatMessageView.tick 0) st
  = {| ChatMessageView.isUser := ChatMessageView.isUser st;
       ChatMessageView.message_content := ChatMessageView.message_content st;
       ChatMessageView.displayedText := text;
       ChatMessageView.isTyping := false;
       ChatMessageView.isFullyDisplayed := true;
       ChatMessageView.typingTimer := ChatMessageView.typingTimer st;
       ChatMessageView.intervals := [] |}.
Proof.
  intros Hi Hne. rewrite Nat.iter_succ, (@ticks_reveal text (List.length text) st Hi) by lia.
  unfold ChatMessageView.tick.
  cbn [ChatMessageView.intervals nth_error ChatMessageView.currentIndex
       ChatMessageView.content].
  rewrite Nat.ltb_irrefl.
  cbn [ChatMessageView.removeNth ChatMessageView.isUser
       ChatMessageView.message_content ChatMessageView.displayedText
       ChatMessageView.typingTimer].
  rewrite firstn_all. destruct text as [|c t]; [contradiction | reflexivity].
Qed.

(** X22. An assistant message with a non-empty content is revealed one code
    unit per tick: before the timeout fires nothing is shown and the cursor
    is on; after [k] ticks the first [k] code units are shown; the tick
    after the last one turns the cursor off, marks the message fully
    displayed and stops the interval, and no timer is left. *)
Theorem typing_reveals_whole_text (text : jsstring) :
  text <> [] ->
  let mounted := ChatMessageView.mount false text in
  let started := ChatMessageView.timeoutFires mounted in
  let finished := Nat.iter (S (List.length text)) (ChatMessageView.tick 0) started in
  ChatMessageView.displayedText mounted = []
  /\ ChatMessageView.isTyping mounted = true
  /\ ChatMessageView.isFullyDisplayed mounted = false
  /\ (forall k : nat,
        (k <= List.length text)%nat ->
        let st := Nat.iter k (ChatMessageView.tick 0) started in
        ChatMessageView.displayedText st = firstn k text
        /\ ChatMessageView.isTyping st = true
        /\ ChatMessageView.isFullyDisplayed st = false)
  /\ ChatMessageView.displayedText finished = text
  /\ ChatMessageView.isTyping finished = false
  /\ ChatMessageView.isFullyDisplayed finished = true
  /\ ChatMessageView.intervals finished = []
  /\ ChatMessageView.typingTimer finished = None.
Proof.
  intros Hne. cbn zeta.
  assert (Hm : ChatMessageView.mount false text
               = {| ChatMessageView.isUser := false;
                    ChatMessageView.message_content := text;
                    ChatMessageView.displayedText := [];
                    ChatMessageView.isTyping := true;
                    ChatMessageView.isFullyDisplayed := false;
                    ChatMessageView.typingTimer := Some text;
                    ChatMessageView.intervals := [] |}).
  { destruct text; [contradiction | reflexivity]. }
  rewrite Hm. unfold ChatMessageView.timeoutFires.
  cbn [ChatMessageView.typingTimer ChatMessageView.intervals app
       ChatMessageView.isUser ChatMessageView.message_content
       ChatMessageView.displayedText ChatMessageView.isTyping
       ChatMessageView.isFullyDisplayed].
  split; [reflexivity|]. split; [reflexivity|]. split; [reflexivity|]. split.
  - intros k Hk. rewrite (@ticks_reveal text k) by (try reflexivity; exact Hk).
    destruct k; repeat split; reflexivity.
  - rewrite (@ticks_finish text) by (try reflexivity; exact Hne). repeat split; reflexivity.
Qed.

Lemma typing_reveals_whole_text_witness :
  let started := ChatMessageView.timeoutFires (ChatMessageView.mount false (js "Hello!")) in
  ChatMessageView.displayedText (Nat.iter 3 (ChatMessageView.tick 0) started) = js "Hel"
  /\ ChatMessageView.isFullyDisplayed (Nat.iter 7 (ChatMessageView.tick 0) started) = true.
Proof.
  intros started.
  assert (Hne : js "Hello!" <> []) by discriminate.
  destruct (typing_reveals_whole_text Hne) as (_ & _ & _ & Hk & _ & _ & Hf & _).
  split.
  - assert (H3 : (3 <= List.length (js "Hello!"))%nat) by (vm_compute; lia).
    destruct (Hk 3%nat H3) as (Hd & _). exact Hd.
  - exact Hf.
Defined.

(** X23. A user message is shown whole at once, and an assistant message
    with an empty content shows nothing, is never marked fully displayed,
    and has no typing cursor; in both cases no timer is set, so no timer
    event changes the view. *)
Theorem nothing_typed_for_user_or_empty (user : bool) (text : jsstring)
        (events : list ChatMessageView.TimerEvent) :
  user = true \/ text = [] ->
  let mounted := ChatMessageView.mount user text in
  ChatMessageView.timerEvents events mounted = mounted
  /\ ChatMessageView.displayedText mounted = (if user then text else [])
  /\ ChatMessageView.isTyping mounted = false
  /\ ChatMessageView.isFullyDisplayed mounted = user
  /\ ChatMessageView.typingTimer mounted = None
  /\ ChatMessageView.intervals mounted = [].
Proof.
  intros H. cbn zeta.
  assert (Hq : ChatMessageView.typingTimer (ChatMessageView.mount user text) = None
               /\ ChatMessageView.intervals (ChatMessageView.mount user text) = []).
  { destruct H as [-> | ->]; [split; reflexivity|]. destruct user; split; reflexivity. }
  split.
  - destruct Hq as [Ht Hi]. revert Ht Hi.
    generalize (ChatMessageView.mount user text) as st. intros st Ht Hi.
    induction events as [|e events IH]; [reflexivity|].
    cbn [ChatMessageView.timerEvents fold_left].
    assert (He : ChatMessageView.timerEvent e st = st).
    { destruct e as [|i]; cbn [ChatMessageView.timerEvent].
      - unfold ChatMessageView.timeoutFires. now rewrite Ht.
      - unfold ChatMessageView.tick. rewrite Hi. now destruct i. }
    rewrite He. exact IH.
  - destruct H as [-> | ->]; [repeat split; reflexivity|].
    destruct user; repeat split; reflexivity.
Qed.

Lemma nothing_typed_for_user_or_empty_witness :
  let placeholder := ChatMessageView.mount false [] in
  ChatMessageView.timerEvents
    [ChatMessageView.TimeoutFires; ChatMessageView.Tick 0; ChatMessageView.Tick 0] placeholder
  = placeholder
  /\ ChatMessageView.isTyping placeholder = false.
Proof.
  intros placeholder.
  destruct (@nothing_typed_for_user_or_empty false []
              [ChatMessageView.TimeoutFires; ChatMessageView.Tick 0; ChatMessageView.Tick 0]
              (or_intror eq_refl)) as (He & _ & Ht & _).
  split; [exact He | exact Ht].
Defined.



(** * Further properties of the controller, continued *)

Lemma Role_eqb_eq (a b : Role) : Role_eqb a b = true <-> a = b.
Proof. destruct a, b; simpl; split; congruence. Qed.

Lemma option_eqb_eq (a b : option jsstring) : option_eqb a b = true <-> a = b.
Proof.
  destruct a as [x|], b as [y|]; simpl; try (split; congruence).
  rewrite jseqb_eq. split; congruence.
Qed.

Lemma Message_eqb_eq (a b : Message) : Message_eqb a b = true <-> a = b.
Proof.
  destruct a as [i r c u t], b as [i' r' c' u' t']. unfold Message_eqb.
  cbn [Message.id Message.role Message.content Message.image_url Message.created_at].
  rewrite !andb_true_iff, !jseqb_eq, Role_eqb_eq, option_eqb_eq.
  split.
  - intros ((((-> & ->) & ->) & ->) & ->). reflexivity.
  - intros H. injection H as -> -> -> -> ->. repeat split.
Qed.

Lemma messages_eqb_eq (l l' : list Message) : messages_eqb l l' = true <-> l = l'.
Proof.
  revert l'. induction l as [|a l IH]; intros [|b l']; simpl; try (split; congruence).
  rewrite andb_true_iff, Message_eqb_eq, IH. split.
  - intros [-> ->]. reflexivity.
  - intros H. injection H as -> ->. split; reflexivity.
Qed.

Lemma sameData_eq (a b : option (list Message)) : sameData a b = true <-> a = b.
Proof.
  destruct a as [l|], b as [l'|]; simpl; try (split; congruence).
  rewrite messages_eqb_eq. split; congruence.
Qed.

(** X25. A delivery of query data whose content differs from the data held
    replaces the Message Store by that data, whatever the store held
    (placeholders and rows received over the realtime channel included). The
    recovery effect runs in the render that still shows the old store and
    again in the render that shows the new one: it invokes the responder for
    the last message of the old store and for the last message of the data,
    each when it is from the user. A delivery of data equal to the data held
    (a refetch that found nothing new) hands over the same object and
    changes nothing: no effect runs and the store keeps its rows. *)
Theorem query_data_replaces_store (s : State) (d : list Message) :
  (messagesData s <> Some d ->
   let r := dispatch (messagesQuerySettled d) s in
   messages (state_of r) = d
   /\ recoveryInvocations (trace r)
      = lastUserRecovery (currentConversationId s) (messages s)
        ++ lastUserRecovery (currentConversationId s) d)
  /\ (messagesData s = Some d ->
      messagesLoading s = false ->
      dispatch (messagesQuerySettled d) s = (Returned tt, s, [])).
Proof.
  assert (Hn : forall n : nat, Nat.eqb n (S n) = false)
    by (intros n; apply Nat.eqb_neq; lia).
  split.
  - intros Hne. cbn zeta.
    assert (Hs : sameData (Some d) (messagesData s) = false).
    { destruct (sameData (Some d) (messagesData s)) eqn:E; [|reflexivity].
      apply sameData_eq in E. congruence. }
    revert Hs. clear Hne. open_state s. cbn [messagesData]. intros Hs.
    assert (Hh : messagesQuerySettled d
                   {| currentConversationId := cid; messages := msgs; messagesRef := mref;
                      connectionStatus := cs; pendingMessage := pm;
                      subscriptionStatus := ss; isDeletingConversation := del;
                      realtimeChannelRef := ch; retryCountRef := n; retryTimeoutRef := rt;
                      timerSeq := ts; conversationsData := cd; messagesData := md;
                      messagesDataRef := mdr; messagesLoading := ml; onLine := ol |}
                 = (Returned tt,
                    {| currentConversationId := cid; messages := msgs; messagesRef := mref;
                       connectionStatus := cs; pendingMessage := pm;
                       subscriptionStatus := ss; isDeletingConversation := del;
                       realtimeChannelRef := ch; retryCountRef := n; retryTimeoutRef := rt;
                       timerSeq := ts; conversationsData := cd; messagesData := Some d;
                       messagesDataRef := S mdr; messagesLoading := false; onLine := ol |},
                    [])).
    { unfold messagesQuerySettled, setMessagesQuery, modify. now rewrite Hs. }
    unfold dispatch. rewrite bind_gets.
    erewrite bind_run by exact Hh.
    unfold runEffects. rewrite bind_gets.
    erewrite bind_run by apply effectsPass_run.
    rewrite effectsPass_run.
    unfold syncDepsChanged, recoveryDepsChanged, syncDepsChanged, syncMessagesEffect.
    cbn [messagesDataRef currentConversationId messagesLoading messagesRef messagesData
         state_of fst snd].
    rewrite Hn, option_eqb_refl. cbn [negb orb].
    cbn -[recoveryTrace recoveryInvocations lastUserRecovery Nat.eqb option_eqb].
    rewrite Nat.eqb_refl, option_eqb_refl, Hn. cbn [negb orb].
    split; [reflexivity|].
    rewrite recoveryInvocations_app, !recoveryTrace_invocations. reflexivity.
  - intros Hd Hl.
    assert (Hs : sameData (Some d) (messagesData s) = true) by (apply sameData_eq; congruence).
    assert (Hh : messagesQuerySettled d s = (Returned tt, s, [])).
    { revert Hs Hl. open_state s. cbn [messagesData messagesLoading]. intros Hs ->.
      unfold messagesQuerySettled, setMessagesQuery, modify. now rewrite Hs. }
    unfold dispatch. rewrite bind_gets.
    erewrite bind_run by exact Hh.
    unfold runEffects. rewrite bind_gets.
    erewrite bind_run by apply effectsPass_same.
    now rewrite effectsPass_same.
Qed.

Lemma query_data_replaces_store_witness :
  let m1 := sampleMessage "m1" user "Hi" in
  let m2 := sampleMessage "m2" assistant "Hi!" in
  let loaded := state_of (dispatch (messagesQuerySettled [m1])
                            (conversationSelected (js "c1"))) in
  let placeholder := sampleMessage "optimistic-user-1" user "Hello" in
  let s := state_of (setMessages [m1; placeholder] loaded) in
  messages (state_of (dispatch (messagesQuerySettled [m1; m2]) s)) = [m1; m2]
  /\ List.length (recoveryInvocations (trace (dispatch (messagesQuerySettled [m1; m2]) s)))
     = 1%nat
  /\ dispatch (messagesQuerySettled [m1]) s = (Returned tt, s, []).
Proof.
  intros m1 m2 loaded placeholder s.
  destruct (query_data_replaces_store s [m1; m2]) as [Hnew _].
  destruct (query_data_replaces_store s [m1]) as [_ Hsame].
  assert (Hne : messagesData s <> Some [m1; m2]) by (vm_compute; discriminate).
  destruct (Hnew Hne) as [Hm Hr].
  split; [exact Hm|]. split; [rewrite Hr; reflexivity|].
  apply Hsame; reflexivity.
Defined.

(** X26. A subscription whose handshake times out or is closed is not
    recovered by the controller: the status callback does nothing for these
    statuses, so the status stays [inactive], nothing is scheduled, and the
    browser's online event, which resubscribes only from [error], does not
    subscribe again. *)
Theorem silent_subscription_not_recovered (s : State) (c : jsstring) (st : ChannelStatus) :
  st = TIMED_OUT \/ st = CLOSED ->
  let r1 := setupRealtimeSubscription c s in
  let r2 := onSubscribeStatus c st (state_of r1) in
  let r3 := windowOnline (state_of r2) in
  r2 = (Returned tt, state_of r1, [])
  /\ subscriptionStatus (state_of r3) = inactive
  /\ realtimeChannelRef (state_of r3) = Some c
  /\ existsb (fun a => match a with
                       | Subscribe _ | RemoveChannel _ | SetTimeout _ _ _ => true
                       | _ => false
                       end) (trace r3) = false.
Proof.
  intros Hst. cbn zeta.
  assert (H2 : forall x, onSubscribeStatus c st x = (Returned tt, x, []))
    by (destruct Hst as [-> | ->]; reflexivity).
  rewrite !H2, state_of_mk. split; [reflexivity|].
  open_state s.
  unfold setupRealtimeSubscription, windowOnline, handleOnlineStatus, handleSendMessage,
    activeConversation.
  destruct ch as [c0|], pm as [p|]; cbn; repeat split; reflexivity.
Qed.

Lemma silent_subscription_not_recovered_witness :
  let s := conversationSelected (js "c1") in
  subscriptionStatus
    (state_of
       (windowOnline
          (state_of (onSubscribeStatus (js "c1") TIMED_OUT
                       (state_of (setupRealtimeSubscription (js "c1") s))))))
  = inactive.
Proof.
  intros s.
  destruct (@silent_subscription_not_recovered s (js "c1") TIMED_OUT (or_introl eq_refl))
    as (_ & H & _).
  exact H.
Defined.
